(** * ClickUp docs -> Dust datasource synchronisation: a shallow embedding

    The repository holds four near-identical scripts.  Each one fetches the
    page tree of one or of all ClickUp docs, keeps the pages that have text
    and are not archived, and writes each of them to a Dust datasource:

    - [src/clickup/clickup-docs-to-dust.ts]  (module [AllDocs]): every doc of
      the workspace, a retrying fetch with capped exponential back-off, an
      HTTP client that resolves every status below 500;
    - [src/unnamed/part_000] (module [Batched]): one doc, pages flattened and
      written in batches of five;
    - [src/unnamed/part_001] (module [SingleDoc]): one doc, a retrying fetch
      with linear back-off;
    - [src/unnamed/part_002] (module [Counting]): every doc of the workspace,
      one fetch per doc, a count of the upserted pages, one try/catch per doc.

    Asynchronous functions are embedded in a monad of traces and exceptions.
    The remote services are functions of the history of the run.

    The check of the environment variables that every script makes when it
    is loaded is [missingEnvVars] and [startup] of its module; [script] is
    the whole program, the check followed by the call of [main].

    Left out: the headers and credentials of the HTTP clients, and time.  The
    limiters (Bottleneck, one job at a time) only space the requests, so a
    call through a limiter is embedded as the call; the pauses that the
    scripts make themselves ([setTimeout]) are events of the trace.  The
    fetch of [src/unnamed/part_000] calls itself from inside a job of its own
    limiter, which is a matter of scheduling and not of traces: that
    function, [getClickUpPages] and [main] of that script are left out, and
    the module [Batched] starts at [processPages]. *)

From Stdlib Require Import ZArith NArith List Bool String Ascii Lia.
From Stdlib Require Import DecimalString.
Import ListNotations.

Set Warnings "-register-all".

Local Open Scope Z_scope.

(* ================================================================== *)
(** * JavaScript strings *)

(** A JavaScript string is a sequence of UTF-16 code units. *)
Definition jsstring := list N.

(** An ASCII literal of the source text. *)
Definition lit (s : string) : jsstring :=
  map N_of_ascii (list_ascii_of_string s).

(** Truthiness of a string: [s && ...] passes when [s] is not empty. *)
Definition truthy_string (s : jsstring) : bool :=
  match s with [] => false | _ :: _ => true end.

(** [s !== ''] *)
Definition nonempty (s : jsstring) : bool := truthy_string s.

(** ECMA-262 WhiteSpace and LineTerminator code points, the ones that
    [String.prototype.trim] strips. *)
Definition isWhiteSpace (c : N) : bool :=
  (N.leb 9 c && N.leb c 13                (* TAB LF VT FF CR *)
   || N.eqb c 32                          (* SP *)
   || N.eqb c 160                         (* NBSP *)
   || N.eqb c 5760                        (* U+1680 *)
   || N.leb 8192 c && N.leb c 8202        (* U+2000 .. U+200A *)
   || N.eqb c 8232 || N.eqb c 8233        (* LS PS *)
   || N.eqb c 8239 || N.eqb c 8287        (* U+202F U+205F *)
   || N.eqb c 12288                       (* U+3000 *)
   || N.eqb c 65279)%bool.                (* ZWNBSP *)

Fixpoint trimStart (s : jsstring) : jsstring :=
  match s with
  | [] => []
  | c :: r => if isWhiteSpace c then trimStart r else s
  end.

Definition trimEnd (s : jsstring) : jsstring := rev (trimStart (rev s)).

(** [s.trim()] *)
Definition trim (s : jsstring) : jsstring := trimEnd (trimStart s).

(** [`${n}`] for an integer [n]. *)
Definition showN (n : N) : jsstring :=
  lit (NilZero.string_of_uint (N.to_uint n)).

Definition showZ (z : Z) : jsstring :=
  if z <? 0 then lit "-" ++ showN (Z.to_N (- z)) else showN (Z.to_N z).

Definition showNat (n : nat) : jsstring := showN (N.of_nat n).

(** Decimal digits of [n], left-padded with zeros to [width] digits. *)
Definition pad (width : nat) (n : Z) : jsstring :=
  let d := showZ n in
  repeat 48%N (width - List.length d) ++ d.

(* ================================================================== *)
(** * Dates: [new Date(ms).toISOString()] *)

(** [new Date(v)] clips the time value: beyond 8.64e15 ms from the epoch the
    date is invalid. *)
Definition validTime (t : Z) : bool :=
  (-8640000000000000 <=? t) && (t <=? 8640000000000000).

Definition msPerDay : Z := 86400000.

(** Proleptic Gregorian calendar date of a day number counted from
    1970-01-01, as (year, month, day). *)
Definition civilFromDays (days : Z) : Z * Z * Z :=
  let z := days + 719468 in
  let era := z / 146097 in
  let doe := z - era * 146097 in
  let yoe := (doe - doe / 1460 + doe / 36524 - doe / 146096) / 365 in
  let y := yoe + era * 400 in
  let doy := doe - (365 * yoe + yoe / 4 - yoe / 100) in
  let mp := (5 * doy + 2) / 153 in
  let d := doy - (153 * mp + 2) / 5 + 1 in
  let m := if mp <? 10 then mp + 3 else mp - 9 in
  ((if m <=? 2 then y + 1 else y), m, d).

(** The year of the ISO format: four digits between 0 and 9999, otherwise a
    sign and six digits. *)
Definition isoYear (y : Z) : jsstring :=
  if (0 <=? y) && (y <=? 9999) then pad 4 y
  else (if y <? 0 then lit "-" else lit "+") ++ pad 6 (Z.abs y).

Definition isoFormat (t : Z) : jsstring :=
  let days := t / msPerDay in
  let ms := t mod msPerDay in
  let '(y, m, d) := civilFromDays days in
  isoYear y ++ lit "-" ++ pad 2 m ++ lit "-" ++ pad 2 d ++ lit "T"
  ++ pad 2 (ms / 3600000) ++ lit ":" ++ pad 2 ((ms / 60000) mod 60) ++ lit ":"
  ++ pad 2 ((ms / 1000) mod 60) ++ lit "." ++ pad 3 (ms mod 1000) ++ lit "Z".

(** Errors that the scripts can raise or observe. *)
Inductive JsError : Type :=
| NetworkError                      (* axios: no response received *)
| TimeoutError                      (* axios: the request timed out *)
| BadStatus (status : Z)            (* axios: validateStatus rejected *)
| RangeError                        (* Invalid time value *)
| TypeError (what : string)
| Undefined.                        (* [throw] of a variable never assigned *)

Inductive Result (A : Type) : Type :=
| Ok (a : A)
| Throw (e : JsError).
Arguments Ok {A} a.
Arguments Throw {A} e.

(** [new Date(ms).toISOString()] raises a RangeError on an invalid date. *)
Definition toISOString (ms : Z) : Result jsstring :=
  if validTime ms then Ok (isoFormat ms) else Throw RangeError.

(* ================================================================== *)
(** * Data model *)

(** [interface ClickUpPage] *)
Inductive ClickUpPage : Type := mkPage {
  workspace_id : jsstring;
  doc_id : jsstring;
  id : jsstring;
  archived : bool;
  name : jsstring;
  content : jsstring;
  parent_id : option jsstring;
  pages : list ClickUpPage;
  date_created : Z;
  date_updated : Z
}.

(** The value of [response.data] of a pages request.  Its static type is
    [ClickUpPage[]]; at run time it is whatever the body of the response
    decodes to. *)
Inductive ResponseData : Type :=
| DataNull                                (* null: falsy, no properties *)
| DataEmptyString                         (* empty body: falsy, length 0 *)
| DataPages (l : list ClickUpPage)        (* an array of pages *)
| DataObject (raw : jsstring).            (* another object, e.g. an error body *)

(** [!data] is false exactly on these. *)
Definition truthy_data (d : ResponseData) : bool :=
  match d with
  | DataNull | DataEmptyString => false
  | DataPages _ | DataObject _ => true
  end.

(** [data.length]: a TypeError on null, [undefined] on an object that has no
    such property. *)
Definition data_length (d : ResponseData) : Result (option nat) :=
  match d with
  | DataNull => Throw (TypeError "Cannot read properties of null (reading 'length')")
  | DataEmptyString => Ok (Some 0%nat)
  | DataPages l => Ok (Some (List.length l))
  | DataObject _ => Ok None
  end.

Definition showLength (n : option nat) : jsstring :=
  match n with Some k => showNat k | None => lit "undefined" end.

(** The elements that [for (const page of data)] runs over. *)
Definition iterate (d : ResponseData) : Result (list ClickUpPage) :=
  match d with
  | DataNull => Throw (TypeError "pages is not iterable")
  | DataEmptyString => Ok []
  | DataPages l => Ok l
  | DataObject _ => Throw (TypeError "pages is not iterable")
  end.

(** A doc of the workspace, as listed by [/workspaces/:id/docs]. *)
Record Doc : Type := mkDoc { doc_ident : jsstring; doc_name : jsstring }.

(** [response.data.docs] of the docs listing; absent when the body is not a
    listing. *)
Inductive DocsData : Type :=
| DocsList (docs : list Doc)
| DocsMissing.

(** The environment variables the scripts read (after the check for missing
    ones at load time). *)
Record Config : Type := mkConfig {
  CLICKUP_WORKSPACE_ID : jsstring;
  CLICKUP_DOC_ID : jsstring;
  DUST_WORKSPACE_ID : jsstring;
  DUST_DATASOURCE_ID : jsstring;
  DUST_VAULT_ID : jsstring
}.

(* ================================================================== *)
(** * HTTP transport, events and the world *)

(** What the network does with one request. *)
Inductive Transport (B : Type) : Type :=
| NoResponse                       (* connection error *)
| TimedOut                         (* no answer within the timeout *)
| Response (status : Z) (body : B).
Arguments NoResponse {B}.
Arguments TimedOut {B}.
Arguments Response {B} status body.

(** Second argument of [console.error]. *)
Inductive Detail : Type :=
| NoDetail
| ErrorObject (e : JsError)
| ErrorMessage (m : jsstring).

(** What a run does that is visible from outside. *)
Inductive Event : Type :=
| GetPages (url : jsstring) (max_page_depth : Z) (out : Transport ResponseData)
| GetDocs (url : jsstring) (out : Transport DocsData)
| Post (url text source_url : jsstring) (out : Transport unit)
| ConsoleLog (msg : jsstring)
| ConsoleError (msg : jsstring) (detail : Detail)
| SetTimeout (ms : Z).

(** The two remote services.  Each answer may depend on everything that
    happened in the run so far. *)
Record World : Type := mkWorld {
  clickupPages : list Event -> jsstring -> Z -> Transport ResponseData;
  clickupDocs : list Event -> jsstring -> Transport DocsData;
  dustDocuments : list Event -> jsstring -> jsstring -> jsstring -> Transport unit
}.

(* ================================================================== *)
(** * The monad of asynchronous computations

    A computation reads the history of the run, and yields a result or an
    exception together with the events it added.  [await] is sequencing: the
    limiters run one job at a time ([maxConcurrent: 1]). *)

Definition M (A : Type) : Type := list Event -> Result A * list Event.

Definition ret {A} (a : A) : M A := fun _ => (Ok a, []).

Definition throw {A} (e : JsError) : M A := fun _ => (Throw e, []).

Definition bind {A B} (m : M A) (k : A -> M B) : M B :=
  fun h =>
    match m h with
    | (Ok a, t1) => let (r, t2) := k a (h ++ t1) in (r, t1 ++ t2)
    | (Throw e, t1) => (Throw e, t1)
    end.

(** [try { m } catch (error) { handler error }] *)
Definition tryCatch {A} (m : M A) (handler : JsError -> M A) : M A :=
  fun h =>
    match m h with
    | (Ok a, t1) => (Ok a, t1)
    | (Throw e, t1) => let (r, t2) := handler e (h ++ t1) in (r, t1 ++ t2)
    end.

Definition emit (e : Event) : M unit := fun _ => (Ok tt, [e]).

Definition liftR {A} (r : Result A) : M A := fun _ => (r, []).

Declare Scope js_scope.
Delimit Scope js_scope with js.
Notation "x <- m ;; k" := (bind m (fun x => k))
  (at level 61, m at next level, right associativity) : js_scope.
Notation "m ;; k" := (bind m (fun _ => k))
  (at level 61, right associativity) : js_scope.
Local Open Scope js_scope.

Definition console_log (msg : jsstring) : M unit := emit (ConsoleLog msg).
Definition console_error (msg : jsstring) (d : Detail) : M unit :=
  emit (ConsoleError msg d).

(** [await new Promise(resolve => setTimeout(resolve, ms))] *)
Definition sleep (ms : Z) : M unit := emit (SetTimeout ms).

(** [for (const x of l) { body x }] *)
Fixpoint forEach {A} (body : A -> M unit) (l : list A) : M unit :=
  match l with
  | [] => ret tt
  | x :: r => body x ;; forEach body r
  end.

(** [error.message] *)
Definition message (e : JsError) : jsstring :=
  match e with
  | NetworkError => lit "Network Error"
  | TimeoutError => lit "Request timed out"
  | BadStatus s => lit "Request failed with status code " ++ showZ s
  | RangeError => lit "Invalid time value"
  | TypeError w => lit w
  | Undefined => lit "undefined"
  end.

(** [error.response && error.response.status === s] *)
Definition response_status_is (e : JsError) (s : Z) : bool :=
  match e with
  | BadStatus s' => s' =? s
  | _ => false
  end.

(** How axios settles a request: a response is resolved when
    [validateStatus] accepts its status, and rejected otherwise; without a
    response the request is rejected. *)
Definition settle {B} (validateStatus : Z -> bool) (t : Transport B)
  : Result (Z * B) :=
  match t with
  | NoResponse => Throw NetworkError
  | TimedOut => Throw TimeoutError
  | Response s b => if validateStatus s then Ok (s, b) else Throw (BadStatus s)
  end.

(** The default of axios: [status >= 200 && status < 300]. *)
Definition defaultValidateStatus (status : Z) : bool :=
  (200 <=? status) && (status <? 300).

(** [dustApi.post(url, {text, source_url})] behind [dustLimiter.wrap]. *)
Definition limitedDustApiPost (W : World) (url text source_url : jsstring)
  : M unit :=
  fun h =>
    let out := dustDocuments W h url text source_url in
    (match settle defaultValidateStatus out with
     | Ok _ => Ok tt
     | Throw e => Throw e
     end, [Post url text source_url out]).

(** Options of [slugify]. *)
Record SlugifyOptions : Type := mkSlugifyOptions {
  lower : bool; strict : bool; trim_option : bool
}.

(** The content template of [upsertToDustDatasource], before [.trim()]. *)
Definition contentTemplate (page : ClickUpPage) (createdDate updatedDate : jsstring)
  : jsstring :=
  [10%N] ++ lit "Title: " ++ name page ++ [10%N]
  ++ lit "Created At: " ++ createdDate ++ [10%N]
  ++ lit "Updated At: " ++ updatedDate ++ [10%N]
  ++ lit "Content:" ++ [10%N]
  ++ content page ++ [10%N] ++ lit "  ".

(** What one call of [upsertToDustDatasource] has computed when it reaches
    its request. *)
Record Envelope : Type := mkEnvelope {
  documentId : jsstring;
  url : jsstring;
  text : jsstring;
  source_url : jsstring
}.

(** [page.content && page.content.trim() !== ''] *)
Definition hasContent (page : ClickUpPage) : bool :=
  truthy_string (content page) && nonempty (trim (content page)).

(** [page.pages && page.pages.length > 0] *)
Definition hasChildren (page : ClickUpPage) : bool :=
  match pages page with [] => false | _ :: _ => true end.

(* ================================================================== *)
(** * Loading a script: the environment

    Every script reads its settings from [process.env] and, before it does
    anything else, lists the ones that have no value. *)

(** [process.env], once [dotenv.config()] has run: a variable holds a
    string or is not set. *)
Definition Env : Type := string -> option jsstring.

(** [!value] for a value of [process.env]: [undefined] and the empty string
    are falsy. *)
Definition falsy (value : option jsstring) : bool :=
  match value with
  | None => true
  | Some s => negb (truthy_string s)
  end.

(** [table.filter(([name, value]) => !value).map(([name]) => name)] *)
Definition missingOf (table : list (string * option jsstring)) : list string :=
  map fst (filter (fun entry => falsy (snd entry)) table).

(** [names.join(sep)] *)
Fixpoint join (sep : jsstring) (names : list jsstring) : jsstring :=
  match names with
  | [] => []
  | [x] => x
  | x :: r => x ++ sep ++ join sep r
  end.

(** [`${value}`]: a variable that is not set reads [undefined]. *)
Definition render (value : option jsstring) : jsstring :=
  match value with Some s => s | None => lit "undefined" end.

(** The constants that the requests are built from. *)
Definition configOf (env : Env) : Config :=
  {| CLICKUP_WORKSPACE_ID := render (env "CLICKUP_WORKSPACE_ID"%string);
     CLICKUP_DOC_ID := render (env "CLICKUP_DOC_ID"%string);
     DUST_WORKSPACE_ID := render (env "DUST_WORKSPACE_ID"%string);
     DUST_DATASOURCE_ID := render (env "DUST_DATASOURCE_ID"%string);
     DUST_VAULT_ID := render (env "DUST_VAULT_ID"%string) |}.

(** The message of the [Error] that a script throws at load time. *)
Definition missingMessage (missing : list string) : jsstring :=
  lit "Please provide values for the following environment variables in the .env file: "
  ++ join (lit ", ") (map lit missing).

(** How a script ends: its last statement has run, or an exception that
    nothing catches has left the module. *)
Inductive Exit : Type :=
| Completed
| Uncaught (message : jsstring).

(** [main();] as the last statement of a script, after the events [t0] of
    loading: a rejection of its promise would be unhandled. *)
Definition launch (t0 : list Event) (main : M unit) : Exit * list Event :=
  match main t0 with
  | (Ok _, t) => (Completed, t0 ++ t)
  | (Throw e, t) => (Uncaught (message e), t0 ++ t)
  end.

(* ================================================================== *)
(** * [src/unnamed/part_000]: one doc, flattened and written in batches

    Embedded: the check of the environment, [generateSlug],
    [upsertToDustDatasource] and [processPages] with its local
    [flattenPages]. *)

Module Batched.

(** [const missingEnvVars] *)
Definition missingEnvVars (env : Env) : list string :=
  missingOf
    [("CLICKUP_API_KEY"%string, env "CLICKUP_API_KEY"%string);
     ("CLICKUP_WORKSPACE_ID"%string, env "CLICKUP_WORKSPACE_ID"%string);
     ("CLICKUP_DOC_ID"%string, env "CLICKUP_DOC_ID"%string);
     ("DUST_API_KEY"%string, env "DUST_API_KEY"%string);
     ("DUST_WORKSPACE_ID"%string, env "DUST_WORKSPACE_ID"%string);
     ("DUST_DATASOURCE_ID"%string, env "DUST_DATASOURCE_ID"%string);
     ("DUST_VAULT_ID"%string, env "DUST_VAULT_ID"%string)].

(** The statements of the script that run before its functions are
    defined: [None] when the check passes, the message of the [Error] that
    is thrown otherwise. *)
Definition startup (env : Env) : list Event * option jsstring :=
  let missing := missingEnvVars env in
  if (0 <? List.length missing)%nat
  then ([], Some (missingMessage missing))
  else ([], None).

Section Script.
Variable W : World.
Variable cfg : Config.
(** The [slugify] package. *)
Variable slugify : jsstring -> SlugifyOptions -> jsstring.

Definition generateSlug (name : jsstring) : jsstring :=
  slugify name {| lower := true; strict := true; trim_option := true |}.

(** [upsertToDustDatasource] up to its [try]: everything that runs before
    the first [await]. *)
Definition prepare (page : ClickUpPage) : Result Envelope :=
  let slug := generateSlug (name page) in
  let documentId := id page ++ lit "-" ++ slug in
  match toISOString (date_created page) with
  | Throw e => Throw e
  | Ok createdDate =>
    match toISOString (date_updated page) with
    | Throw e => Throw e
    | Ok updatedDate =>
      let content := trim (contentTemplate page createdDate updatedDate) in
      Ok {| documentId := documentId;
            url := lit "/w/" ++ DUST_WORKSPACE_ID cfg ++ lit "/vaults/"
                   ++ DUST_VAULT_ID cfg ++ lit "/data_sources/"
                   ++ DUST_DATASOURCE_ID cfg ++ lit "/documents/" ++ documentId;
            text := content;
            source_url := lit "https://app.clickup.com/"
                   ++ CLICKUP_WORKSPACE_ID cfg ++ lit "/v/dc/"
                   ++ CLICKUP_DOC_ID cfg ++ lit "/" ++ id page |}
    end
  end.

(** The [try { ... } catch (error) { ... }] of [upsertToDustDatasource]. *)
Definition deliver (env : Envelope) : M unit :=
  tryCatch
    (limitedDustApiPost W (url env) (text env) (source_url env) ;;
     console_log (lit "Upserted page '" ++ documentId env ++ lit "' "
                  ++ source_url env ++ lit " to Dust datasource"))
    (fun error =>
       console_error (lit "Error upserting page '" ++ documentId env
                      ++ lit "') to Dust datasource:") (ErrorObject error)).

Definition upsertToDustDatasource (page : ClickUpPage) : M unit :=
  env <- liftR (prepare page) ;; deliver env.

Fixpoint flattenPage (page : ClickUpPage) : list ClickUpPage :=
  (if hasContent page && negb (archived page) then [page] else [])
  ++ (if hasChildren page
      then (fix flattenPages (ps : list ClickUpPage) : list ClickUpPage :=
              match ps with
              | [] => []
              | p :: r => flattenPage p ++ flattenPages r
              end) (pages page)
      else []).

(** The local function [flattenPages] of [processPages]. *)
Fixpoint flattenPages (ps : list ClickUpPage) : list ClickUpPage :=
  match ps with
  | [] => []
  | page :: r => flattenPage page ++ flattenPages r
  end.

(** The first rejection among calls that have run up to their first
    [await], or all their envelopes. *)
Fixpoint prepareAll (batch : list ClickUpPage) : Result (list Envelope) :=
  match batch with
  | [] => Ok []
  | page :: r =>
    match prepare page, prepareAll r with
    | Throw e, _ => Throw e
    | Ok _, Throw e => Throw e
    | Ok env, Ok envs => Ok (env :: envs)
    end
  end.

(** The calls of a batch that reach their request: [map] runs every call
    up to its first [await], and a call that raises before it (an invalid
    date) leaves the others untouched. *)
Fixpoint queued (batch : list ClickUpPage) : list Envelope :=
  match batch with
  | [] => []
  | page :: r =>
    match prepare page with
    | Ok env => env :: queued r
    | Throw _ => queued r
    end
  end.

(** [await Promise.all(batch.map(page => upsertToDustDatasource(page)))].
    [map] runs every call up to its request and hands the requests to the
    limiter in the order of the batch; the limiter runs them one at a time,
    first in, first out, and each call logs its outcome when its request
    has settled.  When a call raises before its request, the promise of
    [Promise.all] is rejected with the error of the first such call of the
    batch, and [processPages] with it; the requests of the other calls are
    in the queue of the limiter by then, and the limiter sends them all the
    same.  The trace of the batch holds every request that the batch
    causes, those that are sent after the rejection included. *)
Definition upsertBatch (batch : list ClickUpPage) : M unit :=
  match prepareAll batch with
  | Throw e => forEach deliver (queued batch) ;; throw e
  | Ok envs => forEach deliver envs
  end.

(** [Math.ceil(n / d)] for naturals, [d > 0]. *)
Definition ceilDiv (n d : nat) : nat := ((n + d - 1) / d)%nat.

(** The [for (let i = 0; i < allPages.length; i += batchSize)] loop.  It
    ends within [allPages.length] rounds when [batchSize] is positive, as
    it is in the script (the default, 5). *)
Fixpoint batchLoop (fuel : nat) (allPages : list ClickUpPage)
         (batchSize i : nat) : M unit :=
  match fuel with
  | O => ret tt
  | S fuel' =>
    if (i <? List.length allPages)%nat then
      let batch := firstn batchSize (skipn i allPages) in
      console_log (lit "Processing batch " ++ showNat (i / batchSize + 1)
                   ++ lit "/" ++ showNat (ceilDiv (List.length allPages) batchSize)) ;;
      upsertBatch batch ;;
      (if (i + batchSize <? List.length allPages)%nat
       then sleep 1000 else ret tt) ;;
      batchLoop fuel' allPages batchSize (i + batchSize)%nat
    else ret tt
  end.

Definition processPages (ps : list ClickUpPage) (batchSize : nat) : M unit :=
  let allPages := flattenPages ps in
  console_log (lit "Total pages to process: " ++ showNat (List.length allPages)) ;;
  batchLoop (List.length allPages) allPages batchSize 0.

(** [batchSize = 5] *)
Definition defaultBatchSize : nat := 5.

End Script.
End Batched.

(* ================================================================== *)
(** * [src/clickup/clickup-docs-to-dust.ts]: every doc of the workspace *)

Module AllDocs.

(** [const missingEnvVars] *)
Definition missingEnvVars (env : Env) : list string :=
  missingOf
    [("CLICKUP_API_KEY"%string, env "CLICKUP_API_KEY"%string);
     ("CLICKUP_WORKSPACE_ID"%string, env "CLICKUP_WORKSPACE_ID"%string);
     ("DUST_API_KEY"%string, env "DUST_API_KEY"%string);
     ("DUST_WORKSPACE_ID"%string, env "DUST_WORKSPACE_ID"%string);
     ("DUST_DATASOURCE_ID"%string, env "DUST_DATASOURCE_ID"%string);
     ("DUST_VAULT_ID"%string, env "DUST_VAULT_ID"%string)].

(** The statements of the script that run before its functions are
    defined: [None] when the check passes, the message of the [Error] that
    is thrown otherwise. *)
Definition startup (env : Env) : list Event * option jsstring :=
  let missing := missingEnvVars env in
  if (0 <? List.length missing)%nat
  then ([ConsoleLog (lit "[Environment Variables]: Loaded");
         ConsoleError (lit "[Error]: Missing environment variables: "
                       ++ join (lit ", ") (map lit missing)) NoDetail],
        Some (missingMessage missing))
  else ([ConsoleLog (lit "[Environment Variables]: Loaded")], None).

Section Script.
Variable W : World.
Variable cfg : Config.
Variable slugify : jsstring -> SlugifyOptions -> jsstring.

(** [validateStatus: (status) => status < 500] of [clickupApi]. *)
Definition validateStatus (status : Z) : bool := status <? 500.

(** The response interceptor of [clickupApi]. *)
Definition intercept {B} (url : jsstring) (r : Result (Z * B)) : M (Z * B) :=
  match r with
  | Ok (status, body) =>
    console_log (lit "[ClickUp API Interceptor]: Endpoint: " ++ url
                 ++ lit ", Status: " ++ showZ status) ;;
    ret (status, body)
  | Throw error =>
    console_error (lit "[ClickUp API Interceptor]: Error:") (ErrorObject error) ;;
    (if response_status_is error 429
     then console_error (lit "[ClickUp API Interceptor]: Endpoint: " ++ url
            ++ lit ", Rate limit exceeded. Please wait before making more requests.")
            NoDetail
     else ret tt) ;;
    throw error
  end.

Definition pagesUrl (docId : jsstring) : jsstring :=
  lit "/workspaces/" ++ CLICKUP_WORKSPACE_ID cfg ++ lit "/docs/" ++ docId
  ++ lit "/pages".

(** [clickupApi.get(`/workspaces/.../docs/${docId}/pages`, {params})] *)
Definition clickupApi_get_pages (docId : jsstring) (max_page_depth : Z)
  : M (Z * ResponseData) :=
  out <- (fun h => let out := clickupPages W h (pagesUrl docId) max_page_depth in
                   (Ok out, [GetPages (pagesUrl docId) max_page_depth out])) ;;
  intercept (pagesUrl docId) (settle validateStatus out).

Definition docsUrl : jsstring :=
  lit "/workspaces/" ++ CLICKUP_WORKSPACE_ID cfg ++ lit "/docs".

(** [clickupApi.get(`/workspaces/${CLICKUP_WORKSPACE_ID}/docs`)] *)
Definition clickupApi_get_docs : M (Z * DocsData) :=
  out <- (fun h => let out := clickupDocs W h docsUrl in
                   (Ok out, [GetDocs docsUrl out])) ;;
  intercept docsUrl (settle validateStatus out).

Definition maxRetries : Z := 3.

(** [Math.min(10000, 2000 * Math.pow(2, attempt - 1))] *)
Definition backoff (attempt : Z) : Z :=
  Z.min 10000 (2000 * 2 ^ (attempt - 1)).

Definition detailOf (lastError : option JsError) : Detail :=
  match lastError with Some e => ErrorObject e | None => NoDetail end.

Definition throwLast {A} (lastError : option JsError) : M A :=
  match lastError with Some e => throw e | None => throw Undefined end.

Definition attemptTag (attempt : Z) : jsstring :=
  lit "[getClickUpPagesWithRetry] Attempt " ++ showZ attempt ++ lit "/"
  ++ showZ maxRetries.

(** One round of the [for] loop of [getClickUpPagesWithRetry]: [inl] is a
    [return] out of the function, [inr] the error the round ends with. *)
Definition attemptOnce (docId : jsstring) (attempt : Z)
  : M (ResponseData + JsError) :=
  console_log (attemptTag attempt) ;;
  tryCatch
    (console_log (lit "[getClickUpPagesWithRetry] Making API request to ClickUp") ;;
     response <- clickupApi_get_pages docId 1 ;;
     let data := snd response in
     if negb (truthy_data data) then
       console_log (lit "[getClickUpPagesWithRetry] No data returned for doc "
                    ++ docId ++ lit ", skipping...") ;;
       ret (inl (DataPages []))
     else
       len <- liftR (data_length data) ;;
       console_log (lit "[getClickUpPagesWithRetry] Retrieved "
                    ++ showLength len ++ lit " pages from ClickUp") ;;
       ret (inl data))
    (fun error =>
       if response_status_is error 404 then
         console_log (lit "[getClickUpPagesWithRetry] Doc " ++ docId
                      ++ lit " not found, skipping...") ;;
         ret (inl (DataPages []))
       else
         console_error (attemptTag attempt ++ lit " failed:")
                       (ErrorMessage (message error)) ;;
         (if attempt <? maxRetries then
            let delay := backoff attempt in
            console_log (lit "[getClickUpPagesWithRetry] Retrying in "
                         ++ showZ delay ++ lit "ms") ;;
            sleep delay
          else ret tt) ;;
         ret (inr error)).

(** The loop from [attempt] on, with [remaining] rounds to go
    ([remaining = maxRetries - attempt + 1]), and what follows it. *)
Fixpoint retryLoop (remaining : nat) (docId : jsstring) (attempt : Z)
         (lastError : option JsError) : M ResponseData :=
  match remaining with
  | O =>
    console_error (lit "[getClickUpPagesWithRetry] All retries failed:")
                  (detailOf lastError) ;;
    throwLast lastError
  | S k =>
    r <- attemptOnce docId attempt ;;
    match r with
    | inl data => ret data
    | inr error => retryLoop k docId (attempt + 1) (Some error)
    end
  end.

Definition getClickUpPagesWithRetry (docId : jsstring) : M ResponseData :=
  console_log (lit "[getClickUpPagesWithRetry] Starting to fetch pages for docId: "
               ++ docId) ;;
  retryLoop (Z.to_nat maxRetries) docId 1 None.

Definition generateSlug (name : jsstring) : M jsstring :=
  console_log (lit "[generateSlug] Generating slug for: " ++ name) ;;
  let slug := slugify name {| lower := true; strict := true; trim_option := true |} in
  console_log (lit "[generateSlug] Generated slug: " ++ slug) ;;
  ret slug.

Definition getClickUpPages (docId : jsstring) : M ResponseData :=
  console_log (lit "[getClickUpPages] Fetching pages for docId: " ++ docId) ;;
  tryCatch
    (pages <- getClickUpPagesWithRetry docId ;;
     len <- liftR (data_length pages) ;;
     console_log (lit "[getClickUpPages] Retrieved " ++ showLength len ++ lit " pages") ;;
     ret pages)
    (fun error =>
       console_error (lit "[getClickUpPages] Error fetching ClickUp pages:")
                     (ErrorObject error) ;;
       throw error).

Definition upsertToDustDatasource (page : ClickUpPage) : M unit :=
  console_log (lit "[upsertToDustDatasource] Upserting page: " ++ name page) ;;
  slug <- generateSlug (name page) ;;
  let documentId := id page ++ lit "-" ++ slug in
  createdDate <- liftR (toISOString (date_created page)) ;;
  updatedDate <- liftR (toISOString (date_updated page)) ;;
  let content := trim (contentTemplate page createdDate updatedDate) in
  tryCatch
    (console_log (lit "[upsertToDustDatasource] Making Dust API request for documentId: "
                  ++ documentId) ;;
     limitedDustApiPost W
       (lit "/w/" ++ DUST_WORKSPACE_ID cfg ++ lit "/vaults/" ++ DUST_VAULT_ID cfg
        ++ lit "/data_sources/" ++ DUST_DATASOURCE_ID cfg ++ lit "/documents/"
        ++ documentId)
       content
       (lit "https://app.clickup.com/" ++ CLICKUP_WORKSPACE_ID cfg ++ lit "/v/dc/"
        ++ doc_id page ++ lit "/" ++ id page) ;;
     console_log (lit "[upsertToDustDatasource] Upserted page '" ++ documentId
                  ++ lit "' to Dust datasource"))
    (fun error =>
       console_error (lit "[upsertToDustDatasource] Error upserting page '"
                      ++ documentId ++ lit "' to Dust datasource:")
                     (ErrorObject error)).

(** The body of the [for] loop of [processPages], with the recursive call
    on [page.pages] unfolded into it. *)
Fixpoint processPage (page : ClickUpPage) : M unit :=
  console_log (lit "[processPages] Processing page: " ++ name page) ;;
  (if hasContent page then
     if negb (archived page) then upsertToDustDatasource page
     else console_log (lit "[processPages] Skipping archived page: " ++ name page)
   else ret tt) ;;
  (if hasChildren page then
     console_log (lit "[processPages] Page " ++ name page ++ lit " has child pages.") ;;
     console_log (lit "[processPages] Processing "
                  ++ showNat (List.length (pages page)) ++ lit " pages") ;;
     forEach processPage (pages page)
   else ret tt).

Definition processPages (ps : list ClickUpPage) : M unit :=
  console_log (lit "[processPages] Processing " ++ showNat (List.length ps)
               ++ lit " pages") ;;
  forEach processPage ps.

(** [processPages] on the value that [getClickUpPages] returned. *)
Definition processPagesData (d : ResponseData) : M unit :=
  match d with
  | DataPages ps => processPages ps
  | _ =>
    len <- liftR (data_length d) ;;
    console_log (lit "[processPages] Processing " ++ showLength len ++ lit " pages") ;;
    ps <- liftR (iterate d) ;;
    forEach processPage ps
  end.

Definition getAllDocs : M (list Doc) :=
  console_log (lit "[getAllDocs] Fetching all docs from workspace") ;;
  tryCatch
    (response <- clickupApi_get_docs ;;
     match snd response with
     | DocsList docs =>
       console_log (lit "[getAllDocs] Found " ++ showNat (List.length docs)
                    ++ lit " docs") ;;
       ret docs
     | DocsMissing =>
       throw (TypeError "Cannot read properties of undefined (reading 'length')")
     end)
    (fun error =>
       console_error (lit "[getAllDocs] Error fetching docs:") (ErrorObject error) ;;
       throw error).

Definition main : M unit :=
  console_log (lit "[main] Starting main function") ;;
  tryCatch
    (docs <- getAllDocs ;;
     console_log (lit "[main] Processing " ++ showNat (List.length docs)
                  ++ lit " docs") ;;
     forEach (fun doc =>
                console_log (lit "[main] Processing doc: " ++ doc_name doc
                             ++ lit " (" ++ doc_ident doc ++ lit ")") ;;
                pages <- getClickUpPages (doc_ident doc) ;;
                processPagesData pages) docs ;;
     console_log (lit "[main] All docs processed successfully."))
    (fun error =>
       console_error (lit "[main] An error occurred:") (ErrorObject error)).

End Script.

(** The script from its first statement to its last, [main();]. *)
Definition script (env : Env) (W : World)
           (slugify : jsstring -> SlugifyOptions -> jsstring) : Exit * list Event :=
  match startup env with
  | (t0, Some message) => (Uncaught message, t0)
  | (t0, None) => launch t0 (main W (configOf env) slugify)
  end.

End AllDocs.

(* ================================================================== *)
(** * [src/unnamed/part_001]: one doc, a retrying fetch with linear back-off

    The fetch differs from the one of the main script in its client, its
    back-off and its handler; the rest is the code of the main script for
    the one doc of the environment. *)

Module SingleDoc.

(** [const missingEnvVars] *)
Definition missingEnvVars (env : Env) : list string :=
  missingOf
    [("CLICKUP_API_KEY"%string, env "CLICKUP_API_KEY"%string);
     ("CLICKUP_WORKSPACE_ID"%string, env "CLICKUP_WORKSPACE_ID"%string);
     ("CLICKUP_DOC_ID"%string, env "CLICKUP_DOC_ID"%string);
     ("DUST_API_KEY"%string, env "DUST_API_KEY"%string);
     ("DUST_WORKSPACE_ID"%string, env "DUST_WORKSPACE_ID"%string);
     ("DUST_DATASOURCE_ID"%string, env "DUST_DATASOURCE_ID"%string);
     ("DUST_VAULT_ID"%string, env "DUST_VAULT_ID"%string)].

(** The statements of the script that run before its functions are
    defined: [None] when the check passes, the message of the [Error] that
    is thrown otherwise. *)
Definition startup (env : Env) : list Event * option jsstring :=
  let missing := missingEnvVars env in
  if (0 <? List.length missing)%nat
  then ([ConsoleLog (lit "[Environment Variables]: Loaded");
         ConsoleError (lit "[Error]: Missing environment variables: "
                       ++ join (lit ", ") (map lit missing)) NoDetail],
        Some (missingMessage missing))
  else ([ConsoleLog (lit "[Environment Variables]: Loaded")], None).

Section Script.
Variable W : World.
Variable cfg : Config.

(** The response interceptor of [clickupApi]. *)
Definition intercept {B} (url : jsstring) (r : Result (Z * B)) : M (Z * B) :=
  match r with
  | Ok (status, body) =>
    console_log (lit "[ClickUp API Interceptor]: Endpoint: " ++ url
                 ++ lit ", Status: " ++ showZ status) ;;
    ret (status, body)
  | Throw error =>
    console_error (lit "[ClickUp API Interceptor]: Error:") (ErrorObject error) ;;
    (if response_status_is error 429
     then console_error (lit "[ClickUp API Interceptor]: Endpoint: " ++ url
            ++ lit ", Rate limit exceeded. Please wait before making more requests.")
            NoDetail
     else ret tt) ;;
    throw error
  end.

Definition pagesUrl (docId : jsstring) : jsstring :=
  lit "/workspaces/" ++ CLICKUP_WORKSPACE_ID cfg ++ lit "/docs/" ++ docId
  ++ lit "/pages".

(** [clickupApi.get(...)]; this client keeps the default [validateStatus]. *)
Definition clickupApi_get_pages (docId : jsstring) (max_page_depth : Z)
  : M (Z * ResponseData) :=
  out <- (fun h => let out := clickupPages W h (pagesUrl docId) max_page_depth in
                   (Ok out, [GetPages (pagesUrl docId) max_page_depth out])) ;;
  intercept (pagesUrl docId) (settle defaultValidateStatus out).

Definition maxRetries : Z := 3.

(** [2000 * attempt] *)
Definition backoff (attempt : Z) : Z := 2000 * attempt.

Definition attemptTag (attempt : Z) : jsstring :=
  lit "[getClickUpPagesWithRetry] Attempt " ++ showZ attempt ++ lit "/"
  ++ showZ maxRetries.

Definition attemptOnce (docId : jsstring) (attempt : Z)
  : M (ResponseData + JsError) :=
  console_log (attemptTag attempt) ;;
  tryCatch
    (console_log (lit "[getClickUpPagesWithRetry] Making API request to ClickUp") ;;
     response <- clickupApi_get_pages docId 1 ;;
     let data := snd response in
     len <- liftR (data_length data) ;;
     console_log (lit "[getClickUpPagesWithRetry] Retrieved "
                  ++ showLength len ++ lit " pages from ClickUp") ;;
     ret (inl data))
    (fun error =>
       console_error (attemptTag attempt ++ lit " failed:")
                     (ErrorMessage (message error)) ;;
       (if attempt <? maxRetries then
          console_log (lit "[getClickUpPagesWithRetry] Retrying in "
                       ++ showZ (backoff attempt) ++ lit "ms") ;;
          sleep (backoff attempt)
        else ret tt) ;;
       ret (inr error)).

Fixpoint retryLoop (remaining : nat) (docId : jsstring) (attempt : Z)
         (lastError : option JsError) : M ResponseData :=
  match remaining with
  | O =>
    console_error (lit "[getClickUpPagesWithRetry] All retries failed:")
                  (AllDocs.detailOf lastError) ;;
    AllDocs.throwLast lastError
  | S k =>
    r <- attemptOnce docId attempt ;;
    match r with
    | inl data => ret data
    | inr error => retryLoop k docId (attempt + 1) (Some error)
    end
  end.

Definition getClickUpPagesWithRetry (docId : jsstring) : M ResponseData :=
  console_log (lit "[getClickUpPagesWithRetry] Starting to fetch pages for docId: "
               ++ docId) ;;
  retryLoop (Z.to_nat maxRetries) docId 1 None.

Variable slugify : jsstring -> SlugifyOptions -> jsstring.

Definition generateSlug (name : jsstring) : M jsstring :=
  console_log (lit "[generateSlug] Generating slug for: " ++ name) ;;
  let slug := slugify name {| lower := true; strict := true; trim_option := true |} in
  console_log (lit "[generateSlug] Generated slug: " ++ slug) ;;
  ret slug.

Definition getClickUpPages (docId : jsstring) : M ResponseData :=
  console_log (lit "[getClickUpPages] Fetching pages for docId: " ++ docId) ;;
  tryCatch
    (pages <- getClickUpPagesWithRetry docId ;;
     len <- liftR (data_length pages) ;;
     console_log (lit "[getClickUpPages] Retrieved " ++ showLength len ++ lit " pages") ;;
     ret pages)
    (fun error =>
       console_error (lit "[getClickUpPages] Error fetching ClickUp pages:")
                     (ErrorObject error) ;;
       throw error).

(** As in the main script, but for [source_url], which names the doc of the
    environment and not the doc of the page. *)
Definition upsertToDustDatasource (page : ClickUpPage) : M unit :=
  console_log (lit "[upsertToDustDatasource] Upserting page: " ++ name page) ;;
  slug <- generateSlug (name page) ;;
  let documentId := id page ++ lit "-" ++ slug in
  createdDate <- liftR (toISOString (date_created page)) ;;
  updatedDate <- liftR (toISOString (date_updated page)) ;;
  let content := trim (contentTemplate page createdDate updatedDate) in
  tryCatch
    (console_log (lit "[upsertToDustDatasource] Making Dust API request for documentId: "
                  ++ documentId) ;;
     limitedDustApiPost W
       (lit "/w/" ++ DUST_WORKSPACE_ID cfg ++ lit "/vaults/" ++ DUST_VAULT_ID cfg
        ++ lit "/data_sources/" ++ DUST_DATASOURCE_ID cfg ++ lit "/documents/"
        ++ documentId)
       content
       (lit "https://app.clickup.com/" ++ CLICKUP_WORKSPACE_ID cfg ++ lit "/v/dc/"
        ++ CLICKUP_DOC_ID cfg ++ lit "/" ++ id page) ;;
     console_log (lit "[upsertToDustDatasource] Upserted page '" ++ documentId
                  ++ lit "' to Dust datasource"))
    (fun error =>
       console_error (lit "[upsertToDustDatasource] Error upserting page '"
                      ++ documentId ++ lit "' to Dust datasource:")
                     (ErrorObject error)).

(** The body of the [for] loop of [processPages], with the recursive call
    on [page.pages] unfolded into it. *)
Fixpoint processPage (page : ClickUpPage) : M unit :=
  console_log (lit "[processPages] Processing page: " ++ name page) ;;
  (if hasContent page then
     if negb (archived page) then upsertToDustDatasource page
     else console_log (lit "[processPages] Skipping archived page: " ++ name page)
   else ret tt) ;;
  (if hasChildren page then
     console_log (lit "[processPages] Page " ++ name page ++ lit " has child pages.") ;;
     console_log (lit "[processPages] Processing "
                  ++ showNat (List.length (pages page)) ++ lit " pages") ;;
     forEach processPage (pages page)
   else ret tt).

Definition processPages (ps : list ClickUpPage) : M unit :=
  console_log (lit "[processPages] Processing " ++ showNat (List.length ps)
               ++ lit " pages") ;;
  forEach processPage ps.

(** [processPages] on the value that [getClickUpPages] returned. *)
Definition processPagesData (d : ResponseData) : M unit :=
  match d with
  | DataPages ps => processPages ps
  | _ =>
    len <- liftR (data_length d) ;;
    console_log (lit "[processPages] Processing " ++ showLength len ++ lit " pages") ;;
    ps <- liftR (iterate d) ;;
    forEach processPage ps
  end.

Definition main : M unit :=
  console_log (lit "[main] Starting main function") ;;
  tryCatch
    (pages <- getClickUpPages (CLICKUP_DOC_ID cfg) ;;
     len <- liftR (data_length pages) ;;
     console_log (lit "[main] Retrieved " ++ showLength len
                  ++ lit " pages from ClickUp.") ;;
     processPagesData pages ;;
     console_log (lit "[main] All pages processed successfully."))
    (fun error =>
       console_error (lit "[main] An error occurred:") (ErrorObject error)).

End Script.

(** The script from its first statement to its last, [main();]. *)
Definition script (env : Env) (W : World)
           (slugify : jsstring -> SlugifyOptions -> jsstring) : Exit * list Event :=
  match startup env with
  | (t0, Some message) => (Uncaught message, t0)
  | (t0, None) => launch t0 (main W (configOf env) slugify)
  end.

End SingleDoc.

(* ================================================================== *)
(** * [src/unnamed/part_002]: every doc, one try/catch per doc, a count *)

Module Counting.

(** [const missingEnvVars] *)
Definition missingEnvVars (env : Env) : list string :=
  missingOf
    [("CLICKUP_API_KEY"%string, env "CLICKUP_API_KEY"%string);
     ("CLICKUP_WORKSPACE_ID"%string, env "CLICKUP_WORKSPACE_ID"%string);
     ("DUST_API_KEY"%string, env "DUST_API_KEY"%string);
     ("DUST_WORKSPACE_ID"%string, env "DUST_WORKSPACE_ID"%string);
     ("DUST_DATASOURCE_ID"%string, env "DUST_DATASOURCE_ID"%string);
     ("DUST_VAULT_ID"%string, env "DUST_VAULT_ID"%string)].

(** The statements of the script that run before its functions are
    defined: [None] when the check passes, the message of the [Error] that
    is thrown otherwise. *)
Definition startup (env : Env) : list Event * option jsstring :=
  let missing := missingEnvVars env in
  if (0 <? List.length missing)%nat
  then ([], Some (missingMessage missing))
  else ([], None).

Section Script.
Variable W : World.
Variable cfg : Config.
Variable slugify : jsstring -> SlugifyOptions -> jsstring.

(** The response interceptor of [clickupApi]. *)
Definition intercept {B} (url : jsstring) (r : Result (Z * B)) : M (Z * B) :=
  match r with
  | Ok (status, body) =>
    console_log (lit "Endpoint: " ++ url ++ lit ", Status: " ++ showZ status) ;;
    ret (status, body)
  | Throw error =>
    (if response_status_is error 429
     then console_error (lit "Endpoint: " ++ url
            ++ lit ", Rate limit exceeded. Please wait before making more requests.")
            NoDetail
     else ret tt) ;;
    throw error
  end.

Definition pagesUrl (docId : jsstring) : jsstring :=
  lit "/workspaces/" ++ CLICKUP_WORKSPACE_ID cfg ++ lit "/docs/" ++ docId
  ++ lit "/pages".

(** [limitedClickupGet(url, {params})] *)
Definition limitedClickupGet (docId : jsstring) (max_page_depth : Z)
  : M (Z * ResponseData) :=
  out <- (fun h => let out := clickupPages W h (pagesUrl docId) max_page_depth in
                   (Ok out, [GetPages (pagesUrl docId) max_page_depth out])) ;;
  intercept (pagesUrl docId) (settle defaultValidateStatus out).

Definition docsUrl : jsstring :=
  lit "/workspaces/" ++ CLICKUP_WORKSPACE_ID cfg ++ lit "/docs".

Definition clickupApi_get_docs : M (Z * DocsData) :=
  out <- (fun h => let out := clickupDocs W h docsUrl in
                   (Ok out, [GetDocs docsUrl out])) ;;
  intercept docsUrl (settle defaultValidateStatus out).

Definition generateSlug (name : jsstring) : jsstring :=
  slugify name {| lower := true; strict := true; trim_option := true |}.

Definition getClickUpPages (docId : jsstring) : M ResponseData :=
  tryCatch
    (response <- limitedClickupGet docId (-1) ;;
     len <- liftR (data_length (snd response)) ;;
     console_log (lit "Retrieved " ++ showLength len ++ lit " pages from ClickUp") ;;
     ret (snd response))
    (fun error =>
       console_error (lit "Error fetching ClickUp pages:") (ErrorObject error) ;;
       throw error).

Definition sourceUrl (page : ClickUpPage) : jsstring :=
  lit "https://app.clickup.com/" ++ CLICKUP_WORKSPACE_ID cfg ++ lit "/v/dc/"
  ++ doc_id page ++ lit "/" ++ id page.

(** [const documentId] of [upsertToDustDatasource]. *)
Definition documentIdOf (page : ClickUpPage) : jsstring :=
  let slug := generateSlug (name page) in
  id page ++ lit "-" ++ slug.

Definition upsertToDustDatasource (page : ClickUpPage) : M unit :=
  let documentId := documentIdOf page in
  createdDate <- liftR (toISOString (date_created page)) ;;
  updatedDate <- liftR (toISOString (date_updated page)) ;;
  let content := trim (contentTemplate page createdDate updatedDate) in
  tryCatch
    (limitedDustApiPost W
       (lit "/w/" ++ DUST_WORKSPACE_ID cfg ++ lit "/vaults/" ++ DUST_VAULT_ID cfg
        ++ lit "/data_sources/" ++ DUST_DATASOURCE_ID cfg ++ lit "/documents/"
        ++ documentId)
       content (sourceUrl page) ;;
     console_log (lit "Upserted page '" ++ documentId ++ lit "' " ++ sourceUrl page
                  ++ lit " to Dust datasource"))
    (fun error =>
       console_error (lit "Error upserting page '" ++ documentId
                      ++ lit "' to Dust datasource:") (ErrorObject error)).

(** [for (const x of l) { count = body x count }] *)
Fixpoint forCount {A} (body : A -> nat -> M nat) (l : list A) (count : nat)
  : M nat :=
  match l with
  | [] => ret count
  | x :: r => c <- body x count ;; forCount body r c
  end.

(** ["  ".repeat(depth)] *)
Definition indent (depth : nat) : jsstring := List.concat (repeat (lit "  ") depth).

(** The body of the [for] loop of [processPages] at [depth], with the
    recursive call unfolded: it yields the new [upsertedCount]. *)
Fixpoint processPage (depth : nat) (page : ClickUpPage) (upsertedCount : nat)
  : M nat :=
  c <- (if hasContent page then
          if negb (archived page) then
            console_log (indent depth ++ lit "Processing page: " ++ name page) ;;
            upsertToDustDatasource page ;;
            ret (S upsertedCount)
          else
            console_log (indent depth ++ lit "Skipping archived page: " ++ name page) ;;
            ret upsertedCount
        else ret upsertedCount) ;;
  if hasChildren page then
    n <- forCount (processPage (S depth)) (pages page) 0%nat ;;
    ret (c + n)%nat
  else ret c.

Definition processPages (ps : list ClickUpPage) (depth : nat) : M nat :=
  forCount (processPage depth) ps 0%nat.

(** [processPages(pages)] on the value that [getClickUpPages] returned. *)
Definition processPagesData (d : ResponseData) : M nat :=
  ps <- liftR (iterate d) ;; processPages ps 0.

Definition getAllDocs : M (list jsstring) :=
  tryCatch
    (response <- clickupApi_get_docs ;;
     match snd response with
     | DocsList docs => ret (map doc_ident docs)
     | DocsMissing =>
       throw (TypeError "Cannot read properties of undefined (reading 'map')")
     end)
    (fun error =>
       console_error (lit "Error fetching docs:") (ErrorObject error) ;;
       throw error).

(** The [for (const docId of docIds)] loop of [main]; it yields
    [totalUpsertedDocs]. *)
Definition docLoop (docIds : list jsstring) (totalUpsertedDocs : nat) : M nat :=
  forCount
    (fun docId total =>
       tryCatch
         (console_log (lit "Processing document " ++ docId ++ lit "...") ;;
          pages <- getClickUpPages docId ;;
          documentUpsertCount <- processPagesData pages ;;
          console_log (lit "Document " ++ docId ++ lit " processed successfully.") ;;
          ret (total + documentUpsertCount)%nat)
         (fun error =>
            console_error (lit "Error processing document " ++ docId ++ lit ":")
                          (ErrorObject error) ;;
            ret total))
    docIds totalUpsertedDocs.

Definition totalLine (totalUpsertedDocs : nat) : jsstring :=
  lit "All documents processed successfully. Total pages upserted: "
  ++ showNat totalUpsertedDocs.

Definition main : M unit :=
  tryCatch
    (docIds <- getAllDocs ;;
     console_log (lit "Found " ++ showNat (List.length docIds)
                  ++ lit " documents in workspace") ;;
     totalUpsertedDocs <- docLoop docIds 0%nat ;;
     console_log (totalLine totalUpsertedDocs))
    (fun error => console_error (lit "An error occurred:") (ErrorObject error)).

End Script.

(** The script from its first statement to its last, [main();]. *)
Definition script (env : Env) (W : World)
           (slugify : jsstring -> SlugifyOptions -> jsstring) : Exit * list Event :=
  match startup env with
  | (t0, Some message) => (Uncaught message, t0)
  | (t0, None) => launch t0 (main W (configOf env) slugify)
  end.

End Counting.

(* ================================================================== *)
(** * Observations on trees and traces *)

(** Every page of a forest, parents before children, in document order. *)
Fixpoint nodesOf (page : ClickUpPage) : list ClickUpPage :=
  page :: (fix nodes (ps : list ClickUpPage) : list ClickUpPage :=
             match ps with
             | [] => []
             | p :: r => nodesOf p ++ nodes r
             end) (pages page).

Fixpoint nodes (ps : list ClickUpPage) : list ClickUpPage :=
  match ps with
  | [] => []
  | p :: r => nodesOf p ++ nodes r
  end.

(** The filter of the specification: text left after trimming, and not
    archived. *)
Definition syncable (page : ClickUpPage) : bool :=
  nonempty (trim (content page)) && negb (archived page).

(** Both timestamps of the page are valid dates. *)
Definition validDates (page : ClickUpPage) : bool :=
  validTime (date_created page) && validTime (date_updated page).

(** The part of a trace selected by [f]. *)
Definition observe {X} (f : Event -> option X) (t : list Event) : list X :=
  flat_map (fun e => match f e with Some x => [x] | None => [] end) t.

(** Write requests, with the answer of the destination. *)
Definition postsOf : list Event -> list (jsstring * Transport unit) :=
  observe (fun e => match e with Post u _ _ out => Some (u, out) | _ => None end).

(** Read requests for the pages of a doc. *)
Definition getsOf : list Event -> list (jsstring * Transport ResponseData) :=
  observe (fun e => match e with GetPages u _ out => Some (u, out) | _ => None end).

(** Pauses. *)
Definition sleepsOf : list Event -> list Z :=
  observe (fun e => match e with SetTimeout ms => Some ms | _ => None end).

(** [console.error] lines that carry an error object. *)
Definition errorsOf : list Event -> list (jsstring * JsError) :=
  observe (fun e => match e with
                    | ConsoleError m (ErrorObject err) => Some (m, err)
                    | _ => None
                    end).

(** [console.log] lines. *)
Definition logsOf : list Event -> list jsstring :=
  observe (fun e => match e with ConsoleLog m => Some m | _ => None end).

(** Writes and pauses, in order. *)
Definition deliveriesOf : list Event -> list (jsstring + Z) :=
  observe (fun e => match e with
                    | Post u _ _ _ => Some (inl u)
                    | SetTimeout ms => Some (inr ms)
                    | _ => None
                    end).

(** The error, if any, that a write with this answer ends in. *)
Definition writeError (out : Transport unit) : option JsError :=
  match settle defaultValidateStatus out with
  | Ok _ => None
  | Throw e => Some e
  end.

Definition failedWrites (t : list Event) : list (jsstring * Transport unit) :=
  filter (fun p => match writeError (snd p) with Some _ => true | None => false end)
         (postsOf t).

(** The url of the write of a document. *)
Definition documentUrl (cfg : Config) (documentId : jsstring) : jsstring :=
  lit "/w/" ++ DUST_WORKSPACE_ID cfg ++ lit "/vaults/" ++ DUST_VAULT_ID cfg
  ++ lit "/data_sources/" ++ DUST_DATASOURCE_ID cfg ++ lit "/documents/"
  ++ documentId.

(** Write requests in full: url, text and source url. *)
Definition writesOf : list Event -> list (jsstring * jsstring * jsstring) :=
  observe (fun e => match e with Post u t s _ => Some (u, t, s) | _ => None end).

(** Read requests for pages in full: url, [max_page_depth] and answer. *)
Definition requestsOf : list Event -> list (jsstring * Z * Transport ResponseData) :=
  observe (fun e => match e with GetPages u d out => Some (u, d, out) | _ => None end).

(** Requests for the list of the docs. *)
Definition listingsOf : list Event -> list (jsstring * Transport DocsData) :=
  observe (fun e => match e with GetDocs u out => Some (u, out) | _ => None end).

(** The longest prefix of [l] whose elements all pass [f]. *)
Fixpoint takeWhile {A} (f : A -> bool) (l : list A) : list A :=
  match l with
  | [] => []
  | x :: r => if f x then x :: takeWhile f r else []
  end.

(** The page and its descendants with [doc_id] set to [d]. *)
Fixpoint withDocId (d : jsstring) (page : ClickUpPage) : ClickUpPage :=
  match page with
  | mkPage w _ i a n c pid ps dc du =>
    mkPage w d i a n c pid (map (withDocId d) ps) dc du
  end.

(** The text of the document of a page: four header lines, then the content
    of the page without the white space at its end. *)
Definition documentText (page : ClickUpPage) : jsstring :=
  lit "Title: " ++ name page ++ [10%N]
  ++ lit "Created At: " ++ isoFormat (date_created page) ++ [10%N]
  ++ lit "Updated At: " ++ isoFormat (date_updated page) ++ [10%N]
  ++ lit "Content:" ++ [10%N]
  ++ trimEnd (content page).

(** The link back to a page: through the doc that the page names, or
    through the doc of the environment. *)
Definition linkByPage (cfg : Config) (page : ClickUpPage) : jsstring :=
  lit "https://app.clickup.com/" ++ CLICKUP_WORKSPACE_ID cfg ++ lit "/v/dc/"
  ++ doc_id page ++ lit "/" ++ id page.

Definition linkByEnv (cfg : Config) (page : ClickUpPage) : jsstring :=
  lit "https://app.clickup.com/" ++ CLICKUP_WORKSPACE_ID cfg ++ lit "/v/dc/"
  ++ CLICKUP_DOC_ID cfg ++ lit "/" ++ id page.

(** What a round of a fetch through a client with the default
    [validateStatus] ends in: the body of a 2xx answer whose [length] can be
    read, or the error that the round catches. *)
Definition strictRound (out : Transport ResponseData) : ResponseData + JsError :=
  match settle defaultValidateStatus out with
  | Ok (_, body) =>
    match data_length body with
    | Ok _ => inl body
    | Throw e => inr e
    end
  | Throw e => inr e
  end.

(** [response.data.docs] of a listing, or the error of reading it; [what]
    is the message of the TypeError when the body holds no [docs]. *)
Definition listingOf (validateStatus : Z -> bool) (what : string)
           (out : Transport DocsData) : Result (list Doc) :=
  match settle validateStatus out with
  | Ok (_, DocsList docs) => Ok docs
  | Ok (_, DocsMissing) => Throw (TypeError what)
  | Throw e => Throw e
  end.

(** [m] writes the candidates [cands] in order, each one as [payload]
    says, up to the first candidate whose dates are not valid; there it
    raises a RangeError, and otherwise it returns [a].  It sends no read
    request and makes no pause. *)
Definition writesInOrder {A}
           (payload : ClickUpPage -> jsstring * jsstring * jsstring)
           (cands : list ClickUpPage) (a : A) (m : M A) : Prop :=
  forall h,
    fst (m h) = (if forallb validDates cands then Ok a else Throw RangeError)
    /\ writesOf (snd (m h)) = map payload (takeWhile validDates cands)
    /\ requestsOf (snd (m h)) = []
    /\ listingsOf (snd (m h)) = []
    /\ sleepsOf (snd (m h)) = [].

(** What reaches the destination of a list of batches: the batches before
    the first one that holds a page with an invalid date, whole, and of that
    one the pages with valid dates. *)
Fixpoint sentBatches (batches : list (list ClickUpPage)) : list (list ClickUpPage) :=
  match batches with
  | [] => []
  | b :: r =>
    if forallb validDates b then b :: sentBatches r else [filter validDates b]
  end.

(** [l] cut into consecutive pieces of [n] elements; the last piece may be
    shorter. *)
Fixpoint chunksFuel {A} (fuel n : nat) (l : list A) : list (list A) :=
  match fuel, l with
  | _, [] => []
  | O, _ => []
  | S f, _ => firstn n l :: chunksFuel f n (skipn n l)
  end.

Definition chunks {A} (n : nat) (l : list A) : list (list A) :=
  chunksFuel (List.length l) n l.

(** [ls] joined, with [sep] between two consecutive lists. *)
Fixpoint intercalate {A} (sep : list A) (ls : list (list A)) : list A :=
  match ls with
  | [] => []
  | [l] => l
  | l :: r => l ++ sep ++ intercalate sep r
  end.

(* ================================================================== *)
(** * Properties of traces *)

(** Every [console.error] line, whatever its second argument. *)
Definition errorLinesOf : list Event -> list jsstring :=
  observe (fun e => match e with ConsoleError m _ => Some m | _ => None end).

(** The pauses among writes and pauses. *)
Definition pausesIn (d : list (jsstring + Z)) : list Z :=
  flat_map (fun x => match x with inr ms => [ms] | inl _ => [] end) d.

(** [t] holds one write per candidate of [cands], in order, each to the url
    of its document; every failed write, and nothing else, is reported on
    [console.error] with the line [errLine] of its document and the error of
    the write. *)
Definition written (cfg : Config) (docId : ClickUpPage -> jsstring)
           (errLine : jsstring -> jsstring)
           (cands : list ClickUpPage) (t : list Event) : Prop :=
  exists ws : list (ClickUpPage * Transport unit),
    map fst ws = cands
    /\ postsOf t = map (fun w => (documentUrl cfg (docId (fst w)), snd w)) ws
    /\ errorsOf t =
       flat_map (fun w => match writeError (snd w) with
                          | Some e => [(errLine (docId (fst w)), e)]
                          | None => []
                          end) ws.

(** One write per candidate, failures reported, and neither a pause nor a
    read. *)
Definition writtenOnly (cfg : Config) (docId : ClickUpPage -> jsstring)
           (errLine : jsstring -> jsstring)
           (cands : list ClickUpPage) (t : list Event) : Prop :=
  written cfg docId errLine cands t /\ sleepsOf t = [] /\ getsOf t = [].

(** A property of (candidates, trace) that holds of nothing done and is kept
    by sequencing. *)
Record Compositional {C} (Q : list C -> list Event -> Prop) : Prop := {
  comp_nil : Q [] [];
  comp_app : forall c1 c2 t1 t2, Q c1 t1 -> Q c2 t2 -> Q (c1 ++ c2) (t1 ++ t2)
}.

(** A computation that sends no read request, whatever it returns. *)
Definition sendsNoGet {A} (m : M A) : Prop := forall h, getsOf (snd (m h)) = [].

(** Every piece but the last holds exactly [n] elements; the last one holds
    between one and [n]. *)
Fixpoint fullButLast {A} (n : nat) (ls : list (list A)) : Prop :=
  match ls with
  | [] => True
  | [l] => (1 <= List.length l <= n)%nat
  | l :: r => List.length l = n /\ fullButLast n r
  end.

(** [P] holds of every element that has a successor. *)
Fixpoint eachButLast {A} (P : A -> Prop) (l : list A) : Prop :=
  match l with
  | [] => True
  | [x] => True
  | x :: r => P x /\ eachButLast P r
  end.

(** The answers after which [clickupApi] of the main script rejects. *)
Definition retryable {B} (out : Transport B) : Prop :=
  match out with
  | NoResponse | TimedOut => True
  | Response s _ => 500 <= s
  end.

(** Transient failures: no answer, a timeout, a status from 500 on, or the
    rate-limit status 429. *)
Definition transient {B} (out : Transport B) : Prop :=
  match out with
  | NoResponse | TimedOut => True
  | Response s _ => 500 <= s \/ s = 429
  end.

Section Observed.
Variable W : World.
Variable cfg : Config.
Variable slugify : jsstring -> SlugifyOptions -> jsstring.

Definition countingErrLine (documentId : jsstring) : jsstring :=
  lit "Error upserting page '" ++ documentId ++ lit "' to Dust datasource:".

Definition allDocsDocId (page : ClickUpPage) : jsstring :=
  id page ++ lit "-"
  ++ slugify (name page) {| lower := true; strict := true; trim_option := true |}.

Definition allDocsErrLine (documentId : jsstring) : jsstring :=
  lit "[upsertToDustDatasource] Error upserting page '" ++ documentId
  ++ lit "' to Dust datasource:".

Definition batchedDocId (page : ClickUpPage) : jsstring :=
  id page ++ lit "-" ++ Batched.generateSlug slugify (name page).

Definition batchedErrLine (documentId : jsstring) : jsstring :=
  lit "Error upserting page '" ++ documentId ++ lit "') to Dust datasource:".

Definition writeOf (page : ClickUpPage) : jsstring + Z :=
  inl (documentUrl cfg (batchedDocId page)).

(** One write per candidate and nothing else: no pause, no read. *)
Definition batchQ (cands : list ClickUpPage) (t : list Event) : Prop :=
  written cfg batchedDocId batchedErrLine cands t
  /\ deliveriesOf t = map writeOf cands
  /\ getsOf t = [].

(** The envelope belongs to the page. *)
Definition envelopeFor (page : ClickUpPage) (env : Envelope) : Prop :=
  documentId env = batchedDocId page
  /\ url env = documentUrl cfg (batchedDocId page).

(** The writes and pauses that [processPages] causes for a list of
    batches: the writes of a batch in order, a pause when a further batch
    remains, then the rest.  A batch that holds a page with an invalid date
    is the last one: its pages with valid dates are written, and neither a
    pause nor another batch follows. *)
Fixpoint schedule (batches : list (list ClickUpPage)) : list (jsstring + Z) :=
  match batches with
  | [] => []
  | b :: r =>
    if forallb validDates b
    then map writeOf b ++ (match r with [] => [] | _ :: _ => [inr 1000] end)
         ++ schedule r
    else map writeOf (filter validDates b)
  end.

Definition notFoundLine (docId : jsstring) : jsstring :=
  lit "[getClickUpPagesWithRetry] Doc " ++ docId ++ lit " not found, skipping...".

(** The events of one round, by the answer of the service. *)
Definition roundEvents (docId : jsstring) (attempt : Z)
           (out : Transport ResponseData) : list Event :=
  [ConsoleLog (AllDocs.attemptTag attempt);
   ConsoleLog (lit "[getClickUpPagesWithRetry] Making API request to ClickUp");
   GetPages (AllDocs.pagesUrl cfg docId) 1 out]
  ++ match settle AllDocs.validateStatus out with
     | Ok (s, body) =>
       [ConsoleLog (lit "[ClickUp API Interceptor]: Endpoint: "
                    ++ AllDocs.pagesUrl cfg docId ++ lit ", Status: " ++ showZ s);
        if truthy_data body
        then ConsoleLog (lit "[getClickUpPagesWithRetry] Retrieved "
                         ++ showLength (match data_length body with
                                        | Ok n => n | Throw _ => None end)
                         ++ lit " pages from ClickUp")
        else ConsoleLog (lit "[getClickUpPagesWithRetry] No data returned for doc "
                         ++ docId ++ lit ", skipping...")]
     | Throw e =>
       [ConsoleError (lit "[ClickUp API Interceptor]: Error:") (ErrorObject e);
        ConsoleError (AllDocs.attemptTag attempt ++ lit " failed:")
                     (ErrorMessage (message e))]
       ++ (if attempt <? AllDocs.maxRetries
           then [ConsoleLog (lit "[getClickUpPagesWithRetry] Retrying in "
                             ++ showZ (AllDocs.backoff attempt) ++ lit "ms");
                 SetTimeout (AllDocs.backoff attempt)]
           else [])
     end.

Definition roundResult (out : Transport ResponseData) : ResponseData + JsError :=
  match settle AllDocs.validateStatus out with
  | Ok (s, body) => inl (if truthy_data body then body else DataPages [])
  | Throw e => inr e
  end.

(** The answer that the round starting at history [h] gets. *)
Definition roundAnswer (docId : jsstring) (attempt : Z) (h : list Event)
  : Transport ResponseData :=
  clickupPages W
    (h ++ [ConsoleLog (AllDocs.attemptTag attempt);
           ConsoleLog (lit "[getClickUpPagesWithRetry] Making API request to ClickUp")])
    (AllDocs.pagesUrl cfg docId) 1.

Definition startLine (docId : jsstring) : jsstring :=
  lit "[getClickUpPagesWithRetry] Starting to fetch pages for docId: " ++ docId.

Definition singleRoundAnswer (docId : jsstring) (attempt : Z) (h : list Event)
  : Transport ResponseData :=
  clickupPages W
    (h ++ [ConsoleLog (SingleDoc.attemptTag attempt);
           ConsoleLog (lit "[getClickUpPagesWithRetry] Making API request to ClickUp")])
    (SingleDoc.pagesUrl cfg docId) 1.

(** What is sent for a page: the url of its document, the text, and the
    link back to the page, through the doc of the page or through the doc
    of the environment. *)
Definition writeByPage (page : ClickUpPage) : jsstring * jsstring * jsstring :=
  (documentUrl cfg (allDocsDocId page), documentText page, linkByPage cfg page).

Definition writeByEnv (page : ClickUpPage) : jsstring * jsstring * jsstring :=
  (documentUrl cfg (allDocsDocId page), documentText page, linkByEnv cfg page).

(** The same with the text as the scripts compute it. *)
Definition rawText (page : ClickUpPage) : jsstring :=
  trim (contentTemplate page (isoFormat (date_created page))
                        (isoFormat (date_updated page))).

End Observed.

(* ================================================================== *)
(** * Sample inputs *)

Definition unlit (s : jsstring) : string :=
  string_of_list_ascii (map ascii_of_N s).

Fixpoint jsstring_eqb (a b : jsstring) : bool :=
  match a, b with
  | [], [] => true
  | x :: a', y :: b' => N.eqb x y && jsstring_eqb a' b'
  | _, _ => false
  end.

(** A stand-in for the [slugify] package on ASCII titles: letters are
    lowered, digits kept, a space becomes a hyphen, the rest is dropped. *)
Definition sampleSlugify (s : jsstring) (o : SlugifyOptions) : jsstring :=
  flat_map (fun c =>
              if (N.leb 65 c && N.leb c 90)%bool then [(c + 32)%N]
              else if (N.leb 97 c && N.leb c 122)%bool then [c]
              else if (N.leb 48 c && N.leb c 57)%bool then [c]
              else if N.eqb c 32 then [45%N]
              else []) s.

Definition sampleConfig : Config :=
  {| CLICKUP_WORKSPACE_ID := lit "9001";
     CLICKUP_DOC_ID := lit "doc1";
     DUST_WORKSPACE_ID := lit "w1";
     DUST_DATASOURCE_ID := lit "ds1";
     DUST_VAULT_ID := lit "v1" |}.

Definition samplePage (ident title body : string) (arch : bool)
           (children : list ClickUpPage) : ClickUpPage :=
  {| workspace_id := lit "9001"; doc_id := lit "doc1"; id := lit ident;
     archived := arch; name := lit title; content := lit body;
     parent_id := None; pages := children;
     date_created := 1700000000000; date_updated := 1700000360000 |}.

Definition pageD := samplePage "d" "Page D" "z" false [].

Definition pageA := samplePage "a" "Page A" "x" false [pageD].

Definition pageB := samplePage "b" "Page B" "  " false [].

Definition pageE := samplePage "e" "Page E" "w" false [].

Definition pageC := samplePage "c" "Page C" "y" true [pageE].

(** A with child D, empty B, archived C with child E. *)
Definition sampleTree : list ClickUpPage := [pageA; pageB; pageC].

(** Seven pages with text, none archived: two batches. *)
Definition sevenPages : list ClickUpPage :=
  map (fun n => samplePage n "Title" "text" false [])
      ["p1"; "p2"; "p3"; "p4"; "p5"; "p6"; "p7"]%string.

(** A page whose text is surrounded by white space. *)
Definition pagePadded : ClickUpPage :=
  {| workspace_id := lit "9001"; doc_id := lit "doc7"; id := lit "pad";
     archived := false; name := lit "Padded";
     content := [32%N; 32%N] ++ lit "body" ++ [32%N; 10%N; 10%N];
     parent_id := None; pages := [];
     date_created := 0; date_updated := 1700000000123 |}.

(** A page whose creation time is one millisecond past the last valid
    date. *)
Definition pageLate : ClickUpPage :=
  {| workspace_id := lit "9001"; doc_id := lit "doc1"; id := lit "late";
     archived := false; name := lit "Late"; content := lit "text";
     parent_id := None; pages := [];
     date_created := 8640000000000001; date_updated := 1700000360000 |}.

(** The seven pages with the late page put in after the fifth. *)
Definition sevenAndLate : list ClickUpPage :=
  firstn 5 sevenPages ++ [pageLate] ++ skipn 5 sevenPages.

Definition sampleDocs : list Doc :=
  [mkDoc (lit "doc1") (lit "First"); mkDoc (lit "doc2") (lit "Second")].

(** Both services answer 200. *)
Definition worldOk (tree : list ClickUpPage) : World :=
  {| clickupPages := fun _ _ _ => Response 200 (DataPages tree);
     clickupDocs := fun _ _ => Response 200 (DocsList sampleDocs);
     dustDocuments := fun _ _ _ _ => Response 200 tt |}.

(** One doc; the destination answers 500 to the write that comes after [k]
    earlier writes of the run, and 200 to the others. *)
Definition worldWriteFails (k : nat) (tree : list ClickUpPage) : World :=
  {| clickupPages := fun _ _ _ => Response 200 (DataPages tree);
     clickupDocs := fun _ _ => Response 200 (DocsList [mkDoc (lit "doc1") (lit "First")]);
     dustDocuments := fun h _ _ _ =>
                        if Nat.eqb (List.length (postsOf h)) k
                        then Response 500 tt else Response 200 tt |}.

(** The source answers 503 to every request for pages. *)
Definition worldSourceDown : World :=
  {| clickupPages := fun _ _ _ => Response 503 DataNull;
     clickupDocs := fun _ _ => Response 200 (DocsList sampleDocs);
     dustDocuments := fun _ _ _ _ => Response 200 tt |}.

(** The source answers 404, with an error body, to every request for
    pages. *)
Definition worldNotFound : World :=
  {| clickupPages := fun _ _ _ => Response 404 (DataObject (lit "{err: Doc not found}"));
     clickupDocs := fun _ _ => Response 200 (DocsList sampleDocs);
     dustDocuments := fun _ _ _ _ => Response 200 tt |}.

(** The source answers 429 to every request for pages. *)
Definition worldRateLimited : World :=
  {| clickupPages := fun _ _ _ => Response 429 (DataObject (lit "{err: Rate limit}"));
     clickupDocs := fun _ _ => Response 200 (DocsList sampleDocs);
     dustDocuments := fun _ _ _ _ => Response 200 tt |}.

(** Two docs; the pages of the first cannot be fetched (status 500), those
    of the second can. *)
Definition worldFirstDocDown (tree : list ClickUpPage) : World :=
  {| clickupPages := fun _ u _ =>
                       if jsstring_eqb u (lit "/workspaces/9001/docs/doc1/pages")
                       then Response 500 DataNull
                       else Response 200 (DataPages tree);
     clickupDocs := fun _ _ => Response 200 (DocsList sampleDocs);
     dustDocuments := fun _ _ _ _ => Response 200 tt |}.

(** An environment that sets every variable. *)
Definition sampleEnv : Env :=
  fun name =>
    if String.eqb name "CLICKUP_API_KEY" then Some (lit "pk_1")
    else if String.eqb name "CLICKUP_WORKSPACE_ID" then Some (lit "9001")
    else if String.eqb name "CLICKUP_DOC_ID" then Some (lit "doc1")
    else if String.eqb name "DUST_API_KEY" then Some (lit "sk_1")
    else if String.eqb name "DUST_WORKSPACE_ID" then Some (lit "w1")
    else if String.eqb name "DUST_DATASOURCE_ID" then Some (lit "ds1")
    else if String.eqb name "DUST_VAULT_ID" then Some (lit "v1")
    else None.

(** The same without [DUST_API_KEY], and with an empty [DUST_VAULT_ID]. *)
Definition envTwoMissing : Env :=
  fun name =>
    if String.eqb name "DUST_API_KEY" then None
    else if String.eqb name "DUST_VAULT_ID" then Some []
    else sampleEnv name.

(** The source answers 503 to the first [k] requests for pages of the run,
    and 200 with the tree from then on. *)
Definition worldFlaky (k : nat) (tree : list ClickUpPage) : World :=
  {| clickupPages := fun h _ _ =>
                       if (List.length (getsOf h) <? k)%nat
                       then Response 503 DataNull
                       else Response 200 (DataPages tree);
     clickupDocs := fun _ _ => Response 200 (DocsList sampleDocs);
     dustDocuments := fun _ _ _ _ => Response 200 tt |}.


(** The listing of the docs cannot be fetched. *)
Definition worldListingDown : World :=
  {| clickupPages := fun _ _ _ => Response 200 (DataPages []);
     clickupDocs := fun _ _ => Response 503 DocsMissing;
     dustDocuments := fun _ _ _ _ => Response 200 tt |}.

(** The source answers 200 with the body [null]. *)
Definition worldNullBody : World :=
  {| clickupPages := fun _ _ _ => Response 200 DataNull;
     clickupDocs := fun _ _ => Response 200 (DocsList sampleDocs);
     dustDocuments := fun _ _ _ _ => Response 200 tt |}.


(* ================================================================== *)
(** * Sanity checks of the date format *)

Example iso_epoch : unlit (isoFormat 0) = "1970-01-01T00:00:00.000Z"%string.
Proof. vm_compute. reflexivity. Qed.

Example iso_2023 :
  unlit (isoFormat 1700000000123) = "2023-11-14T22:13:20.123Z"%string.
Proof. vm_compute. reflexivity. Qed.

Example iso_leap :
  unlit (isoFormat 951782400000) = "2000-02-29T00:00:00.000Z"%string.
Proof. vm_compute. reflexivity. Qed.

Example iso_before_epoch :
  unlit (isoFormat (-1)) = "1969-12-31T23:59:59.999Z"%string.
Proof. vm_compute. reflexivity. Qed.

Example iso_max :
  unlit (isoFormat 8640000000000000) = "+275760-09-13T00:00:00.000Z"%string.
Proof. vm_compute. reflexivity. Qed.

Example iso_min :
  unlit (isoFormat (-8640000000000000)) = "-271821-04-20T00:00:00.000Z"%string.
Proof. vm_compute. reflexivity. Qed.

Example trim_example :
  unlit (trim (lit "  a b  " ++ [10%N; 160%N])) = "a b"%string.
Proof. vm_compute. reflexivity. Qed.

(* ================================================================== *)
(** * Trees of pages *)

Lemma page_forest_ind (P : ClickUpPage -> Prop) :
  (forall w d i a n c pid ps dc du,
      Forall P ps -> P (mkPage w d i a n c pid ps dc du)) ->
  forall page, P page.
Proof.
  intros step. fix IH 1. intros [w d i a n c pid ps dc du]. apply step.
  induction ps as [|x r IHr]; constructor; [apply IH | exact IHr].
Qed.

(** The guard [page.content && ...] adds nothing to the trimmed test. *)
Lemma hasContent_trim (page : ClickUpPage) :
  hasContent page = nonempty (trim (content page)).
Proof.
  unfold hasContent. destruct (content page) as [|c s]; reflexivity.
Qed.

Lemma hasContent_trim_syncable (page : ClickUpPage) :
  hasContent page && negb (archived page) = syncable page.
Proof. unfold syncable. rewrite hasContent_trim. reflexivity. Qed.

Lemma flattenPage_unfold (page : ClickUpPage) :
  Batched.flattenPage page =
  (if syncable page then [page] else []) ++ Batched.flattenPages (pages page).
Proof.
  unfold syncable. rewrite <- hasContent_trim.
  destruct page as [w d i a n c pid ps dc du]; cbn [Batched.flattenPage pages].
  f_equal. unfold hasChildren; cbn [pages].
  destruct ps as [|p r]; reflexivity.
Qed.

Lemma nodesOf_unfold (page : ClickUpPage) :
  nodesOf page = page :: nodes (pages page).
Proof. destruct page; reflexivity. Qed.

Lemma flattenPage_filter (page : ClickUpPage) :
  Batched.flattenPage page = filter syncable (nodesOf page).
Proof.
  induction page as [w d i a n c pid ps dc du IH] using page_forest_ind.
  rewrite flattenPage_unfold, nodesOf_unfold. cbn [filter pages].
  assert (E : Batched.flattenPages ps = filter syncable (nodes ps)).
  { induction IH as [|p r Hp _ IHr]; cbn [Batched.flattenPages nodes filter].
    - reflexivity.
    - rewrite filter_app, Hp, IHr. reflexivity. }
  rewrite E. destruct (syncable _); reflexivity.
Qed.

Lemma flattenPages_filter (ps : list ClickUpPage) :
  Batched.flattenPages ps = filter syncable (nodes ps).
Proof.
  induction ps as [|p r IH]; cbn [Batched.flattenPages nodes filter].
  - reflexivity.
  - rewrite filter_app, flattenPage_filter, IH. reflexivity.
Qed.

Lemma nonempty_true_iff (s : jsstring) : nonempty s = true <-> s <> [].
Proof. destruct s; cbn; split; intros; congruence. Qed.

Lemma syncable_spec (page : ClickUpPage) :
  syncable page = true <->
  trim (content page) <> [] /\ archived page = false.
Proof.
  unfold syncable. rewrite andb_true_iff, negb_true_iff, nonempty_true_iff.
  tauto.
Qed.

(* ================================================================== *)
(** * Running computations *)

Arguments lit : simpl never.
Arguments showN : simpl never.
Arguments showZ : simpl never.
Arguments showNat : simpl never.
Arguments trim : simpl never.
Arguments isoFormat : simpl never.
Arguments contentTemplate : simpl never.
Arguments validTime : simpl never.

Lemma bind_ok {A B} (m : M A) (k : A -> M B) h a t1 :
  m h = (Ok a, t1) ->
  bind m k h = (fst (k a (h ++ t1)), t1 ++ snd (k a (h ++ t1))).
Proof. intros E. unfold bind. rewrite E. destruct (k a (h ++ t1)); reflexivity. Qed.

Lemma bind_throw {A B} (m : M A) (k : A -> M B) h e t1 :
  m h = (Throw e, t1) -> bind m k h = (Throw e, t1).
Proof. intros E. unfold bind. rewrite E. reflexivity. Qed.

Lemma tryCatch_ok {A} (m : M A) handler h a t1 :
  m h = (Ok a, t1) -> tryCatch m handler h = (Ok a, t1).
Proof. intros E. unfold tryCatch. rewrite E. reflexivity. Qed.

Lemma tryCatch_throw {A} (m : M A) handler h e t1 :
  m h = (Throw e, t1) ->
  tryCatch m handler h =
  (fst (handler e (h ++ t1)), t1 ++ snd (handler e (h ++ t1))).
Proof.
  intros E. unfold tryCatch. rewrite E. destruct (handler e (h ++ t1)); reflexivity.
Qed.

Lemma observe_app {X} (f : Event -> option X) (a b : list Event) :
  observe f (a ++ b) = observe f a ++ observe f b.
Proof. apply flat_map_app. Qed.

Lemma toISOString_valid (ms : Z) :
  validTime ms = true -> toISOString ms = Ok (isoFormat ms).
Proof. intros V. unfold toISOString. rewrite V. reflexivity. Qed.

Lemma toISOString_invalid (ms : Z) :
  validTime ms = false -> toISOString ms = Throw RangeError.
Proof. intros V. unfold toISOString. rewrite V. reflexivity. Qed.

Lemma written_nil cfg docId errLine t :
  postsOf t = [] -> errorsOf t = [] -> written cfg docId errLine [] t.
Proof. intros P E. exists []. rewrite P, E. repeat split. Qed.

Lemma written_app cfg docId errLine c1 c2 t1 t2 :
  written cfg docId errLine c1 t1 -> written cfg docId errLine c2 t2 ->
  written cfg docId errLine (c1 ++ c2) (t1 ++ t2).
Proof.
  intros (w1 & F1 & P1 & E1) (w2 & F2 & P2 & E2). exists (w1 ++ w2).
  unfold postsOf, errorsOf in *.
  rewrite !observe_app, map_app, map_app, flat_map_app, F1, F2, P1, P2, E1, E2.
  repeat split.
Qed.

Lemma flat_map_flattenPage (ps : list ClickUpPage) :
  flat_map Batched.flattenPage ps = Batched.flattenPages ps.
Proof. induction ps as [|p r IH]; cbn; [|rewrite IH]; reflexivity. Qed.

Lemma forEach_spec {A C} (Q : list C -> list Event -> Prop)
      (body : A -> M unit) (g : A -> list C) (l : list A) :
  Compositional Q ->
  (forall x, In x l -> forall h,
        fst (body x h) = Ok tt /\ Q (g x) (snd (body x h))) ->
  forall h, fst (forEach body l h) = Ok tt
            /\ Q (flat_map g l) (snd (forEach body l h)).
Proof.
  intros HQ. induction l as [|x r IH]; intros Hb h; cbn [forEach flat_map].
  - split; [reflexivity | apply (comp_nil _ HQ)].
  - destruct (Hb x (or_introl eq_refl) h) as [E1 Q1].
    destruct (body x h) as [r1 t1] eqn:Eb. cbn in E1, Q1. subst r1.
    rewrite (bind_ok _ _ _ _ _ Eb).
    destruct (IH (fun y Hy => Hb y (or_intror Hy)) (h ++ t1)) as [E2 Q2].
    cbn [fst snd]. split; [exact E2 | apply (comp_app _ HQ); assumption].
Qed.

Lemma forCount_spec {A C} (Q : list C -> list Event -> Prop)
      (body : A -> nat -> M nat) (g : A -> list C) (l : list A) :
  Compositional Q ->
  (forall x, In x l -> forall c h,
        fst (body x c h) = Ok (c + List.length (g x))%nat
        /\ Q (g x) (snd (body x c h))) ->
  forall c h, fst (Counting.forCount body l c h)
              = Ok (c + List.length (flat_map g l))%nat
              /\ Q (flat_map g l) (snd (Counting.forCount body l c h)).
Proof.
  intros HQ. induction l as [|x r IH]; intros Hb c h;
    cbn [Counting.forCount flat_map].
  - split; [cbn; f_equal; lia | apply (comp_nil _ HQ)].
  - destruct (Hb x (or_introl eq_refl) c h) as [E1 Q1].
    destruct (body x c h) as [r1 t1] eqn:Eb. cbn in E1, Q1. subst r1.
    rewrite (bind_ok _ _ _ _ _ Eb).
    destruct (IH (fun y Hy => Hb y (or_intror Hy))
                 (c + List.length (g x))%nat (h ++ t1)) as [E2 Q2].
    cbn [fst snd]. split.
    + rewrite E2, length_app. f_equal. lia.
    + apply (comp_app _ HQ); assumption.
Qed.

Lemma writtenOnly_compositional cfg docId errLine :
  Compositional (writtenOnly cfg docId errLine).
Proof.
  split.
  - split; [apply written_nil; reflexivity | split; reflexivity].
  - intros c1 c2 t1 t2 (W1 & S1 & G1) (W2 & S2 & G2).
    split; [apply written_app; assumption|].
    unfold sleepsOf, getsOf in *. rewrite !observe_app, S1, S2, G1, G2.
    split; reflexivity.
Qed.

Lemma writtenOnly_log cfg docId errLine m :
  writtenOnly cfg docId errLine [] [ConsoleLog m].
Proof.
  split; [apply written_nil; reflexivity | split; reflexivity].
Qed.

Section CountingFacts.
Variable W : World.
Variable cfg : Config.
Variable slugify : jsstring -> SlugifyOptions -> jsstring.
Local Abbreviation countingDocId := (Counting.documentIdOf slugify) (only parsing).
Local Abbreviation Q := (writtenOnly cfg countingDocId countingErrLine) (only parsing).

Lemma Counting_upsert_run (page : ClickUpPage) (h : list Event) :
  validDates page = true ->
  exists text out t2,
    Counting.upsertToDustDatasource W cfg slugify page h =
    (Ok tt, [Post (documentUrl cfg (countingDocId page)) text
                  (Counting.sourceUrl cfg page) out; t2])
    /\ match writeError out with
       | None => exists m, t2 = ConsoleLog m
       | Some e => t2 = ConsoleError (countingErrLine (countingDocId page))
                                     (ErrorObject e)
       end.
Proof.
  intros V. unfold validDates in V. apply andb_true_iff in V as [V1 V2].
  unfold Counting.upsertToDustDatasource.
  rewrite (toISOString_valid _ V1), (toISOString_valid _ V2).
  cbn [liftR bind app].
  set (text := trim _).
  unfold tryCatch, bind, limitedDustApiPost, writeError.
  fold (documentUrl cfg (countingDocId page)).
  set (out := dustDocuments W _ _ _ _).
  exists text, out.
  destruct (settle defaultValidateStatus out) as [r|e]; cbn.
  - eexists. split; [reflexivity|]. eexists. reflexivity.
  - eexists. split; reflexivity.
Qed.

Lemma Counting_upsert_written (page : ClickUpPage) (h : list Event) :
  validDates page = true ->
  fst (Counting.upsertToDustDatasource W cfg slugify page h) = Ok tt
  /\ Q [page] (snd (Counting.upsertToDustDatasource W cfg slugify page h)).
Proof.
  intros V. destruct (Counting_upsert_run page h V) as (text & out & t2 & E & H2).
  rewrite E. cbn [fst snd]. split; [reflexivity|].
  unfold Q, writtenOnly, written.
  split; [exists [(page, out)] | ].
  - cbn [map fst snd flat_map].
    destruct (writeError out) as [e|].
    + subst t2. repeat split.
    + destruct H2 as [m ->]. repeat split.
  - destruct (writeError out) as [e|]; [subst t2 | destruct H2 as [m ->]];
      split; reflexivity.
Qed.

Lemma Counting_processPage_unfold depth page c :
  Counting.processPage W cfg slugify depth page c =
  (c' <- (if hasContent page then
            if negb (archived page) then
              console_log (Counting.indent depth ++ lit "Processing page: "
                           ++ name page) ;;
              Counting.upsertToDustDatasource W cfg slugify page ;;
              ret (S c)
            else
              console_log (Counting.indent depth ++ lit "Skipping archived page: "
                           ++ name page) ;;
              ret c
          else ret c) ;;
   if hasChildren page then
     n <- Counting.processPages W cfg slugify (pages page) (S depth) ;;
     ret (c' + n)%nat
   else ret c')%js.
Proof. destruct page; reflexivity. Qed.

Lemma Counting_processPage_spec (page : ClickUpPage) :
  (forall p, In p (Batched.flattenPage page) -> validDates p = true) ->
  forall depth c h,
    fst (Counting.processPage W cfg slugify depth page c h)
    = Ok (c + List.length (Batched.flattenPage page))%nat
    /\ Q (Batched.flattenPage page)
         (snd (Counting.processPage W cfg slugify depth page c h)).
Proof.
  induction page as [w d i a n co pid ps dc du IH] using page_forest_ind.
  intros V depth c h.
  set (page := mkPage w d i a n co pid ps dc du) in *.
  rewrite flattenPage_unfold in V |- *. rewrite <- hasContent_trim_syncable in *.
  assert (Kids : forall depth' h',
    fst (Counting.processPages W cfg slugify ps depth' h')
    = Ok (List.length (Batched.flattenPages ps))%nat
    /\ Q (Batched.flattenPages ps)
         (snd (Counting.processPages W cfg slugify ps depth' h'))).
  { intros depth' h'. unfold Counting.processPages.
    rewrite <- flat_map_flattenPage.
    apply (forCount_spec Q (Counting.processPage W cfg slugify depth')
                         Batched.flattenPage ps
                         (writtenOnly_compositional _ _ _)).
    intros x Hx c' h''. rewrite Forall_forall in IH. apply IH; [exact Hx|].
    intros p Hp. apply V. apply in_or_app. right. cbn [pages page].
    rewrite <- flat_map_flattenPage. apply in_flat_map. eauto. }
  rewrite Counting_processPage_unfold.
  set (sel := if hasContent page && negb (archived page) then [page] else []) in *.
  match goal with |- context [bind ?m _] =>
    assert (First : fst (m h) = Ok (c + List.length sel)%nat
                    /\ Q sel (snd (m h))) end.
  { subst sel. destruct (hasContent page); cbn [andb] in *;
      [destruct (archived page); cbn [negb] in *|].
    - cbn. split; [f_equal; lia | apply writtenOnly_log].
    - rewrite (bind_ok _ _ h tt [ConsoleLog _] eq_refl).
      destruct (Counting_upsert_written page (h ++ [ConsoleLog
        (Counting.indent depth ++ lit "Processing page: " ++ name page)]))
        as [E1 Q1].
      { apply V. left. reflexivity. }
      destruct (Counting.upsertToDustDatasource _ _ _ _ _) as [r1 t1] eqn:Eu.
      cbn [fst snd] in E1, Q1. subst r1.
      rewrite (bind_ok _ _ _ tt t1 Eu). cbn [fst snd ret app].
      split; [f_equal; cbn; lia|].
      apply (comp_app _ (writtenOnly_compositional _ _ _) [] [page] [_] _).
      + apply writtenOnly_log.
      + rewrite app_nil_r. exact Q1.
    - cbn. split; [f_equal; lia | apply (comp_nil _ (writtenOnly_compositional _ _ _))]. }
  destruct First as [E1 Q1].
  match goal with |- context [bind ?m _] =>
    destruct (m h) as [r1 t1] eqn:Em end.
  cbn [fst snd] in E1, Q1. subst r1.
  rewrite (bind_ok _ _ _ _ _ Em).
  unfold hasChildren. cbn [pages page].
  destruct ps as [|p0 r0] eqn:Eps.
  - cbn [ret fst snd Batched.flattenPages]. rewrite !app_nil_r.
    split; [reflexivity | exact Q1].
  - rewrite <- Eps in *.
    destruct (Kids (S depth) (h ++ t1)) as [E2 Q2].
    destruct (Counting.processPages _ _ _ _ _ _) as [r2 t2] eqn:Ek.
    cbn [fst snd] in E2, Q2. subst r2.
    rewrite (bind_ok _ _ _ _ _ Ek). cbn [ret fst snd]. rewrite app_nil_r.
    split.
    + rewrite length_app. f_equal. lia.
    + apply (comp_app _ (writtenOnly_compositional _ _ _)); assumption.
Qed.

Lemma Counting_processPages_spec (ps : list ClickUpPage) :
  (forall p, In p (Batched.flattenPages ps) -> validDates p = true) ->
  forall depth h,
    fst (Counting.processPages W cfg slugify ps depth h)
    = Ok (List.length (Batched.flattenPages ps))
    /\ Q (Batched.flattenPages ps)
         (snd (Counting.processPages W cfg slugify ps depth h)).
Proof.
  intros V depth h. unfold Counting.processPages.
  rewrite <- flat_map_flattenPage in *.
  apply (forCount_spec Q (Counting.processPage W cfg slugify depth)
                       Batched.flattenPage ps
                       (writtenOnly_compositional _ _ _)).
  intros x Hx c h'. apply Counting_processPage_spec.
  intros p Hp. apply V. apply in_flat_map. eauto.
Qed.
End CountingFacts.

Lemma bind_log {B} (m : jsstring) (k : unit -> M B) (h : list Event) :
  bind (console_log m) k h =
  (fst (k tt (h ++ [ConsoleLog m])), ConsoleLog m :: snd (k tt (h ++ [ConsoleLog m]))).
Proof. apply (bind_ok _ _ h tt [ConsoleLog m] eq_refl). Qed.

Lemma writtenOnly_cons_log cfg docId errLine cands m t :
  writtenOnly cfg docId errLine cands t ->
  writtenOnly cfg docId errLine cands (ConsoleLog m :: t).
Proof.
  intros H.
  apply (comp_app _ (writtenOnly_compositional cfg docId errLine)
                  [] cands [ConsoleLog m] t);
    [apply writtenOnly_log | exact H].
Qed.

Section AllDocsFacts.
Variable W : World.
Variable cfg : Config.
Variable slugify : jsstring -> SlugifyOptions -> jsstring.
Local Abbreviation allDocsDocId := (allDocsDocId slugify) (only parsing).
Local Abbreviation Q := (writtenOnly cfg allDocsDocId allDocsErrLine) (only parsing).

Lemma AllDocs_generateSlug_run (name : jsstring) (h : list Event) :
  AllDocs.generateSlug slugify name h =
  (Ok (slugify name {| lower := true; strict := true; trim_option := true |}),
   [ConsoleLog (lit "[generateSlug] Generating slug for: " ++ name);
    ConsoleLog (lit "[generateSlug] Generated slug: "
                ++ slugify name {| lower := true; strict := true;
                                   trim_option := true |})]).
Proof. reflexivity. Qed.

Lemma AllDocs_upsert_written (page : ClickUpPage) (h : list Event) :
  validDates page = true ->
  fst (AllDocs.upsertToDustDatasource W cfg slugify page h) = Ok tt
  /\ Q [page] (snd (AllDocs.upsertToDustDatasource W cfg slugify page h)).
Proof.
  intros V. unfold validDates in V. apply andb_true_iff in V as [V1 V2].
  unfold AllDocs.upsertToDustDatasource.
  rewrite (toISOString_valid _ V1), (toISOString_valid _ V2).
  rewrite bind_log. cbn [fst snd].
  rewrite (bind_ok _ _ _ _ _ (AllDocs_generateSlug_run _ _)). cbn [fst snd].
  rewrite (bind_ok (liftR _) _ _ _ [] eq_refl). cbn [fst snd app].
  rewrite (bind_ok (liftR _) _ _ _ [] eq_refl). cbn [fst snd app].
  fold (allDocsDocId page). fold (documentUrl cfg (allDocsDocId page)).
  set (text := trim _). set (src := lit "https://app.clickup.com/" ++ _).
  match goal with |- context [tryCatch _ _ ?h'] => set (h1 := h') end.
  set (out := dustDocuments W (h1 ++ [ConsoleLog
    (lit "[upsertToDustDatasource] Making Dust API request for documentId: "
     ++ allDocsDocId page)]) (documentUrl cfg (allDocsDocId page)) text src).
  assert (E : exists t2,
    tryCatch
      (console_log (lit "[upsertToDustDatasource] Making Dust API request for documentId: "
                    ++ allDocsDocId page) ;;
       limitedDustApiPost W (documentUrl cfg (allDocsDocId page)) text src ;;
       console_log (lit "[upsertToDustDatasource] Upserted page '"
                    ++ allDocsDocId page ++ lit "' to Dust datasource"))
      (fun error =>
         console_error (lit "[upsertToDustDatasource] Error upserting page '"
                        ++ allDocsDocId page ++ lit "' to Dust datasource:")
                       (ErrorObject error)) h1
    = (Ok tt, [ConsoleLog (lit "[upsertToDustDatasource] Making Dust API request for documentId: "
                           ++ allDocsDocId page);
               Post (documentUrl cfg (allDocsDocId page)) text src out; t2])
    /\ match writeError out with
       | None => exists m, t2 = ConsoleLog m
       | Some e => t2 = ConsoleError (allDocsErrLine (allDocsDocId page))
                                     (ErrorObject e)
       end).
  { unfold tryCatch, bind, limitedDustApiPost, writeError, console_log, emit.
    fold out.
    destruct (settle defaultValidateStatus out) as [r|e]; cbn.
    - eexists. split; [reflexivity|]. eexists. reflexivity.
    - eexists. split; reflexivity. }
  destruct E as (t2 & E & H2). rewrite E. cbn [fst snd].
  split; [reflexivity|].
  do 4 apply writtenOnly_cons_log.
  split; [exists [(page, out)] | ].
  - cbn [map fst snd flat_map].
    destruct (writeError out) as [e|].
    + subst t2. repeat split.
    + destruct H2 as [m ->]. repeat split.
  - destruct (writeError out) as [e|]; [subst t2 | destruct H2 as [m ->]];
      split; reflexivity.
Qed.

Lemma AllDocs_processPage_unfold page :
  AllDocs.processPage W cfg slugify page =
  (console_log (lit "[processPages] Processing page: " ++ name page) ;;
   (if hasContent page then
      if negb (archived page) then AllDocs.upsertToDustDatasource W cfg slugify page
      else console_log (lit "[processPages] Skipping archived page: " ++ name page)
    else ret tt) ;;
   (if hasChildren page then
      console_log (lit "[processPages] Page " ++ name page ++ lit " has child pages.") ;;
      AllDocs.processPages W cfg slugify (pages page)
    else ret tt))%js.
Proof. destruct page; reflexivity. Qed.

Lemma AllDocs_processPage_spec (page : ClickUpPage) :
  (forall p, In p (Batched.flattenPage page) -> validDates p = true) ->
  forall h,
    fst (AllDocs.processPage W cfg slugify page h) = Ok tt
    /\ Q (Batched.flattenPage page)
         (snd (AllDocs.processPage W cfg slugify page h)).
Proof.
  induction page as [w d i a n co pid ps dc du IH] using page_forest_ind.
  intros V h.
  set (page := mkPage w d i a n co pid ps dc du) in *.
  rewrite flattenPage_unfold in V |- *. rewrite <- hasContent_trim_syncable in *.
  assert (Kids : forall h',
    fst (AllDocs.processPages W cfg slugify ps h') = Ok tt
    /\ Q (Batched.flattenPages ps)
         (snd (AllDocs.processPages W cfg slugify ps h'))).
  { intros h'. unfold AllDocs.processPages. rewrite bind_log. cbn [fst snd].
    rewrite <- flat_map_flattenPage.
    match goal with |- context [forEach _ _ ?h1] =>
      destruct (forEach_spec Q (AllDocs.processPage W cfg slugify)
                  Batched.flattenPage ps
                  (writtenOnly_compositional _ _ _)) with (h := h1)
        as [E2 Q2] end.
    { intros x Hx h''. rewrite Forall_forall in IH. apply IH; [exact Hx|].
      intros p Hp. apply V. apply in_or_app. right. cbn [pages page].
      rewrite <- flat_map_flattenPage. apply in_flat_map. eauto. }
    split; [exact E2 | apply writtenOnly_cons_log; exact Q2]. }
  rewrite AllDocs_processPage_unfold. rewrite bind_log. cbn [fst snd].
  set (sel := if hasContent page && negb (archived page) then [page] else []) in *.
  match goal with |- context [bind ?m _ ?h1] =>
    assert (First : fst (m h1) = Ok tt /\ Q sel (snd (m h1))) end.
  { subst sel. destruct (hasContent page); cbn [andb] in *;
      [destruct (archived page); cbn [negb] in *|].
    - split; [reflexivity | apply writtenOnly_log].
    - apply AllDocs_upsert_written. apply V. left. reflexivity.
    - split; [reflexivity | apply (comp_nil _ (writtenOnly_compositional _ _ _))]. }
  destruct First as [E1 Q1].
  match goal with |- context [bind ?m _ ?h1] =>
    destruct (m h1) as [r1 t1] eqn:Em end.
  cbn [fst snd] in E1, Q1. subst r1.
  rewrite (bind_ok _ _ _ _ _ Em).
  unfold hasChildren. cbn [pages page].
  destruct ps as [|p0 r0] eqn:Eps.
  - cbn [ret fst snd Batched.flattenPages]. rewrite !app_nil_r.
    split; [reflexivity | apply writtenOnly_cons_log; exact Q1].
  - rewrite <- Eps in *. rewrite bind_log. cbn [fst snd].
    match goal with |- context [AllDocs.processPages _ _ _ _ ?h1] =>
      destruct (Kids h1) as [E2 Q2] end.
    split; [exact E2|].
    apply writtenOnly_cons_log.
    apply (comp_app _ (writtenOnly_compositional _ _ _)); [exact Q1|].
    apply writtenOnly_cons_log. exact Q2.
Qed.

Lemma AllDocs_processPages_spec (ps : list ClickUpPage) :
  (forall p, In p (Batched.flattenPages ps) -> validDates p = true) ->
  forall h,
    fst (AllDocs.processPages W cfg slugify ps h) = Ok tt
    /\ Q (Batched.flattenPages ps)
         (snd (AllDocs.processPages W cfg slugify ps h)).
Proof.
  intros V h. unfold AllDocs.processPages. rewrite bind_log. cbn [fst snd].
  rewrite <- flat_map_flattenPage in *.
  match goal with |- context [forEach _ _ ?h1] =>
    destruct (forEach_spec Q (AllDocs.processPage W cfg slugify)
                Batched.flattenPage ps
                (writtenOnly_compositional _ _ _)) with (h := h1)
      as [E2 Q2] end.
  { intros x Hx h'. apply AllDocs_processPage_spec.
    intros p Hp. apply V. apply in_flat_map. eauto. }
  split; [exact E2 | apply writtenOnly_cons_log; exact Q2].
Qed.
End AllDocsFacts.

(* ================================================================== *)
(** * Batches *)

Lemma chunksFuel_enough {A} (n : nat) (l : list A) :
  (1 <= n)%nat ->
  forall f f', (List.length l <= f)%nat -> (List.length l <= f')%nat ->
               chunksFuel f n l = chunksFuel f' n l.
Proof.
  intros Hn f. revert l.
  induction f as [|f IH]; intros l f' H1 H2.
  - destruct l; [|cbn in H1; lia]. destruct f'; reflexivity.
  - destruct l as [|x l]; [destruct f'; reflexivity|].
    destruct f' as [|f']; [cbn in H2; lia|].
    cbn [chunksFuel]. f_equal. apply IH.
    + rewrite length_skipn. cbn [List.length] in *. lia.
    + rewrite length_skipn. cbn [List.length] in *. lia.
Qed.

Lemma chunks_nil {A} (n : nat) : chunks n (@nil A) = [].
Proof. reflexivity. Qed.

Lemma chunks_cons {A} (n : nat) (l : list A) :
  (1 <= n)%nat -> l <> [] ->
  chunks n l = firstn n l :: chunks n (skipn n l).
Proof.
  intros Hn Hl. destruct l as [|x l]; [congruence|].
  unfold chunks at 1. cbn [List.length chunksFuel]. f_equal.
  apply chunksFuel_enough; [exact Hn| |lia].
  rewrite length_skipn. cbn [List.length]. lia.
Qed.

Lemma chunks_concat {A} (n : nat) (l : list A) :
  (1 <= n)%nat -> List.concat (chunks n l) = l.
Proof.
  intros Hn.
  remember (List.length l) as k eqn:Ek. revert l Ek.
  induction k as [k IH] using lt_wf_ind. intros l Ek.
  destruct l as [|x l]; [reflexivity|].
  rewrite chunks_cons by (try exact Hn; congruence).
  cbn [List.concat]. rewrite (IH (List.length (skipn n (x :: l)))); try reflexivity.
  - apply firstn_skipn.
  - rewrite length_skipn. subst k. cbn [List.length]. lia.
Qed.

Lemma chunks_sizes {A} (n : nat) (l : list A) :
  (1 <= n)%nat -> fullButLast n (chunks n l).
Proof.
  intros Hn.
  remember (List.length l) as k eqn:Ek. revert l Ek.
  induction k as [k IH] using lt_wf_ind. intros l Ek.
  destruct l as [|x l]; [exact I|].
  rewrite chunks_cons by (try exact Hn; congruence).
  assert (IH' := IH (List.length (skipn n (x :: l)))
                    ltac:(rewrite length_skipn; subst k; cbn [List.length]; lia)
                    _ eq_refl).
  destruct (skipn n (x :: l)) as [|y r] eqn:Es.
  - rewrite chunks_nil. cbn [fullButLast].
    rewrite length_firstn. cbn [List.length]. lia.
  - rewrite chunks_cons in * by (try exact Hn; congruence).
    cbn [fullButLast] in *. split; [|exact IH'].
    rewrite length_firstn.
    assert (L := length_skipn n (x :: l)). rewrite Es in L.
    cbn [List.length] in *. lia.
Qed.

Lemma deliveriesOf_app (a b : list Event) :
  deliveriesOf (a ++ b) = deliveriesOf a ++ deliveriesOf b.
Proof. apply observe_app. Qed.

Lemma deliveriesOf_log (m : jsstring) (t : list Event) :
  deliveriesOf (ConsoleLog m :: t) = deliveriesOf t.
Proof. reflexivity. Qed.

Lemma deliveriesOf_sleep (ms : Z) (t : list Event) :
  deliveriesOf (SetTimeout ms :: t) = inr ms :: deliveriesOf t.
Proof. reflexivity. Qed.

Lemma getsOf_app (a b : list Event) : getsOf (a ++ b) = getsOf a ++ getsOf b.
Proof. apply observe_app. Qed.

Lemma getsOf_log (m : jsstring) (t : list Event) :
  getsOf (ConsoleLog m :: t) = getsOf t.
Proof. reflexivity. Qed.

Lemma getsOf_sleep (ms : Z) (t : list Event) :
  getsOf (SetTimeout ms :: t) = getsOf t.
Proof. reflexivity. Qed.

Create Rewrite HintDb obs.
#[local] Hint Rewrite deliveriesOf_app deliveriesOf_log deliveriesOf_sleep
  getsOf_app getsOf_log getsOf_sleep : obs.

Section BatchedFacts.
Variable W : World.
Variable cfg : Config.
Variable slugify : jsstring -> SlugifyOptions -> jsstring.
Local Abbreviation batchedDocId := (batchedDocId slugify) (only parsing).
Local Abbreviation writeOf := (writeOf cfg slugify) (only parsing).
Local Abbreviation batchQ := (batchQ cfg slugify) (only parsing).
Local Abbreviation envelopeFor := (envelopeFor cfg slugify) (only parsing).
Local Abbreviation schedule := (schedule cfg slugify) (only parsing).

Lemma batchQ_compositional : Compositional batchQ.
Proof.
  split.
  - split; [apply written_nil; reflexivity | split; reflexivity].
  - intros c1 c2 t1 t2 (W1 & S1 & G1) (W2 & S2 & G2).
    split; [apply written_app; assumption|].
    unfold deliveriesOf, getsOf in *.
    rewrite !observe_app, map_app, S1, S2, G1, G2.
    split; reflexivity.
Qed.

Lemma Batched_prepare_valid (page : ClickUpPage) :
  validDates page = true ->
  exists env, Batched.prepare cfg slugify page = Ok env /\ envelopeFor page env.
Proof.
  intros V. unfold validDates in V. apply andb_true_iff in V as [V1 V2].
  unfold Batched.prepare.
  rewrite (toISOString_valid _ V1), (toISOString_valid _ V2).
  eexists. split; [reflexivity|]. split; reflexivity.
Qed.

Lemma Batched_prepare_invalid (page : ClickUpPage) :
  validDates page = false ->
  Batched.prepare cfg slugify page = Throw RangeError.
Proof.
  intros V. unfold validDates in V. apply andb_false_iff in V.
  unfold Batched.prepare.
  destruct (validTime (date_created page)) eqn:V1.
  - destruct V as [V|V]; [congruence|].
    rewrite (toISOString_valid _ V1), (toISOString_invalid _ V). reflexivity.
  - rewrite (toISOString_invalid _ V1). reflexivity.
Qed.

Lemma Batched_deliver_spec (page : ClickUpPage) (env : Envelope) (h : list Event) :
  envelopeFor page env ->
  fst (Batched.deliver W env h) = Ok tt
  /\ batchQ [page] (snd (Batched.deliver W env h)).
Proof.
  intros [Ed Eu]. unfold Batched.deliver.
  unfold tryCatch, bind, limitedDustApiPost, console_log, console_error, emit.
  set (out := dustDocuments W h (url env) (text env) (source_url env)).
  assert (Wr : writeError out =
               match settle defaultValidateStatus out with
               | Ok _ => None | Throw e => Some e end) by reflexivity.
  destruct (settle defaultValidateStatus out) as [r|e]; cbn [fst snd app].
  - split; [reflexivity|]. split; [exists [(page, out)]|].
    + cbn [map fst snd flat_map]. rewrite Wr, Eu. repeat split.
    + cbn. rewrite Eu. split; reflexivity.
  - split; [reflexivity|]. split; [exists [(page, out)]|].
    + cbn [map fst snd flat_map]. rewrite Wr, Eu, Ed. repeat split.
    + cbn. rewrite Eu. split; reflexivity.
Qed.

Lemma Batched_upsert_spec (page : ClickUpPage) (h : list Event) :
  validDates page = true ->
  fst (Batched.upsertToDustDatasource W cfg slugify page h) = Ok tt
  /\ batchQ [page] (snd (Batched.upsertToDustDatasource W cfg slugify page h)).
Proof.
  intros V. destruct (Batched_prepare_valid page V) as (env & E & F).
  unfold Batched.upsertToDustDatasource. rewrite E.
  rewrite (bind_ok (liftR _) _ _ _ [] eq_refl). cbn [app].
  apply Batched_deliver_spec. exact F.
Qed.

Lemma Batched_prepareAll_valid (batch : list ClickUpPage) :
  (forall p, In p batch -> validDates p = true) ->
  exists envs, Batched.prepareAll cfg slugify batch = Ok envs
               /\ Forall2 envelopeFor batch envs.
Proof.
  induction batch as [|p r IH]; intros V.
  - exists []. split; [reflexivity | constructor].
  - destruct (Batched_prepare_valid p (V p (or_introl eq_refl))) as (env & E & F).
    destruct (IH (fun q Hq => V q (or_intror Hq))) as (envs & Er & Fr).
    exists (env :: envs). cbn [Batched.prepareAll]. rewrite E, Er.
    split; [reflexivity | constructor; assumption].
Qed.

Lemma Batched_forEach_deliver (batch : list ClickUpPage) (envs : list Envelope) :
  Forall2 envelopeFor batch envs ->
  forall h, fst (forEach (Batched.deliver W) envs h) = Ok tt
            /\ batchQ batch (snd (forEach (Batched.deliver W) envs h)).
Proof.
  induction 1 as [|p env r envs F _ IH]; intros h; cbn [forEach].
  - split; [reflexivity | apply (comp_nil _ batchQ_compositional)].
  - destruct (Batched_deliver_spec p env h F) as [E1 Q1].
    destruct (Batched.deliver W env h) as [r1 t1] eqn:Ed.
    cbn [fst snd] in E1, Q1. subst r1.
    rewrite (bind_ok _ _ _ _ _ Ed). cbn [fst snd].
    destruct (IH (h ++ t1)) as [E2 Q2]. split; [exact E2|].
    apply (comp_app _ batchQ_compositional [p] r); assumption.
Qed.

Lemma Batched_upsertBatch_spec (batch : list ClickUpPage) (h : list Event) :
  (forall p, In p batch -> validDates p = true) ->
  fst (Batched.upsertBatch W cfg slugify batch h) = Ok tt
  /\ batchQ batch (snd (Batched.upsertBatch W cfg slugify batch h)).
Proof.
  intros V. destruct (Batched_prepareAll_valid batch V) as (envs & E & F).
  unfold Batched.upsertBatch. rewrite E.
  apply Batched_forEach_deliver. exact F.
Qed.

(** With valid dates, [Promise.all] over the batch amounts to running the
    calls one after the other. *)
Lemma Batched_upsertBatch_sequential (batch : list ClickUpPage) (h : list Event) :
  (forall p, In p batch -> validDates p = true) ->
  Batched.upsertBatch W cfg slugify batch h
  = forEach (Batched.upsertToDustDatasource W cfg slugify) batch h.
Proof.
  intros V. revert h. unfold Batched.upsertBatch.
  induction batch as [|p r IH]; intros h; [reflexivity|].
  destruct (Batched_prepare_valid p (V p (or_introl eq_refl))) as (env & E & F).
  destruct (Batched_prepareAll_valid r (fun q Hq => V q (or_intror Hq)))
    as (envs & Er & Fr).
  specialize (IH (fun q Hq => V q (or_intror Hq))).
  cbn [Batched.prepareAll forEach]. rewrite E, Er in *.
  unfold Batched.upsertToDustDatasource at 1. rewrite E.
  cbn [forEach]. unfold bind. cbn [liftR]. rewrite app_nil_r.
  destruct (Batched.deliver W env h) as [[[]|e] t1]; cbn [app]; [|reflexivity].
  rewrite IH. reflexivity.
Qed.

Lemma In_firstn_in {A} (n : nat) (l : list A) (x : A) :
  In x (firstn n l) -> In x l.
Proof.
  intros H. rewrite <- (firstn_skipn n l). apply in_or_app. left. exact H.
Qed.

Lemma In_skipn_in {A} (n : nat) (l : list A) (x : A) :
  In x (skipn n l) -> In x l.
Proof.
  intros H. rewrite <- (firstn_skipn n l). apply in_or_app. right. exact H.
Qed.

Lemma skipn_nonempty_length {A} (i : nat) (l : list A) :
  (i < List.length l)%nat -> skipn i l <> [].
Proof.
  intros H E. assert (L := length_skipn i l). rewrite E in L. cbn in L. lia.
Qed.

Lemma Batched_batchLoop_spec (allPages : list ClickUpPage) (batchSize : nat) :
  (1 <= batchSize)%nat ->
  (forall p, In p allPages -> validDates p = true) ->
  forall fuel i h,
    (List.length allPages - i <= fuel)%nat ->
    let run := Batched.batchLoop W cfg slugify fuel allPages batchSize i h in
    fst run = Ok tt
    /\ written cfg batchedDocId batchedErrLine (skipn i allPages) (snd run)
    /\ deliveriesOf (snd run)
       = intercalate [inr 1000]
           (map (map writeOf) (chunks batchSize (skipn i allPages)))
    /\ getsOf (snd run) = [].
Proof.
  intros Hb V fuel.
  assert (Done : forall i, (List.length allPages <= i)%nat ->
                           skipn i allPages = []).
  { intros i Hi. apply skipn_all2. exact Hi. }
  induction fuel as [|fuel IH]; intros i h Hf; cbn zeta.
  - rewrite Done by lia. cbn.
    split; [reflexivity|]. split; [apply written_nil; reflexivity|].
    split; reflexivity.
  - cbn [Batched.batchLoop].
    destruct (i <? List.length allPages)%nat eqn:Ei.
    2:{ apply Nat.ltb_ge in Ei. rewrite Done by lia. cbn.
        split; [reflexivity|]. split; [apply written_nil; reflexivity|].
        split; reflexivity. }
    apply Nat.ltb_lt in Ei.
    set (rest := skipn i allPages).
    assert (Hrest : rest <> []) by (apply skipn_nonempty_length; exact Ei).
    rewrite bind_log. cbn [fst snd].
    set (h1 := h ++ [ConsoleLog _]).
    destruct (Batched_upsertBatch_spec (firstn batchSize rest) h1)
      as [E1 (W1 & D1 & G1)].
    { intros p Hp. apply V.
      apply (In_skipn_in i allPages). apply (In_firstn_in batchSize rest).
      exact Hp. }
    destruct (Batched.upsertBatch W cfg slugify (firstn batchSize rest) h1)
      as [r1 t1] eqn:Eb.
    cbn [fst snd] in E1, W1, D1, G1. subst r1.
    rewrite (bind_ok _ _ _ _ _ Eb). cbn [fst snd].
    rewrite (chunks_cons batchSize rest Hb Hrest). cbn [map].
    assert (Erest : skipn (i + batchSize) allPages = skipn batchSize rest).
    { subst rest. rewrite skipn_skipn. f_equal. lia. }
    destruct (i + batchSize <? List.length allPages)%nat eqn:En.
    + apply Nat.ltb_lt in En.
      rewrite (bind_ok (sleep 1000) _ _ tt [SetTimeout 1000] eq_refl).
      cbn [fst snd].
      match goal with |- context [Batched.batchLoop _ _ _ _ _ _ _ ?h2] =>
        destruct (IH (i + batchSize)%nat h2 ltac:(lia)) as [E2 (W2 & D2 & G2)] end.
      rewrite Erest in *.
      assert (Hn : skipn batchSize rest <> []).
      { rewrite <- Erest. apply skipn_nonempty_length. exact En. }
      split; [exact E2|].
      split; [|split].
      * rewrite <- (firstn_skipn batchSize rest) at 1.
        apply (written_app _ _ _ [] _ [ConsoleLog _] _);
          [apply written_nil; reflexivity|].
        apply written_app; [exact W1|].
        apply (written_app _ _ _ [] _ [SetTimeout 1000] _);
          [apply written_nil; reflexivity | exact W2].
      * autorewrite with obs. rewrite D1, D2.
        rewrite (chunks_cons batchSize _ Hb Hn). reflexivity.
      * autorewrite with obs. rewrite G1, G2. reflexivity.
    + apply Nat.ltb_ge in En.
      rewrite (bind_ok (ret tt) _ _ tt [] eq_refl).
      cbn [fst snd app].
      match goal with |- context [Batched.batchLoop _ _ _ _ _ _ _ ?h2] =>
        destruct (IH (i + batchSize)%nat h2 ltac:(lia)) as [E2 (W2 & D2 & G2)] end.
      rewrite Erest in *.
      assert (Hn : skipn batchSize rest = []).
      { rewrite <- Erest. apply Done. exact En. }
      rewrite Hn in *. rewrite chunks_nil in *. cbn [map intercalate] in *.
      split; [exact E2|].
      split; [|split].
      * rewrite <- (firstn_skipn batchSize rest) at 1. rewrite Hn.
        apply (written_app _ _ _ [] _ [ConsoleLog _] _);
          [apply written_nil; reflexivity|].
        apply written_app; [exact W1 | exact W2].
      * autorewrite with obs. rewrite D1, D2, app_nil_r. reflexivity.
      * autorewrite with obs. rewrite G1, G2. reflexivity.
Qed.

Lemma schedule_valid (batches : list (list ClickUpPage)) :
  (forall p, In p (List.concat batches) -> validDates p = true) ->
  schedule batches = intercalate [inr 1000] (map (map writeOf) batches).
Proof.
  induction batches as [|b r IH]; intros V; [reflexivity|].
  cbn [schedule map intercalate].
  assert (Vb : forallb validDates b = true).
  { apply forallb_forall. intros p Hp. apply V. cbn [List.concat].
    apply in_or_app. left. exact Hp. }
  rewrite Vb, IH.
  - destruct r as [|c r']; [cbn; rewrite app_nil_r|]; reflexivity.
  - intros p Hp. apply V. cbn [List.concat]. apply in_or_app. right. exact Hp.
Qed.

Lemma Batched_prepareAll_invalid (batch : list ClickUpPage) :
  forallb validDates batch = false ->
  Batched.prepareAll cfg slugify batch = Throw RangeError.
Proof.
  induction batch as [|p r IH]; intros V; [discriminate|].
  cbn [forallb] in V. cbn [Batched.prepareAll].
  destruct (validDates p) eqn:Vp.
  - destruct (Batched_prepare_valid p Vp) as (env & E & _). rewrite E.
    rewrite IH by exact V. reflexivity.
  - rewrite (Batched_prepare_invalid p Vp). reflexivity.
Qed.

Lemma Batched_queued_valid (batch : list ClickUpPage) :
  Forall2 envelopeFor (filter validDates batch) (Batched.queued cfg slugify batch).
Proof.
  induction batch as [|p r IH]; [constructor|].
  cbn [filter Batched.queued]. destruct (validDates p) eqn:Vp.
  - destruct (Batched_prepare_valid p Vp) as (env & E & F). rewrite E.
    constructor; assumption.
  - rewrite (Batched_prepare_invalid p Vp). exact IH.
Qed.

(** A batch that holds a page with an invalid date: the pages with valid
    dates are written, in order, and the batch raises. *)
Lemma Batched_upsertBatch_invalid (batch : list ClickUpPage) (h : list Event) :
  forallb validDates batch = false ->
  fst (Batched.upsertBatch W cfg slugify batch h) = Throw RangeError
  /\ batchQ (filter validDates batch)
            (snd (Batched.upsertBatch W cfg slugify batch h)).
Proof.
  intros V. unfold Batched.upsertBatch.
  rewrite (Batched_prepareAll_invalid batch V).
  destruct (Batched_forEach_deliver _ _ (Batched_queued_valid batch) h) as [E Q].
  destruct (forEach (Batched.deliver W) (Batched.queued cfg slugify batch) h)
    as [r t] eqn:Ef.
  cbn [fst snd] in E, Q. subst r.
  rewrite (bind_ok _ _ _ _ _ Ef). cbn [fst snd throw]. rewrite app_nil_r.
  split; [reflexivity | exact Q].
Qed.

Lemma sentBatches_nil_iff (batches : list (list ClickUpPage)) :
  sentBatches batches = [] <-> batches = [].
Proof.
  destruct batches as [|b r]; [tauto|]. cbn [sentBatches].
  destruct (forallb validDates b); split; discriminate.
Qed.

Lemma schedule_sent (batches : list (list ClickUpPage)) :
  schedule batches
  = intercalate [inr 1000] (map (map writeOf) (sentBatches batches)).
Proof.
  induction batches as [|b r IH]; [reflexivity|].
  cbn [schedule sentBatches]. destruct (forallb validDates b).
  - rewrite IH. cbn [map]. destruct r as [|c r'].
    + cbn. rewrite app_nil_r. reflexivity.
    + destruct (sentBatches (c :: r')) as [|s1 sr] eqn:Es.
      * apply (proj1 (sentBatches_nil_iff _)) in Es. discriminate Es.
      * reflexivity.
  - reflexivity.
Qed.

Lemma sentBatches_split (pre : list (list ClickUpPage)) (b : list ClickUpPage)
      (rest : list (list ClickUpPage)) :
  forallb (forallb validDates) pre = true ->
  forallb validDates b = false ->
  sentBatches (pre ++ b :: rest) = pre ++ [filter validDates b].
Proof.
  intros Hpre Hb. induction pre as [|c pre IH]; cbn [app sentBatches].
  - rewrite Hb. reflexivity.
  - cbn [forallb] in Hpre. apply andb_true_iff in Hpre as [Hc Hpre].
    rewrite Hc, (IH Hpre). reflexivity.
Qed.

Lemma sentBatches_all (batches : list (list ClickUpPage)) :
  forallb validDates (List.concat batches) = true ->
  sentBatches batches = batches.
Proof.
  induction batches as [|b r IH]; intros V; [reflexivity|].
  cbn [List.concat] in V. rewrite forallb_app in V.
  apply andb_true_iff in V as [Vb Vr].
  cbn [sentBatches]. rewrite Vb, (IH Vr). reflexivity.
Qed.

Lemma sentBatches_valid (batches : list (list ClickUpPage)) :
  (forall p, In p (List.concat batches) -> validDates p = true) ->
  sentBatches batches = batches.
Proof.
  induction batches as [|b r IH]; intros V; [reflexivity|].
  cbn [sentBatches].
  assert (Vb : forallb validDates b = true).
  { apply forallb_forall. intros p Hp. apply V. cbn [List.concat].
    apply in_or_app. left. exact Hp. }
  rewrite Vb, IH; [reflexivity|].
  intros p Hp. apply V. cbn [List.concat]. apply in_or_app. right. exact Hp.
Qed.

Lemma Batched_batchLoop_schedule (allPages : list ClickUpPage) (batchSize : nat) :
  (1 <= batchSize)%nat ->
  forall fuel i h,
    (List.length allPages - i <= fuel)%nat ->
    deliveriesOf (snd (Batched.batchLoop W cfg slugify fuel allPages batchSize i h))
    = schedule (chunks batchSize (skipn i allPages)).
Proof.
  intros Hb fuel.
  assert (Done : forall i, (List.length allPages <= i)%nat ->
                           skipn i allPages = []).
  { intros i Hi. apply skipn_all2. exact Hi. }
  induction fuel as [|fuel IH]; intros i h Hf.
  - rewrite Done by lia. reflexivity.
  - cbn [Batched.batchLoop].
    destruct (i <? List.length allPages)%nat eqn:Ei.
    2:{ apply Nat.ltb_ge in Ei. rewrite Done by lia. reflexivity. }
    apply Nat.ltb_lt in Ei.
    set (rest := skipn i allPages).
    assert (Hrest : rest <> []) by (apply skipn_nonempty_length; exact Ei).
    rewrite bind_log. cbn [fst snd].
    set (h1 := h ++ [ConsoleLog _]).
    rewrite (chunks_cons batchSize rest Hb Hrest). cbn [schedule].
    assert (Erest : skipn (i + batchSize) allPages = skipn batchSize rest).
    { subst rest. rewrite skipn_skipn. f_equal. lia. }
    destruct (forallb validDates (firstn batchSize rest)) eqn:Vb.
    + destruct (Batched_upsertBatch_spec (firstn batchSize rest) h1)
        as [E1 (W1 & D1 & G1)].
      { apply forallb_forall. exact Vb. }
      destruct (Batched.upsertBatch W cfg slugify (firstn batchSize rest) h1)
        as [r1 t1] eqn:Eb.
      cbn [fst snd] in E1, D1. subst r1.
      rewrite (bind_ok _ _ _ _ _ Eb). cbn [fst snd].
      destruct (i + batchSize <? List.length allPages)%nat eqn:En.
      * apply Nat.ltb_lt in En.
        rewrite (bind_ok (sleep 1000) _ _ tt [SetTimeout 1000] eq_refl).
        cbn [fst snd].
        assert (Hn : skipn batchSize rest <> []).
        { rewrite <- Erest. apply skipn_nonempty_length. exact En. }
        autorewrite with obs. rewrite D1, IH by lia. rewrite Erest.
        rewrite (chunks_cons batchSize _ Hb Hn). reflexivity.
      * apply Nat.ltb_ge in En.
        rewrite (bind_ok (ret tt) _ _ tt [] eq_refl). cbn [fst snd app].
        assert (Hn : skipn batchSize rest = []).
        { rewrite <- Erest. apply Done. exact En. }
        autorewrite with obs. rewrite D1, IH by lia. rewrite Erest, Hn.
        reflexivity.
    + destruct (Batched_upsertBatch_invalid (firstn batchSize rest) h1 Vb)
        as [E1 (W1 & D1 & G1)].
      destruct (Batched.upsertBatch W cfg slugify (firstn batchSize rest) h1)
        as [r1 t1] eqn:Eb.
      cbn [fst snd] in E1, D1. subst r1.
      rewrite (bind_throw _ _ _ _ _ Eb). cbn [fst snd].
      autorewrite with obs. exact D1.
Qed.

Lemma Batched_processPages_spec (ps : list ClickUpPage) (h : list Event) :
  (forall p, In p (Batched.flattenPages ps) -> validDates p = true) ->
  let run := Batched.processPages W cfg slugify ps Batched.defaultBatchSize h in
  fst run = Ok tt
  /\ written cfg batchedDocId batchedErrLine (Batched.flattenPages ps) (snd run)
  /\ deliveriesOf (snd run)
     = intercalate [inr 1000]
         (map (map writeOf)
              (chunks Batched.defaultBatchSize (Batched.flattenPages ps)))
  /\ getsOf (snd run) = [].
Proof.
  intros V. cbn zeta. unfold Batched.processPages. rewrite bind_log.
  cbn [fst snd].
  match goal with |- context [Batched.batchLoop _ _ _ ?f ?a ?b ?i ?h1] =>
    destruct (Batched_batchLoop_spec a b ltac:(unfold Batched.defaultBatchSize; lia)
                V f i h1 ltac:(lia)) as [E (Wr & D & G)] end.
  cbn [skipn] in Wr, D.
  split; [exact E|]. split; [|split].
  - apply (written_app _ _ _ [] _ [ConsoleLog _] _);
      [apply written_nil; reflexivity | exact Wr].
  - autorewrite with obs. exact D.
  - autorewrite with obs. exact G.
Qed.

Lemma Batched_processPages_schedule (ps : list ClickUpPage) (h : list Event) :
  deliveriesOf
    (snd (Batched.processPages W cfg slugify ps Batched.defaultBatchSize h))
  = schedule (chunks Batched.defaultBatchSize (Batched.flattenPages ps)).
Proof.
  unfold Batched.processPages. rewrite bind_log. cbn [fst snd].
  autorewrite with obs.
  rewrite Batched_batchLoop_schedule by (unfold Batched.defaultBatchSize; lia).
  reflexivity.
Qed.
(** [processPages] returns exactly when every candidate has valid dates,
    and raises a RangeError otherwise. *)
Lemma Batched_batchLoop_result (allPages : list ClickUpPage) (batchSize : nat) :
  (1 <= batchSize)%nat ->
  forall fuel i h,
    (List.length allPages - i <= fuel)%nat ->
    fst (Batched.batchLoop W cfg slugify fuel allPages batchSize i h)
    = (if forallb validDates (skipn i allPages) then Ok tt else Throw RangeError).
Proof.
  intros Hb fuel.
  assert (Done : forall i, (List.length allPages <= i)%nat ->
                           skipn i allPages = []).
  { intros i Hi. apply skipn_all2. exact Hi. }
  induction fuel as [|fuel IH]; intros i h Hf.
  - rewrite Done by lia. reflexivity.
  - cbn [Batched.batchLoop].
    destruct (i <? List.length allPages)%nat eqn:Ei.
    2:{ apply Nat.ltb_ge in Ei. rewrite Done by lia. reflexivity. }
    apply Nat.ltb_lt in Ei.
    set (rest := skipn i allPages).
    rewrite bind_log. cbn [fst snd].
    set (h1 := h ++ [ConsoleLog _]).
    assert (Erest : skipn (i + batchSize) allPages = skipn batchSize rest).
    { subst rest. rewrite skipn_skipn. f_equal. lia. }
    rewrite <- (firstn_skipn batchSize rest) at 2. rewrite forallb_app.
    destruct (forallb validDates (firstn batchSize rest)) eqn:Vb; cbn [andb].
    + destruct (Batched_upsertBatch_spec (firstn batchSize rest) h1) as [E1 _].
      { apply forallb_forall. exact Vb. }
      destruct (Batched.upsertBatch W cfg slugify (firstn batchSize rest) h1)
        as [r1 t1] eqn:Eb.
      cbn [fst] in E1. subst r1.
      rewrite (bind_ok _ _ _ _ _ Eb). cbn [fst snd].
      rewrite <- Erest.
      destruct (i + batchSize <? List.length allPages)%nat.
      * rewrite (bind_ok (sleep 1000) _ _ tt [SetTimeout 1000] eq_refl).
        cbn [fst snd]. apply IH. lia.
      * rewrite (bind_ok (ret tt) _ _ tt [] eq_refl). cbn [fst snd].
        apply IH. lia.
    + destruct (Batched_upsertBatch_invalid (firstn batchSize rest) h1 Vb) as [E1 _].
      destruct (Batched.upsertBatch W cfg slugify (firstn batchSize rest) h1)
        as [r1 t1] eqn:Eb.
      cbn [fst] in E1. subst r1.
      rewrite (bind_throw _ _ _ _ _ Eb). reflexivity.
Qed.

Lemma Batched_processPages_result (ps : list ClickUpPage) (h : list Event) :
  let run := Batched.processPages W cfg slugify ps Batched.defaultBatchSize h in
  (forallb validDates (Batched.flattenPages ps) = true -> fst run = Ok tt)
  /\ (forallb validDates (Batched.flattenPages ps) = false ->
      fst run = Throw RangeError).
Proof.
  cbn zeta. unfold Batched.processPages. rewrite bind_log. cbn [fst snd].
  rewrite Batched_batchLoop_result by (unfold Batched.defaultBatchSize; lia).
  cbn [skipn]. split; intros ->; reflexivity.
Qed.
End BatchedFacts.

(* ================================================================== *)
(** * The retrying fetch *)

Lemma eachButLast_cons {A} (P : A -> Prop) (x : A) (r : list A) :
  P x -> eachButLast P r -> eachButLast P (x :: r).
Proof. intros Hx Hr. destruct r; [exact I | split; assumption]. Qed.

Lemma AllDocs_settle_throw {B} (out : Transport B) (e : JsError) :
  settle AllDocs.validateStatus out = Throw e ->
  retryable out
  /\ response_status_is e 404 = false
  /\ response_status_is e 429 = false.
Proof.
  unfold AllDocs.validateStatus.
  destruct out as [| |s b]; cbn [settle].
  - intros [= <-]. repeat split.
  - intros [= <-]. repeat split.
  - destruct (s <? 500) eqn:E; [discriminate|]. intros [= <-].
    apply Z.ltb_ge in E. cbn [retryable response_status_is].
    repeat split; [exact E | apply Z.eqb_neq; lia | apply Z.eqb_neq; lia].
Qed.

Ltac differ n :=
  let H := fresh in
  intros H; apply (f_equal (firstn n)) in H; vm_compute in H; discriminate H.

Section AllDocsFetch.
Variable W : World.
Variable cfg : Config.
Local Abbreviation roundEvents := (roundEvents cfg) (only parsing).
Local Abbreviation roundAnswer := (roundAnswer W cfg) (only parsing).

Lemma AllDocs_get_pages_run (docId : jsstring) (depth : Z) (h : list Event) :
  AllDocs.clickupApi_get_pages W cfg docId depth h =
  let out := clickupPages W h (AllDocs.pagesUrl cfg docId) depth in
  match settle AllDocs.validateStatus out with
  | Ok (s, body) =>
    (Ok (s, body),
     [GetPages (AllDocs.pagesUrl cfg docId) depth out;
      ConsoleLog (lit "[ClickUp API Interceptor]: Endpoint: "
                  ++ AllDocs.pagesUrl cfg docId ++ lit ", Status: " ++ showZ s)])
  | Throw e =>
    (Throw e,
     [GetPages (AllDocs.pagesUrl cfg docId) depth out;
      ConsoleError (lit "[ClickUp API Interceptor]: Error:") (ErrorObject e)])
  end.
Proof.
  unfold AllDocs.clickupApi_get_pages. unfold bind at 1. cbn beta zeta iota.
  set (out := clickupPages W h (AllDocs.pagesUrl cfg docId) depth).
  destruct (settle AllDocs.validateStatus out) as [[s body]|e] eqn:Es.
  - reflexivity.
  - destruct (AllDocs_settle_throw out e Es) as (_ & _ & E429).
    cbn [AllDocs.intercept]. rewrite E429. reflexivity.
Qed.

Lemma AllDocs_attemptOnce_run (docId : jsstring) (attempt : Z) (h : list Event) :
  AllDocs.attemptOnce W cfg docId attempt h =
  (Ok (roundResult (roundAnswer docId attempt h)),
   roundEvents docId attempt (roundAnswer docId attempt h)).
Proof.
  unfold AllDocs.attemptOnce. rewrite bind_log. cbn [fst snd].
  set (h1 := h ++ [ConsoleLog (AllDocs.attemptTag attempt)]).
  unfold roundResult, roundEvents.
  assert (Eh : roundAnswer docId attempt h
               = clickupPages W (h1 ++ [ConsoleLog
                   (lit "[getClickUpPagesWithRetry] Making API request to ClickUp")])
                   (AllDocs.pagesUrl cfg docId) 1).
  { unfold roundAnswer, h1. rewrite <- app_assoc. reflexivity. }
  set (out := roundAnswer docId attempt h) in *.
  match goal with |- context [tryCatch ?m ?hd h1] =>
    assert (Em : m h1 =
      match settle AllDocs.validateStatus out with
      | Ok (s, body) =>
        (Ok (inl (if truthy_data body then body else DataPages [])),
         [ConsoleLog (lit "[getClickUpPagesWithRetry] Making API request to ClickUp");
          GetPages (AllDocs.pagesUrl cfg docId) 1 out;
          ConsoleLog (lit "[ClickUp API Interceptor]: Endpoint: "
                      ++ AllDocs.pagesUrl cfg docId ++ lit ", Status: " ++ showZ s);
          if truthy_data body
          then ConsoleLog (lit "[getClickUpPagesWithRetry] Retrieved "
                           ++ showLength (match data_length body with
                                          | Ok n => n | Throw _ => None end)
                           ++ lit " pages from ClickUp")
          else ConsoleLog (lit "[getClickUpPagesWithRetry] No data returned for doc "
                           ++ docId ++ lit ", skipping...")])
      | Throw e =>
        (Throw e,
         [ConsoleLog (lit "[getClickUpPagesWithRetry] Making API request to ClickUp");
          GetPages (AllDocs.pagesUrl cfg docId) 1 out;
          ConsoleError (lit "[ClickUp API Interceptor]: Error:") (ErrorObject e)])
      end) end.
  { rewrite bind_log. cbn [fst snd].
    pose proof (AllDocs_get_pages_run docId 1
                  (h1 ++ [ConsoleLog
                    (lit "[getClickUpPagesWithRetry] Making API request to ClickUp")]))
      as Eg.
    cbn zeta in Eg. rewrite <- Eh in Eg.
    destruct (settle AllDocs.validateStatus out) as [[s body]|e].
    - rewrite (bind_ok _ _ _ _ _ Eg). cbn [fst snd].
      destruct body; reflexivity.
    - rewrite (bind_throw _ _ _ _ _ Eg). reflexivity. }
  destruct (settle AllDocs.validateStatus out) as [[s body]|e] eqn:Es.
  - rewrite (tryCatch_ok _ _ _ _ _ Em). reflexivity.
  - destruct (AllDocs_settle_throw out e Es) as (_ & E404 & _).
    rewrite (tryCatch_throw _ _ _ _ _ Em). rewrite E404. cbn [fst snd].
    unfold bind, console_error, console_log, emit, ret, sleep.
    destruct (attempt <? AllDocs.maxRetries); reflexivity.
Qed.

Lemma roundEvents_gets docId attempt out :
  getsOf (roundEvents docId attempt out) = [(AllDocs.pagesUrl cfg docId, out)].
Proof.
  unfold roundEvents.
  destruct (settle AllDocs.validateStatus out) as [[s body]|e].
  - destruct (truthy_data body); reflexivity.
  - destruct (attempt <? AllDocs.maxRetries); reflexivity.
Qed.

Lemma roundEvents_sleeps docId attempt out :
  sleepsOf (roundEvents docId attempt out) =
  match roundResult out with
  | inl _ => []
  | inr _ => if attempt <? AllDocs.maxRetries then [AllDocs.backoff attempt] else []
  end.
Proof.
  unfold roundEvents, roundResult.
  destruct (settle AllDocs.validateStatus out) as [[s body]|e].
  - destruct (truthy_data body); reflexivity.
  - destruct (attempt <? AllDocs.maxRetries); reflexivity.
Qed.

Lemma roundEvents_logs docId attempt out :
  ~ In (notFoundLine docId) (logsOf (roundEvents docId attempt out)).
Proof.
  unfold roundEvents, notFoundLine.
  destruct (settle AllDocs.validateStatus out) as [[s body]|e].
  - destruct (truthy_data body); cbn; intros [H|[H|[H|[H|[]]]]]; revert H;
      first [differ 28%nat | differ 2%nat].
  - destruct (attempt <? AllDocs.maxRetries); cbn.
    + intros [H|[H|[H|[]]]]; revert H; differ 28%nat.
    + intros [H|[H|[]]]; revert H; differ 28%nat.
Qed.

Lemma AllDocs_retryLoop_step k docId attempt lastError h :
  AllDocs.retryLoop W cfg (S k) docId attempt lastError h =
  let out := roundAnswer docId attempt h in
  match roundResult out with
  | inl data => (Ok data, roundEvents docId attempt out)
  | inr e =>
    let rest := AllDocs.retryLoop W cfg k docId (attempt + 1) (Some e)
                  (h ++ roundEvents docId attempt out) in
    (fst rest, roundEvents docId attempt out ++ snd rest)
  end.
Proof.
  cbn [AllDocs.retryLoop].
  rewrite (bind_ok _ _ _ _ _ (AllDocs_attemptOnce_run docId attempt h)).
  cbn zeta. destruct (roundResult _); [|reflexivity].
  cbn [ret fst snd]. rewrite app_nil_r. reflexivity.
Qed.

Lemma AllDocs_retryLoop_done docId attempt lastError h :
  AllDocs.retryLoop W cfg 0 docId attempt lastError h =
  (match lastError with Some e => Throw e | None => Throw Undefined end,
   [ConsoleError (lit "[getClickUpPagesWithRetry] All retries failed:")
                 (AllDocs.detailOf lastError)]).
Proof. destruct lastError; reflexivity. Qed.

Lemma logsOf_app (a b : list Event) : logsOf (a ++ b) = logsOf a ++ logsOf b.
Proof. apply observe_app. Qed.

Lemma sleepsOf_app (a b : list Event) : sleepsOf (a ++ b) = sleepsOf a ++ sleepsOf b.
Proof. apply observe_app. Qed.

Lemma roundResult_inr out e :
  roundResult out = inr e ->
  settle AllDocs.validateStatus out = Throw e /\ retryable out.
Proof.
  unfold roundResult.
  destruct (settle AllDocs.validateStatus out) as [[s body]|e'] eqn:Es;
    [discriminate|].
  intros [= <-]. split; [reflexivity|].
  apply (AllDocs_settle_throw out e' Es).
Qed.

Lemma retryable_roundResult out :
  retryable out ->
  exists e, settle AllDocs.validateStatus out = Throw e /\ roundResult out = inr e.
Proof.
  unfold roundResult, AllDocs.validateStatus.
  destruct out as [| |s b]; cbn [retryable settle]; intros H.
  - eexists; split; reflexivity.
  - eexists; split; reflexivity.
  - apply Z.ltb_ge in H. rewrite H. eexists; split; reflexivity.
Qed.

(** Whatever the service answers: a request is followed by another one
    only after a connection error, a timeout or a status from 500 on, and
    the branch for status 404 is never taken. *)
Lemma AllDocs_retryLoop_invariants docId k :
  forall attempt lastError h,
    let run := AllDocs.retryLoop W cfg k docId attempt lastError h in
    eachButLast (fun g => retryable (snd g)) (getsOf (snd run))
    /\ ~ In (notFoundLine docId) (logsOf (snd run))
    /\ (List.length (getsOf (snd run)) <= k)%nat.
Proof.
  induction k as [|k IH]; intros attempt lastError h; cbn zeta.
  - rewrite AllDocs_retryLoop_done. cbn. repeat split; [tauto | lia].
  - rewrite AllDocs_retryLoop_step. cbn zeta.
    set (out := roundAnswer docId attempt h).
    destruct (roundResult out) as [data|e] eqn:Er; cbn [fst snd].
    + rewrite roundEvents_gets. cbn.
      repeat split; [apply roundEvents_logs | lia].
    + destruct (roundResult_inr out e Er) as [_ Hr].
      specialize (IH (attempt + 1) (Some e) (h ++ roundEvents docId attempt out)).
      cbn zeta in IH. destruct IH as (I1 & I2 & I3).
      rewrite getsOf_app, logsOf_app, roundEvents_gets. cbn [app List.length].
      split; [|split].
      * apply eachButLast_cons; [exact Hr | exact I1].
      * intros Hin. apply in_app_or in Hin as [Hin|Hin];
          [exact (roundEvents_logs _ _ _ Hin) | exact (I2 Hin)].
      * lia.
Qed.

Lemma AllDocs_fetch_run docId h :
  AllDocs.getClickUpPagesWithRetry W cfg docId h =
  (fst (AllDocs.retryLoop W cfg 3 docId 1 None (h ++ [ConsoleLog (startLine docId)])),
   ConsoleLog (startLine docId)
   :: snd (AllDocs.retryLoop W cfg 3 docId 1 None (h ++ [ConsoleLog (startLine docId)]))).
Proof. unfold AllDocs.getClickUpPagesWithRetry. rewrite bind_log. reflexivity. Qed.

(** Three failed rounds in a row. *)
Lemma AllDocs_fetch_all_fail docId h :
  (forall h', retryable (clickupPages W h' (AllDocs.pagesUrl cfg docId) 1)) ->
  let run := AllDocs.getClickUpPagesWithRetry W cfg docId h in
  exists o1 o2 o3 e,
    getsOf (snd run) = [(AllDocs.pagesUrl cfg docId, o1);
                        (AllDocs.pagesUrl cfg docId, o2);
                        (AllDocs.pagesUrl cfg docId, o3)]
    /\ settle AllDocs.validateStatus o3 = Throw e
    /\ fst run = Throw e
    /\ sleepsOf (snd run) = [AllDocs.backoff 1; AllDocs.backoff 2].
Proof.
  intros Hall. cbn zeta. rewrite AllDocs_fetch_run. cbn [fst snd].
  set (h0 := h ++ [ConsoleLog (startLine docId)]).
  rewrite AllDocs_retryLoop_step. cbn zeta.
  set (o1 := roundAnswer docId 1 h0).
  destruct (retryable_roundResult o1 (Hall _)) as (e1 & S1 & R1). rewrite R1.
  rewrite AllDocs_retryLoop_step. cbn zeta.
  set (h1 := h0 ++ roundEvents docId 1 o1).
  set (o2 := roundAnswer docId (1 + 1) h1).
  destruct (retryable_roundResult o2 (Hall _)) as (e2 & S2 & R2). rewrite R2.
  rewrite AllDocs_retryLoop_step. cbn zeta.
  set (h2 := h1 ++ roundEvents docId (1 + 1) o2).
  set (o3 := roundAnswer docId (1 + 1 + 1) h2).
  destruct (retryable_roundResult o3 (Hall _)) as (e3 & S3 & R3). rewrite R3.
  rewrite AllDocs_retryLoop_done. cbn [fst snd].
  exists o1, o2, o3, e3.
  split; [|split; [exact S3 | split; [reflexivity|]]].
  - change (ConsoleLog (startLine docId) :: ?t)
      with ([ConsoleLog (startLine docId)] ++ t).
    rewrite !getsOf_app, !roundEvents_gets. reflexivity.
  - change (ConsoleLog (startLine docId) :: ?t)
      with ([ConsoleLog (startLine docId)] ++ t).
    rewrite !sleepsOf_app, !roundEvents_sleeps, R1, R2, R3. reflexivity.
Qed.
End AllDocsFetch.

Lemma transient_default_rejected {B} (out : Transport B) :
  transient out -> exists e, settle defaultValidateStatus out = Throw e.
Proof.
  unfold defaultValidateStatus.
  destruct out as [| |s b]; cbn [transient settle]; intros H.
  - eexists; reflexivity.
  - eexists; reflexivity.
  - assert (E : (200 <=? s) && (s <? 300) = false).
    { apply andb_false_iff. right. apply Z.ltb_ge. lia. }
    rewrite E. eexists; reflexivity.
Qed.

Section SingleDocFetch.
Variable W : World.
Variable cfg : Config.
Local Abbreviation singleRoundAnswer := (singleRoundAnswer W cfg) (only parsing).

Lemma SingleDoc_attemptOnce_fail docId attempt h e :
  settle defaultValidateStatus (singleRoundAnswer docId attempt h) = Throw e ->
  exists evs,
    SingleDoc.attemptOnce W cfg docId attempt h = (Ok (inr e), evs)
    /\ getsOf evs = [(SingleDoc.pagesUrl cfg docId, singleRoundAnswer docId attempt h)]
    /\ sleepsOf evs = if attempt <? SingleDoc.maxRetries
                      then [SingleDoc.backoff attempt] else [].
Proof.
  intros Es. unfold SingleDoc.attemptOnce. rewrite bind_log. cbn [fst snd].
  set (h1 := h ++ [ConsoleLog (SingleDoc.attemptTag attempt)]).
  set (out := singleRoundAnswer docId attempt h) in *.
  assert (Eh : out = clickupPages W (h1 ++ [ConsoleLog
                   (lit "[getClickUpPagesWithRetry] Making API request to ClickUp")])
                   (SingleDoc.pagesUrl cfg docId) 1).
  { unfold out, singleRoundAnswer, h1. rewrite <- app_assoc. reflexivity. }
  match goal with |- context [tryCatch ?m ?hd h1] =>
    assert (Em : exists evs, m h1 = (Throw e, evs)
                             /\ getsOf evs = [(SingleDoc.pagesUrl cfg docId, out)]
                             /\ sleepsOf evs = []) end.
  { rewrite bind_log. cbn [fst snd].
    unfold SingleDoc.clickupApi_get_pages. unfold bind. cbn beta zeta iota.
    rewrite <- Eh. rewrite Es. cbn [SingleDoc.intercept].
    unfold console_error, emit, throw, ret. cbn [app fst snd].
    destruct (response_status_is e 429); cbn [app fst snd];
      eexists; (split; [reflexivity | split; reflexivity]). }
  destruct Em as (evs & Em & G & S).
  rewrite (tryCatch_throw _ _ _ _ _ Em). cbn [fst snd].
  unfold bind, console_error, console_log, emit, ret, sleep.
  destruct (attempt <? SingleDoc.maxRetries); cbn [fst snd app];
    eexists; (split; [reflexivity|]);
    change (ConsoleLog (SingleDoc.attemptTag attempt) :: ?t)
      with ([ConsoleLog (SingleDoc.attemptTag attempt)] ++ t);
    rewrite !getsOf_app, !sleepsOf_app, G, S;
    split; reflexivity.
Qed.

(** Three rejected rounds in a row, whatever the reason of the rejections. *)
Lemma SingleDoc_fetch_all_rejected docId h :
  (forall h', exists e, settle defaultValidateStatus
                          (clickupPages W h' (SingleDoc.pagesUrl cfg docId) 1)
                        = Throw e) ->
  let run := SingleDoc.getClickUpPagesWithRetry W cfg docId h in
  exists o1 o2 o3 e,
    getsOf (snd run) = [(SingleDoc.pagesUrl cfg docId, o1);
                        (SingleDoc.pagesUrl cfg docId, o2);
                        (SingleDoc.pagesUrl cfg docId, o3)]
    /\ settle defaultValidateStatus o3 = Throw e
    /\ fst run = Throw e
    /\ sleepsOf (snd run) = [SingleDoc.backoff 1; SingleDoc.backoff 2].
Proof.
  intros Hall. cbn zeta. unfold SingleDoc.getClickUpPagesWithRetry.
  rewrite bind_log. cbn [fst snd].
  set (h0 := h ++ [ConsoleLog _]).
  change (Z.to_nat SingleDoc.maxRetries) with 3%nat.
  cbn [SingleDoc.retryLoop].
  set (o1 := singleRoundAnswer docId 1 h0).
  destruct (Hall (h0 ++ [ConsoleLog (SingleDoc.attemptTag 1); ConsoleLog
    (lit "[getClickUpPagesWithRetry] Making API request to ClickUp")])) as (e1 & S1).
  fold (singleRoundAnswer docId 1 h0) in S1. fold o1 in S1.
  destruct (SingleDoc_attemptOnce_fail docId 1 h0 e1 S1) as (ev1 & R1 & G1 & P1).
  rewrite (bind_ok _ _ _ _ _ R1). cbn [fst snd].
  set (h1 := h0 ++ ev1).
  set (o2 := singleRoundAnswer docId (1 + 1) h1).
  destruct (Hall (h1 ++ [ConsoleLog (SingleDoc.attemptTag (1 + 1)); ConsoleLog
    (lit "[getClickUpPagesWithRetry] Making API request to ClickUp")])) as (e2 & S2).
  fold (singleRoundAnswer docId (1 + 1) h1) in S2. fold o2 in S2.
  destruct (SingleDoc_attemptOnce_fail docId (1 + 1) h1 e2 S2) as (ev2 & R2 & G2 & P2).
  rewrite (bind_ok _ _ _ _ _ R2). cbn [fst snd].
  set (h2 := h1 ++ ev2).
  set (o3 := singleRoundAnswer docId (1 + 1 + 1) h2).
  destruct (Hall (h2 ++ [ConsoleLog (SingleDoc.attemptTag (1 + 1 + 1)); ConsoleLog
    (lit "[getClickUpPagesWithRetry] Making API request to ClickUp")])) as (e3 & S3).
  fold (singleRoundAnswer docId (1 + 1 + 1) h2) in S3. fold o3 in S3.
  destruct (SingleDoc_attemptOnce_fail docId (1 + 1 + 1) h2 e3 S3)
    as (ev3 & R3 & G3 & P3).
  rewrite (bind_ok _ _ _ _ _ R3). cbn [fst snd].
  exists o1, o2, o3, e3.
  split; [|split; [exact S3 | split; [reflexivity|]]].
  - change (ConsoleLog ?m :: ?t) with ([ConsoleLog m] ++ t) at 1.
    rewrite !getsOf_app, G1, G2, G3. reflexivity.
  - change (ConsoleLog ?m :: ?t) with ([ConsoleLog m] ++ t) at 1.
    rewrite !sleepsOf_app, P1, P2, P3. reflexivity.
Qed.

Lemma SingleDoc_fetch_all_fail docId h :
  (forall h', transient (clickupPages W h' (SingleDoc.pagesUrl cfg docId) 1)) ->
  let run := SingleDoc.getClickUpPagesWithRetry W cfg docId h in
  exists o1 o2 o3 e,
    getsOf (snd run) = [(SingleDoc.pagesUrl cfg docId, o1);
                        (SingleDoc.pagesUrl cfg docId, o2);
                        (SingleDoc.pagesUrl cfg docId, o3)]
    /\ settle defaultValidateStatus o3 = Throw e
    /\ fst run = Throw e
    /\ sleepsOf (snd run) = [SingleDoc.backoff 1; SingleDoc.backoff 2].
Proof.
  intros Hall. apply SingleDoc_fetch_all_rejected.
  intros h'. apply transient_default_rejected. apply Hall.
Qed.
End SingleDocFetch.

(** The script with the default client has no case for status 404: the
    request is repeated like any other rejected one, and the error is
    raised. *)
Example SingleDoc_not_found_is_retried :
  let run := SingleDoc.getClickUpPagesWithRetry worldNotFound sampleConfig
               (lit "doc1") [] in
  fst run = Throw (BadStatus 404)
  /\ List.length (getsOf (snd run)) = 3%nat
  /\ sleepsOf (snd run) = [2000; 4000].
Proof. cbn zeta. repeat split; vm_compute; reflexivity. Qed.

(** In the main script a 404 without a body does yield the empty list. *)
Example AllDocs_not_found_without_body :
  fst (AllDocs.getClickUpPagesWithRetry
         {| clickupPages := fun _ _ _ => Response 404 DataEmptyString;
            clickupDocs := fun _ _ => Response 200 (DocsList sampleDocs);
            dustDocuments := fun _ _ _ _ => Response 200 tt |}
         sampleConfig (lit "doc1") [])
  = Ok (DataPages []).
Proof. vm_compute. reflexivity. Qed.

(* ================================================================== *)
(** * The loop over the docs *)

Lemma sendsNoGet_bind {A B} (m : M A) (k : A -> M B) :
  sendsNoGet m -> (forall a, sendsNoGet (k a)) -> sendsNoGet (bind m k).
Proof.
  intros Hm Hk h. unfold bind. specialize (Hm h).
  destruct (m h) as [[a|e] t1]; cbn [snd] in *; [|exact Hm].
  specialize (Hk a (h ++ t1)). destruct (k a (h ++ t1)) as [r t2].
  cbn [snd] in *. rewrite getsOf_app, Hm, Hk. reflexivity.
Qed.

Lemma sendsNoGet_tryCatch {A} (m : M A) (handler : JsError -> M A) :
  sendsNoGet m -> (forall e, sendsNoGet (handler e)) -> sendsNoGet (tryCatch m handler).
Proof.
  intros Hm Hk h. unfold tryCatch. specialize (Hm h).
  destruct (m h) as [[a|e] t1]; cbn [snd] in *; [exact Hm|].
  specialize (Hk e (h ++ t1)). destruct (handler e (h ++ t1)) as [r t2].
  cbn [snd] in *. rewrite getsOf_app, Hm, Hk. reflexivity.
Qed.

Lemma sendsNoGet_ret {A} (a : A) : sendsNoGet (ret a).
Proof. intros h. reflexivity. Qed.

Lemma sendsNoGet_throw {A} (e : JsError) : sendsNoGet (@throw A e).
Proof. intros h. reflexivity. Qed.

Lemma sendsNoGet_liftR {A} (r : Result A) : sendsNoGet (liftR r).
Proof. intros h. reflexivity. Qed.

Lemma sendsNoGet_log (m : jsstring) : sendsNoGet (console_log m).
Proof. intros h. reflexivity. Qed.

Lemma sendsNoGet_error (m : jsstring) (d : Detail) : sendsNoGet (console_error m d).
Proof. intros h. reflexivity. Qed.

Lemma sendsNoGet_post W u t s : sendsNoGet (limitedDustApiPost W u t s).
Proof. intros h. reflexivity. Qed.

Lemma sendsNoGet_forCount {A} (body : A -> nat -> M nat) (l : list A) :
  (forall x, In x l -> forall c, sendsNoGet (body x c)) ->
  forall c, sendsNoGet (Counting.forCount body l c).
Proof.
  induction l as [|x r IH]; intros Hb c; cbn [Counting.forCount].
  - apply sendsNoGet_ret.
  - apply sendsNoGet_bind; [apply Hb; left; reflexivity|].
    intros c'. apply IH. intros y Hy. apply Hb. right. exact Hy.
Qed.

Section CountingLoop.
Variable W : World.
Variable cfg : Config.
Variable slugify : jsstring -> SlugifyOptions -> jsstring.

Lemma Counting_upsert_sendsNoGet page :
  sendsNoGet (Counting.upsertToDustDatasource W cfg slugify page).
Proof.
  unfold Counting.upsertToDustDatasource.
  apply sendsNoGet_bind; [apply sendsNoGet_liftR|]. intros c.
  apply sendsNoGet_bind; [apply sendsNoGet_liftR|]. intros u.
  apply sendsNoGet_tryCatch.
  - apply sendsNoGet_bind; [apply sendsNoGet_post|]. intros _.
    apply sendsNoGet_log.
  - intros e. apply sendsNoGet_error.
Qed.

Lemma Counting_processPage_sendsNoGet page :
  forall depth c, sendsNoGet (Counting.processPage W cfg slugify depth page c).
Proof.
  induction page as [w d i a n co pid ps dc du IH] using page_forest_ind.
  intros depth c. rewrite Counting_processPage_unfold.
  apply sendsNoGet_bind.
  - destruct (hasContent _); [destruct (negb _)|].
    + apply sendsNoGet_bind; [apply sendsNoGet_log|]. intros _.
      apply sendsNoGet_bind; [apply Counting_upsert_sendsNoGet|]. intros _.
      apply sendsNoGet_ret.
    + apply sendsNoGet_bind; [apply sendsNoGet_log|]. intros _.
      apply sendsNoGet_ret.
    + apply sendsNoGet_ret.
  - intros c'. destruct (hasChildren _); [|apply sendsNoGet_ret].
    apply sendsNoGet_bind; [|intros n'; apply sendsNoGet_ret].
    unfold Counting.processPages. cbn [pages].
    apply sendsNoGet_forCount. intros x Hx c''.
    rewrite Forall_forall in IH. apply IH. exact Hx.
Qed.

Lemma Counting_processPagesData_sendsNoGet d :
  sendsNoGet (Counting.processPagesData W cfg slugify d).
Proof.
  unfold Counting.processPagesData.
  apply sendsNoGet_bind; [apply sendsNoGet_liftR|]. intros ps.
  unfold Counting.processPages. apply sendsNoGet_forCount.
  intros x _ c. apply Counting_processPage_sendsNoGet.
Qed.

Lemma Counting_limitedClickupGet_run docId depth h :
  Counting.limitedClickupGet W cfg docId depth h =
  let out := clickupPages W h (Counting.pagesUrl cfg docId) depth in
  match settle defaultValidateStatus out with
  | Ok (s, body) =>
    (Ok (s, body),
     [GetPages (Counting.pagesUrl cfg docId) depth out;
      ConsoleLog (lit "Endpoint: " ++ Counting.pagesUrl cfg docId
                  ++ lit ", Status: " ++ showZ s)])
  | Throw e =>
    (Throw e,
     GetPages (Counting.pagesUrl cfg docId) depth out
     :: (if response_status_is e 429
         then [ConsoleError (lit "Endpoint: " ++ Counting.pagesUrl cfg docId
                 ++ lit ", Rate limit exceeded. Please wait before making more requests.")
                 NoDetail]
         else []))
  end.
Proof.
  unfold Counting.limitedClickupGet. unfold bind at 1. cbn beta zeta iota.
  set (out := clickupPages W h (Counting.pagesUrl cfg docId) depth).
  destruct (settle defaultValidateStatus out) as [[s body]|e].
  - reflexivity.
  - cbn [Counting.intercept]. destruct (response_status_is e 429); reflexivity.
Qed.

(** One request per call, whatever the answer. *)
Lemma Counting_getClickUpPages_gets docId h :
  exists out,
    getsOf (snd (Counting.getClickUpPages W cfg docId h))
    = [(Counting.pagesUrl cfg docId, out)].
Proof.
  unfold Counting.getClickUpPages.
  pose proof (Counting_limitedClickupGet_run docId (-1) h) as Eg. cbn zeta in Eg.
  set (out := clickupPages W h (Counting.pagesUrl cfg docId) (-1)) in *.
  exists out.
  destruct (settle defaultValidateStatus out) as [[s body]|e].
  - match goal with |- context [tryCatch ?m _ h] =>
      assert (Em : exists r t, m h = (r, t)
                               /\ getsOf t = [(Counting.pagesUrl cfg docId, out)]) end.
    { rewrite (bind_ok _ _ _ _ _ Eg). cbn [fst snd].
      destruct (data_length body) as [len|e'] eqn:El.
      - rewrite (bind_ok (liftR _) _ _ len [] eq_refl). rewrite bind_log.
        cbn. eexists _, _. split; reflexivity.
      - rewrite (bind_throw (liftR _) _ _ e' [] eq_refl).
        cbn. eexists _, _. split; reflexivity. }
    destruct Em as (r & t & Em & G). unfold tryCatch. rewrite Em.
    destruct r as [a|e']; cbn [snd]; [exact G|].
    cbn. rewrite getsOf_app, G. reflexivity.
  - match goal with |- context [tryCatch ?m _ h] =>
      assert (Em : exists t, m h = (Throw e, t)
                             /\ getsOf t = [(Counting.pagesUrl cfg docId, out)]) end.
    { rewrite (bind_throw _ _ _ _ _ Eg).
      eexists. split; [reflexivity|].
      destruct (response_status_is e 429); reflexivity. }
    destruct Em as (t & Em & G). rewrite (tryCatch_throw _ _ _ _ _ Em).
    cbn. rewrite getsOf_app, G. reflexivity.
Qed.

(** Every doc of the list is fetched, and the loop ends without an
    exception, whatever happened with the docs before. *)
Lemma Counting_docLoop_visits_all (docIds : list jsstring) :
  forall total h,
    let run := Counting.docLoop W cfg slugify docIds total h in
    (exists n, fst run = Ok n)
    /\ map fst (getsOf (snd run)) = map (Counting.pagesUrl cfg) docIds.
Proof.
  unfold Counting.docLoop.
  induction docIds as [|docId r IH]; intros total h; cbn zeta.
  - split; [eexists|]; reflexivity.
  - cbn [Counting.forCount map].
    match goal with |- context [bind (tryCatch ?m ?hd) _ h] =>
      set (body := m); set (handler := hd) end.
    assert (Hb : exists n t, tryCatch body handler h = (Ok n, t)
                             /\ map fst (getsOf t) = [Counting.pagesUrl cfg docId]).
    { assert (G : exists out, getsOf (snd (body h))
                              = [(Counting.pagesUrl cfg docId, out)]).
      { unfold body. rewrite bind_log. cbn [snd]. rewrite getsOf_log.
        set (h1 := h ++ [ConsoleLog _]).
        destruct (Counting_getClickUpPages_gets docId h1) as [out G].
        destruct (Counting.getClickUpPages W cfg docId h1) as [[d|e] t1] eqn:Eg;
          cbn [snd] in G.
        - rewrite (bind_ok _ _ _ _ _ Eg). cbn [snd]. rewrite getsOf_app, G.
          exists out.
          match goal with |- context [bind (Counting.processPagesData W cfg slugify d) ?k ?h2] =>
            assert (N := sendsNoGet_bind _ k
                           (Counting_processPagesData_sendsNoGet d)
                           ltac:(intros c; apply sendsNoGet_bind;
                                 [apply sendsNoGet_log | intros _; apply sendsNoGet_ret])
                           h2) end.
          rewrite N. reflexivity.
        - rewrite (bind_throw _ _ _ _ _ Eg). cbn [snd]. exists out. exact G. }
      destruct G as [out G]. unfold tryCatch.
      destruct (body h) as [[n|e] t] eqn:Eb; cbn [snd] in G.
      - exists n, t. split; [reflexivity|]. rewrite G. reflexivity.
      - unfold handler. cbn. eexists _, _. split; [reflexivity|].
        rewrite getsOf_app, G. reflexivity. }
    destruct Hb as (n & t & Eb & Gb).
    rewrite (bind_ok _ _ _ _ _ Eb). cbn [fst snd].
    destruct (IH n (h ++ t)) as [[n' En] Gr]. cbn zeta in *.
    split; [exists n'; exact En|].
    rewrite getsOf_app, map_app, Gb, Gr. reflexivity.
Qed.

Lemma Counting_main_never_throws h :
  fst (Counting.main W cfg slugify h) = Ok tt.
Proof.
  unfold Counting.main, tryCatch.
  match goal with |- context [match ?m h with _ => _ end] =>
    destruct (m h) as [[[]|e] t] end; reflexivity.
Qed.
End CountingLoop.

Lemma AllDocs_main_never_throws W cfg slugify h :
  fst (AllDocs.main W cfg slugify h) = Ok tt.
Proof.
  unfold AllDocs.main. rewrite bind_log. cbn [fst]. unfold tryCatch.
  match goal with |- context [match ?m ?h1 with _ => _ end] =>
    destruct (m h1) as [[[]|e] t] end; reflexivity.
Qed.

Example sample_candidates :
  map id (Batched.flattenPages sampleTree) = [lit "a"; lit "d"; lit "e"].
Proof. vm_compute. reflexivity. Qed.

Example sample_slug :
  unlit (sampleSlugify (lit "Page A (draft) 2") (mkSlugifyOptions true true true))
  = "page-a-draft-2"%string.
Proof. vm_compute. reflexivity. Qed.

Lemma nodes_closed (ps : list ClickUpPage) (parent child : ClickUpPage) :
  In parent (nodes ps) -> In child (nodes (pages parent)) -> In child (nodes ps).
Proof.
  assert (One : forall q, In parent (nodesOf q) -> In child (nodes (pages parent)) ->
                          In child (nodesOf q)).
  { induction q as [w d i a n co pid qs dc du IH] using page_forest_ind.
    rewrite !nodesOf_unfold. cbn [pages]. intros [E|Hin] Hc.
    - subst parent. right. exact Hc.
    - right. induction IH as [|q' r Hq' _ IHr]; cbn [nodes] in *; [contradiction|].
      apply in_app_or in Hin as [Hin|Hin]; apply in_or_app;
        [left; apply Hq'; assumption | right; apply IHr; assumption]. }
  induction ps as [|q r IH]; cbn [nodes]; [contradiction|].
  intros Hin Hc. apply in_app_or in Hin as [Hin|Hin]; apply in_or_app;
    [left; apply One; assumption | right; apply IH; assumption].
Qed.

(* ================================================================== *)
(** * Writes, failures, pauses *)

Lemma AllDocs_backoff_increasing (a : Z) :
  1 <= a ->
  AllDocs.backoff a <= 10000
  /\ (AllDocs.backoff a < AllDocs.backoff (a + 1) \/ AllDocs.backoff (a + 1) = 10000).
Proof.
  intros Ha. unfold AllDocs.backoff.
  replace (a + 1 - 1) with (Z.succ (a - 1)) by lia.
  rewrite Z.pow_succ_r by lia.
  assert (0 < 2 ^ (a - 1)) by (apply Z.pow_pos_nonneg; lia).
  lia.
Qed.

Lemma eachButLast_successor {A} (P : A -> Prop) (pre : list A) (x : A) (post : list A) :
  eachButLast P (pre ++ x :: post) -> post <> [] -> P x.
Proof.
  induction pre as [|y pre IH]; cbn [app]; intros H Hp.
  - destruct post as [|z post]; [congruence|]. exact (proj1 H).
  - destruct (pre ++ x :: post) as [|z r] eqn:E.
    + destruct pre; discriminate E.
    + apply IH; [exact (proj2 H) | exact Hp].
Qed.

Lemma roundEvents_errorLines cfg docId attempt out d :
  roundResult out = inl d -> errorLinesOf (roundEvents cfg docId attempt out) = [].
Proof.
  unfold roundResult, roundEvents.
  destruct (settle AllDocs.validateStatus out) as [[s body]|e]; [|discriminate].
  intros _. destruct (truthy_data body); reflexivity.
Qed.

Lemma sleepsOf_deliveries (t : list Event) : sleepsOf t = pausesIn (deliveriesOf t).
Proof.
  induction t as [|e t IH]; [reflexivity|].
  change (e :: t) with ([e] ++ t).
  rewrite sleepsOf_app, deliveriesOf_app. unfold pausesIn in *.
  rewrite flat_map_app, <- IH. destruct e; reflexivity.
Qed.

Lemma written_one cfg docId errLine page t :
  written cfg docId errLine [page] t ->
  exists out,
    postsOf t = [(documentUrl cfg (docId page), out)]
    /\ errorsOf t = match writeError out with
                    | Some e => [(errLine (docId page), e)]
                    | None => []
                    end.
Proof.
  intros (ws & F & P & E).
  destruct ws as [|[p out] [|w ws]]; try discriminate F.
  cbn in F. injection F as ->. exists out. rewrite P, E. cbn.
  split; [reflexivity|]. destruct (writeError out); reflexivity.
Qed.

Lemma written_urls cfg docId errLine cands t :
  written cfg docId errLine cands t ->
  map fst (postsOf t) = map (fun p => documentUrl cfg (docId p)) cands.
Proof.
  intros (ws & F & P & _). rewrite P, <- F, !map_map. reflexivity.
Qed.

(** Failed writes and error lines correspond one to one, in order. *)
Lemma written_failures cfg docId errLine cands t :
  written cfg docId errLine cands t ->
  exists fs : list (ClickUpPage * Transport unit * JsError),
    failedWrites t = map (fun f => (documentUrl cfg (docId (fst (fst f))),
                                    snd (fst f))) fs
    /\ errorsOf t = map (fun f => (errLine (docId (fst (fst f))), snd f)) fs
    /\ Forall (fun f => In (fst (fst f)) cands
                        /\ writeError (snd (fst f)) = Some (snd f)) fs.
Proof.
  intros (ws & F & P & E). unfold failedWrites. rewrite P, E. subst cands.
  clear P E t. induction ws as [|[p out] ws IH].
  - exists []. repeat split. constructor.
  - destruct IH as (fs & F1 & F2 & F3).
    assert (F3' : Forall (fun f => In (fst (fst f)) (map fst ((p, out) :: ws))
                                   /\ writeError (snd (fst f)) = Some (snd f)) fs).
    { eapply Forall_impl; [|exact F3]. cbn. intros f [H1 H2]. tauto. }
    cbn [map filter flat_map fst snd].
    destruct (writeError out) as [e|] eqn:Ew.
    + exists ((p, out, e) :: fs). cbn [map fst snd app]. rewrite F1, F2.
      repeat split. constructor; [|exact F3']. cbn. tauto.
    + exists fs. cbn [app]. rewrite F1, F2. repeat split. exact F3'.
Qed.

Lemma intercalate_split {A} (sep : list A) (pre : list (list A)) (b : list A)
      (rest : list (list A)) :
  rest <> [] ->
  intercalate sep (pre ++ b :: rest)
  = intercalate sep (pre ++ [b]) ++ sep ++ intercalate sep rest.
Proof.
  intros Hr. induction pre as [|x pre IH].
  - destruct rest as [|c rest]; [congruence|]. reflexivity.
  - cbn [app]. cbn [intercalate].
    destruct (pre ++ b :: rest) as [|y r] eqn:E1; [destruct pre; discriminate|].
    destruct (pre ++ [b]) as [|y' r'] eqn:E2; [destruct pre; discriminate|].
    rewrite IH, <- !app_assoc. reflexivity.
Qed.

(* ================================================================== *)
(** * The claims *)

(** C1.  For every tree of pages, a page is among the pages to write if and
    only if it is a page of the tree whose content is not empty after
    trimming and whose [archived] flag is false.  The list of candidates is
    the list of all pages of the tree, parents first, filtered page by page,
    so a page that is left out hides none of its descendants.  The scripts
    that write while they walk issue their writes for the same pages in the
    same order. *)
Theorem C1_filter_correctness (ps : list ClickUpPage) :
  Batched.flattenPages ps = filter syncable (nodes ps)
  /\ (forall p, In p (Batched.flattenPages ps) <->
                In p (nodes ps) /\ trim (content p) <> [] /\ archived p = false)
  /\ (forall parent child,
         In parent (nodes ps) -> In child (nodes (pages parent)) ->
         syncable child = true -> In child (Batched.flattenPages ps))
  /\ (forall W cfg slugify h,
         (forall p, In p (nodes ps) -> syncable p = true -> validDates p = true) ->
         let run := AllDocs.processPages W cfg slugify ps h in
         fst run = Ok tt
         /\ map fst (postsOf (snd run))
            = map (fun p => documentUrl cfg (allDocsDocId slugify p))
                  (filter syncable (nodes ps))).
Proof.
  split; [apply flattenPages_filter|]. split; [|split].
  - intros p. rewrite flattenPages_filter, filter_In, syncable_spec. tauto.
  - intros parent child Hp Hc Hs. rewrite flattenPages_filter. apply filter_In.
    split; [exact (nodes_closed ps parent child Hp Hc) | exact Hs].
  - intros W cfg slugify h V. cbn zeta.
    destruct (AllDocs_processPages_spec W cfg slugify ps) with (h := h)
      as [E ((ws & F & P & _) & _)].
    { intros p Hp. rewrite flattenPages_filter in Hp. apply filter_In in Hp.
      apply V; tauto. }
    split; [exact E|].
    rewrite P, <- flattenPages_filter, <- F, !map_map. reflexivity.
Qed.

(** The sample tree: A with child D, blank B, archived C with child E. *)
Lemma C1_filter_correctness_witness :
  (forall p, In p (nodes sampleTree) -> syncable p = true -> validDates p = true)
  /\ map fst (postsOf (snd (AllDocs.processPages (worldOk sampleTree) sampleConfig
                              sampleSlugify sampleTree [])))
     = map (fun p => documentUrl sampleConfig (allDocsDocId sampleSlugify p))
           (filter syncable (nodes sampleTree)).
Proof.
  assert (V : forall p, In p (nodes sampleTree) -> syncable p = true ->
                        validDates p = true).
  { intros p Hp _. vm_compute in Hp.
    repeat (destruct Hp as [<-|Hp]; [vm_compute; reflexivity|]). destruct Hp. }
  split; [exact V|].
  exact (proj2 (proj2 (proj2 (proj2 (C1_filter_correctness sampleTree)))
                  (worldOk sampleTree) sampleConfig sampleSlugify [] V)).
Defined.

(** C2 as stated fails.  First run: three candidates, the second write
    fails; the count that the run reports is three, not two.  Second run:
    three candidates, the first write fails and the second candidate has an
    invalid date; the RangeError ends the work on the doc, the third
    candidate is never written and the run reports zero. *)
Lemma C2_count_includes_failed_write :
  (let run := Counting.main (worldWriteFails 1 sampleTree) sampleConfig
                sampleSlugify [] in
   List.length (Batched.flattenPages sampleTree) = 3%nat
   /\ List.length (postsOf (snd run)) = 3%nat
   /\ List.length (failedWrites (snd run)) = 1%nat
   /\ last (logsOf (snd run)) [] = Counting.totalLine 3
   /\ Counting.totalLine 3 <> Counting.totalLine (3 - 1)
   /\ fst (Counting.processPages (worldWriteFails 1 sampleTree) sampleConfig
             sampleSlugify sampleTree 0 []) = Ok 3%nat)
  /\ (let tree := [pageD; pageLate; pageE] in
      let run := Counting.main (worldWriteFails 0 tree) sampleConfig
                   sampleSlugify [] in
      List.length (Batched.flattenPages tree) = 3%nat
      /\ List.length (failedWrites (snd run)) = 1%nat
      /\ List.length (postsOf (snd run)) = 1%nat
      /\ last (logsOf (snd run)) [] = Counting.totalLine 0).
Proof.
  cbn zeta. split.
  - split; [vm_compute; reflexivity|].
    split; [vm_compute; reflexivity|].
    split; [vm_compute; reflexivity|].
    split; [vm_compute; reflexivity|].
    split; [vm_compute; discriminate|].
    vm_compute; reflexivity.
  - split; [vm_compute; reflexivity|].
    split; [vm_compute; reflexivity|].
    split; vm_compute; reflexivity.
Qed.

(** C2 (amended).  For every run over a tree whose candidates carry valid
    dates: the work on the tree returns normally; every one of the N
    candidates is written, in order, whichever writes fail; each failed
    write is reported on [console.error], and nothing else is; when exactly
    one write fails, exactly one line is reported, and it carries the
    document id of the candidate and the error of the write.  In any run,
    the loop over the docs fetches every doc and ends normally, and no
    exception leaves [main].  (The scripts keep no list of failures.) *)
Theorem C2_failure_isolation (W : World) (cfg : Config)
        (slugify : jsstring -> SlugifyOptions -> jsstring)
        (ps : list ClickUpPage) (h : list Event) :
  (forall p, In p (Batched.flattenPages ps) -> validDates p = true) ->
  let run := Counting.processPages W cfg slugify ps 0 h in
  (exists n, fst run = Ok n)
  /\ map fst (postsOf (snd run))
     = map (fun p => documentUrl cfg (Counting.documentIdOf slugify p))
           (Batched.flattenPages ps)
  /\ List.length (errorsOf (snd run)) = List.length (failedWrites (snd run))
  /\ (forall u out,
         failedWrites (snd run) = [(u, out)] ->
         exists p e,
           In p (Batched.flattenPages ps)
           /\ u = documentUrl cfg (Counting.documentIdOf slugify p)
           /\ writeError out = Some e
           /\ errorsOf (snd run)
              = [(countingErrLine (Counting.documentIdOf slugify p), e)])
  /\ (forall docIds total h',
         let loop := Counting.docLoop W cfg slugify docIds total h' in
         (exists n, fst loop = Ok n)
         /\ map fst (getsOf (snd loop)) = map (Counting.pagesUrl cfg) docIds)
  /\ (forall h', fst (Counting.main W cfg slugify h') = Ok tt).
Proof.
  intros V. cbn zeta.
  destruct (Counting_processPages_spec W cfg slugify ps V 0%nat h) as [E (Wr & _)].
  split; [eexists; exact E|]. split; [exact (written_urls _ _ _ _ _ Wr)|].
  destruct (written_failures _ _ _ _ _ Wr) as (fs & F1 & F2 & F3).
  split; [rewrite F1, F2, !length_map; reflexivity|]. split.
  - intros u out Hf. rewrite F1 in Hf.
    destruct fs as [|[[p o] e] [|f fs]]; try discriminate Hf.
    cbn in Hf. injection Hf as <- <-.
    apply Forall_inv in F3. cbn in F3. destruct F3 as [Hin Hw].
    exists p, e. rewrite F2. repeat split; assumption.
  - split; [intros docIds total h'; apply Counting_docLoop_visits_all|].
    intros h'. apply Counting_main_never_throws.
Qed.

(** The sample tree, with the second of its three writes failing. *)
Lemma C2_failure_isolation_witness :
  let run := Counting.processPages (worldWriteFails 1 sampleTree) sampleConfig
               sampleSlugify sampleTree 0 [] in
  (forall p, In p (Batched.flattenPages sampleTree) -> validDates p = true)
  /\ failedWrites (snd run)
     = [(lit "/w/w1/vaults/v1/data_sources/ds1/documents/d-page-d", Response 500 tt)]
  /\ map fst (postsOf (snd run))
     = map (fun p => documentUrl sampleConfig (Counting.documentIdOf sampleSlugify p))
           (Batched.flattenPages sampleTree)
  /\ (exists p e,
         In p (Batched.flattenPages sampleTree)
         /\ lit "/w/w1/vaults/v1/data_sources/ds1/documents/d-page-d"
            = documentUrl sampleConfig (Counting.documentIdOf sampleSlugify p)
         /\ writeError (Response 500 tt) = Some e
         /\ errorsOf (snd run)
            = [(countingErrLine (Counting.documentIdOf sampleSlugify p), e)]).
Proof.
  cbn zeta.
  assert (V : forall p, In p (Batched.flattenPages sampleTree) -> validDates p = true).
  { intros p Hp. vm_compute in Hp.
    repeat (destruct Hp as [<-|Hp]; [vm_compute; reflexivity|]). destruct Hp. }
  assert (F : failedWrites (snd (Counting.processPages (worldWriteFails 1 sampleTree)
                                   sampleConfig sampleSlugify sampleTree 0 []))
              = [(lit "/w/w1/vaults/v1/data_sources/ds1/documents/d-page-d",
                  Response 500 tt)]).
  { vm_compute. reflexivity. }
  destruct (C2_failure_isolation (worldWriteFails 1 sampleTree) sampleConfig
              sampleSlugify sampleTree [] V) as (_ & P & _ & One & _).
  split; [exact V|]. split; [exact F|]. split; [exact P|].
  exact (One _ _ F).
Defined.

(** The ceiling of the retries.  When every request of a fetch is rejected
    by the client (in the main script: no answer, a timeout or a status from
    500 on; in the script for one doc also the status 429), the fetcher makes
    exactly [maxRetries] = 3 requests (the first one and two more), pauses
    between consecutive requests for delays that grow (2000 ms, then
    4000 ms: [2000 * attempt] in the script with linear back-off,
    [min(10000, 2000 * 2^(attempt-1))] in the other), and then raises the
    error of the last request.  The delay grows strictly with the attempt
    number until it reaches the cap. *)
Theorem fetch_retry_ceiling (W : World) (cfg : Config) (docId : jsstring)
        (h : list Event) :
  ((forall h', retryable (clickupPages W h' (AllDocs.pagesUrl cfg docId) 1)) ->
   let run := AllDocs.getClickUpPagesWithRetry W cfg docId h in
   exists o1 o2 o3 e,
     getsOf (snd run) = [(AllDocs.pagesUrl cfg docId, o1);
                         (AllDocs.pagesUrl cfg docId, o2);
                         (AllDocs.pagesUrl cfg docId, o3)]
     /\ List.length (getsOf (snd run)) = Z.to_nat AllDocs.maxRetries
     /\ settle AllDocs.validateStatus o3 = Throw e
     /\ fst run = Throw e
     /\ sleepsOf (snd run) = [2000; 4000])
  /\ ((forall h', transient (clickupPages W h' (SingleDoc.pagesUrl cfg docId) 1)) ->
      let run := SingleDoc.getClickUpPagesWithRetry W cfg docId h in
      exists o1 o2 o3 e,
        getsOf (snd run) = [(SingleDoc.pagesUrl cfg docId, o1);
                            (SingleDoc.pagesUrl cfg docId, o2);
                            (SingleDoc.pagesUrl cfg docId, o3)]
        /\ List.length (getsOf (snd run)) = Z.to_nat SingleDoc.maxRetries
        /\ settle defaultValidateStatus o3 = Throw e
        /\ fst run = Throw e
        /\ sleepsOf (snd run) = [2000; 4000])
  /\ (forall a, 1 <= a ->
                AllDocs.backoff a = Z.min 10000 (2000 * 2 ^ (a - 1))
                /\ AllDocs.backoff a <= 10000
                /\ (AllDocs.backoff a < AllDocs.backoff (a + 1)
                    \/ AllDocs.backoff (a + 1) = 10000))
  /\ (forall a, SingleDoc.backoff a = 2000 * a
                /\ SingleDoc.backoff a < SingleDoc.backoff (a + 1)).
Proof.
  split; [|split; [|split]].
  - intros Hall. cbn zeta.
    destruct (AllDocs_fetch_all_fail W cfg docId h Hall)
      as (o1 & o2 & o3 & e & G & S & R & P).
    exists o1, o2, o3, e. rewrite G. repeat split; assumption.
  - intros Hall. cbn zeta.
    destruct (SingleDoc_fetch_all_fail W cfg docId h Hall)
      as (o1 & o2 & o3 & e & G & S & R & P).
    exists o1, o2, o3, e. rewrite G. repeat split; assumption.
  - intros a Ha. split; [reflexivity | apply AllDocs_backoff_increasing; exact Ha].
  - intros a. unfold SingleDoc.backoff. lia.
Qed.

(** A source that answers 503 to every request. *)
Lemma fetch_retry_ceiling_witness :
  (forall h', retryable (clickupPages worldSourceDown h'
                           (AllDocs.pagesUrl sampleConfig (lit "doc1")) 1))
  /\ (forall h', transient (clickupPages worldSourceDown h'
                              (SingleDoc.pagesUrl sampleConfig (lit "doc1")) 1))
  /\ (exists o1 o2 o3 e,
         getsOf (snd (AllDocs.getClickUpPagesWithRetry worldSourceDown sampleConfig
                        (lit "doc1") []))
         = [(AllDocs.pagesUrl sampleConfig (lit "doc1"), o1);
            (AllDocs.pagesUrl sampleConfig (lit "doc1"), o2);
            (AllDocs.pagesUrl sampleConfig (lit "doc1"), o3)]
         /\ List.length (getsOf (snd (AllDocs.getClickUpPagesWithRetry worldSourceDown
                                        sampleConfig (lit "doc1") [])))
            = Z.to_nat AllDocs.maxRetries
         /\ settle AllDocs.validateStatus o3 = Throw e
         /\ fst (AllDocs.getClickUpPagesWithRetry worldSourceDown sampleConfig
                   (lit "doc1") []) = Throw e
         /\ sleepsOf (snd (AllDocs.getClickUpPagesWithRetry worldSourceDown sampleConfig
                             (lit "doc1") [])) = [2000; 4000])
  /\ (exists o1 o2 o3 e,
         getsOf (snd (SingleDoc.getClickUpPagesWithRetry worldSourceDown sampleConfig
                        (lit "doc1") []))
         = [(SingleDoc.pagesUrl sampleConfig (lit "doc1"), o1);
            (SingleDoc.pagesUrl sampleConfig (lit "doc1"), o2);
            (SingleDoc.pagesUrl sampleConfig (lit "doc1"), o3)]
         /\ List.length (getsOf (snd (SingleDoc.getClickUpPagesWithRetry worldSourceDown
                                        sampleConfig (lit "doc1") [])))
            = Z.to_nat SingleDoc.maxRetries
         /\ settle defaultValidateStatus o3 = Throw e
         /\ fst (SingleDoc.getClickUpPagesWithRetry worldSourceDown sampleConfig
                   (lit "doc1") []) = Throw e
         /\ sleepsOf (snd (SingleDoc.getClickUpPagesWithRetry worldSourceDown sampleConfig
                             (lit "doc1") [])) = [2000; 4000])
  /\ 1 <= 3
  /\ AllDocs.backoff 3 < AllDocs.backoff (3 + 1).
Proof.
  assert (H1 : forall h', retryable (clickupPages worldSourceDown h'
                           (AllDocs.pagesUrl sampleConfig (lit "doc1")) 1)).
  { intros h'. simpl. lia. }
  assert (H2 : forall h', transient (clickupPages worldSourceDown h'
                           (SingleDoc.pagesUrl sampleConfig (lit "doc1")) 1)).
  { intros h'. simpl. lia. }
  split; [exact H1|]. split; [exact H2|]. split; [|split].
  - exact (proj1 (fetch_retry_ceiling worldSourceDown sampleConfig (lit "doc1") []) H1).
  - exact (proj1 (proj2 (fetch_retry_ceiling worldSourceDown sampleConfig (lit "doc1") []))
             H2).
  - split; [lia|]. vm_compute. reflexivity.
Defined.

(** C3 (the code at the failing input).  A source that answers every
    request with the rate-limit status 429 fails transiently on every
    attempt.  The main script does not retry: its client resolves the 429,
    so the fetch makes one request, makes no pause, raises nothing and
    returns the body of the answer as the list of pages, on which [main]
    then fails.  The script for one doc, on the same source, makes three
    requests with pauses of 2000 and 4000 ms and raises the error of the
    third. *)
Theorem C3_rate_limit_is_not_retried :
  (forall (W : World) (cfg : Config) (docId : jsstring) (h : list Event)
          (body : ResponseData),
      (forall h', clickupPages W h' (AllDocs.pagesUrl cfg docId) 1
                  = Response 429 body) ->
      let run := AllDocs.getClickUpPagesWithRetry W cfg docId h in
      (forall h', transient (clickupPages W h' (AllDocs.pagesUrl cfg docId) 1))
      /\ getsOf (snd run) = [(AllDocs.pagesUrl cfg docId, Response 429 body)]
      /\ List.length (getsOf (snd run)) <> Z.to_nat AllDocs.maxRetries
      /\ sleepsOf (snd run) = []
      /\ fst run = Ok (if truthy_data body then body else DataPages []))
  /\ (let run := AllDocs.getClickUpPagesWithRetry worldRateLimited sampleConfig
                   (lit "doc1") [] in
      let run' := SingleDoc.getClickUpPagesWithRetry worldRateLimited sampleConfig
                    (lit "doc1") [] in
      fst run = Ok (DataObject (lit "{err: Rate limit}"))
      /\ map fst (getsOf (snd run)) = [lit "/workspaces/9001/docs/doc1/pages"]
      /\ sleepsOf (snd run) = []
      /\ errorsOf (snd run) = []
      /\ errorsOf (snd (AllDocs.main worldRateLimited sampleConfig sampleSlugify []))
         = [(lit "[main] An error occurred:", TypeError "pages is not iterable")]
      /\ fst run' = Throw (BadStatus 429)
      /\ map fst (getsOf (snd run'))
         = [lit "/workspaces/9001/docs/doc1/pages";
            lit "/workspaces/9001/docs/doc1/pages";
            lit "/workspaces/9001/docs/doc1/pages"]
      /\ sleepsOf (snd run') = [2000; 4000]).
Proof.
  split.
  - intros W cfg docId h body Hall. cbn zeta.
    assert (T : forall h', transient (clickupPages W h' (AllDocs.pagesUrl cfg docId) 1)).
    { intros h'. rewrite Hall. cbn. lia. }
    rewrite AllDocs_fetch_run, AllDocs_retryLoop_step. cbn zeta.
    unfold roundAnswer. rewrite Hall.
    change (roundResult (Response 429 body))
      with (@inl ResponseData JsError (if truthy_data body then body else DataPages [])).
    cbn [fst snd].
    change (getsOf (ConsoleLog ?m :: ?t)) with (getsOf t).
    change (sleepsOf (ConsoleLog ?m :: ?t)) with (sleepsOf t).
    rewrite roundEvents_gets, roundEvents_sleeps.
    change (roundResult (Response 429 body))
      with (@inl ResponseData JsError (if truthy_data body then body else DataPages [])).
    split; [exact T|]. split; [reflexivity|].
    split; [cbn; discriminate|]. split; reflexivity.
  - cbn zeta. repeat split; vm_compute; reflexivity.
Qed.

(** C4 (the code at the failing input).  The main script answers a 404 that
    carries an error body by returning that body as the list of pages: the
    handler that would return the empty list is never reached.  One request
    is made and nothing is retried; [main] then fails on the value, which
    cannot be iterated, and the run ends there. *)
Theorem C4_not_found_returns_body :
  let run := AllDocs.getClickUpPagesWithRetry worldNotFound sampleConfig
               (lit "doc1") [] in
  fst run = Ok (DataObject (lit "{err: Doc not found}"))
  /\ fst run <> Ok (DataPages [])
  /\ getsOf (snd run)
     = [(AllDocs.pagesUrl sampleConfig (lit "doc1"),
         Response 404 (DataObject (lit "{err: Doc not found}")))]
  /\ ~ In (notFoundLine (lit "doc1")) (logsOf (snd run))
  /\ errorsOf (snd (AllDocs.main worldNotFound sampleConfig sampleSlugify []))
     = [(lit "[main] An error occurred:", TypeError "pages is not iterable")].
Proof.
  cbn zeta. split; [vm_compute; reflexivity|].
  split; [vm_compute; discriminate|].
  split; [vm_compute; reflexivity|].
  split; [|vm_compute; reflexivity].
  vm_compute. intros H.
  repeat (destruct H as [H|H]; [discriminate H|]). exact H.
Qed.

(** C5 (the code at the failing input).  In the main script the loop over
    the docs has no try/catch of its own: when the pages of the first of two
    docs cannot be fetched, the error of the third attempt leaves the loop,
    [main] logs it and ends, and the second doc is never requested.  The
    script that counts its upserts, on the same services, logs the failure
    of the first doc and goes on to fetch and write the second. *)
Theorem C5_one_root_failure_ends_the_run :
  let run := AllDocs.main (worldFirstDocDown sampleTree) sampleConfig sampleSlugify [] in
  let run' := Counting.main (worldFirstDocDown sampleTree) sampleConfig sampleSlugify [] in
  fst run = Ok tt
  /\ map fst (getsOf (snd run))
     = [lit "/workspaces/9001/docs/doc1/pages";
        lit "/workspaces/9001/docs/doc1/pages";
        lit "/workspaces/9001/docs/doc1/pages"]
  /\ postsOf (snd run) = []
  /\ In (lit "[main] An error occurred:", BadStatus 500) (errorsOf (snd run))
  /\ ~ In (lit "[main] All docs processed successfully.") (logsOf (snd run))
  /\ map fst (getsOf (snd run'))
     = [lit "/workspaces/9001/docs/doc1/pages";
        lit "/workspaces/9001/docs/doc2/pages"]
  /\ List.length (postsOf (snd run')) = 3%nat
  /\ In (lit "Error processing document doc1:", BadStatus 500) (errorsOf (snd run')).
Proof.
  cbn zeta.
  split; [vm_compute; reflexivity|].
  split; [vm_compute; reflexivity|].
  split; [vm_compute; reflexivity|].
  split; [vm_compute; tauto|].
  split.
  { vm_compute. intros H.
    repeat (destruct H as [H|H]; [discriminate H|]). exact H. }
  split; [vm_compute; reflexivity|].
  split; [vm_compute; reflexivity|].
  vm_compute; tauto.
Qed.

(** C6.  The document id of a page is
    [page.id + "-" + generateSlug(page.name)], where [generateSlug] is the
    [slugify] package applied with fixed options: a function, defined on
    every title.  The id is therefore determined by the id and the title of
    the page: two pages that agree on both get the same document id,
    whatever else differs between them.  The write of a page goes to the url
    of that document, in every run and against every service. *)
Theorem C6_document_id (cfg : Config)
        (slugify : jsstring -> SlugifyOptions -> jsstring) :
  (forall name, Counting.generateSlug slugify name
                = slugify name {| lower := true; strict := true; trim_option := true |})
  /\ (forall page,
         Counting.documentIdOf slugify page
         = id page ++ lit "-" ++ Counting.generateSlug slugify (name page))
  /\ (forall p q,
         id p = id q -> name p = name q ->
         Counting.documentIdOf slugify p = Counting.documentIdOf slugify q)
  /\ (forall W page h,
         validDates page = true ->
         map fst (postsOf (snd (Counting.upsertToDustDatasource W cfg slugify page h)))
         = [documentUrl cfg (Counting.documentIdOf slugify page)])
  /\ (forall W W' p q h h',
         validDates p = true -> validDates q = true ->
         id p = id q -> name p = name q ->
         map fst (postsOf (snd (Counting.upsertToDustDatasource W cfg slugify p h)))
         = map fst (postsOf (snd (Counting.upsertToDustDatasource W' cfg slugify q h')))).
Proof.
  assert (Same : forall p q, id p = id q -> name p = name q ->
                             Counting.documentIdOf slugify p
                             = Counting.documentIdOf slugify q).
  { intros p q Ei En. unfold Counting.documentIdOf. rewrite Ei, En. reflexivity. }
  assert (One : forall W page h,
             validDates page = true ->
             map fst (postsOf (snd (Counting.upsertToDustDatasource W cfg slugify page h)))
             = [documentUrl cfg (Counting.documentIdOf slugify page)]).
  { intros W page h V.
    destruct (Counting_upsert_run W cfg slugify page h V)
      as (text & out & t2 & E & H2).
    rewrite E. cbn [snd].
    destruct (writeError out); [subst t2 | destruct H2 as [m ->]]; reflexivity. }
  split; [reflexivity|]. split; [reflexivity|]. split; [exact Same|].
  split; [exact One|].
  intros W W' p q h h' Vp Vq Ei En.
  rewrite (One W p h Vp), (One W' q h' Vq), (Same p q Ei En). reflexivity.
Qed.

(** Page A, and a page with the id and the title of A but another text and
    another [archived] flag: the same document. *)
Lemma C6_document_id_witness :
  validDates pageA = true
  /\ id pageA = id (samplePage "a" "Page A" "other text" true [])
  /\ name pageA = name (samplePage "a" "Page A" "other text" true [])
  /\ map fst (postsOf (snd (Counting.upsertToDustDatasource (worldOk sampleTree)
                              sampleConfig sampleSlugify pageA [])))
     = [lit "/w/w1/vaults/v1/data_sources/ds1/documents/a-page-a"]
  /\ Counting.documentIdOf sampleSlugify pageA
     = Counting.documentIdOf sampleSlugify (samplePage "a" "Page A" "other text" true []).
Proof.
  split; [vm_compute; reflexivity|].
  split; [reflexivity|]. split; [reflexivity|]. split.
  - rewrite (proj1 (proj2 (proj2 (proj2 (C6_document_id sampleConfig sampleSlugify))))
               (worldOk sampleTree) pageA [] eq_refl).
    vm_compute. reflexivity.
  - apply (proj1 (proj2 (proj2 (C6_document_id sampleConfig sampleSlugify))));
      reflexivity.
Defined.

(** C7.  In the script that writes in batches, the candidates are cut into
    consecutive batches of five (the default size), the last one possibly
    shorter.  The writes and pauses of a run are: the writes of the first
    batch, a pause of 1000 ms, the writes of the second batch, a pause, and
    so on up to the writes of the last batch, after which there is no pause.
    So every write of a batch is made before the pause that follows the
    batch, and every write of a later batch after it.  This holds of every
    run: a batch that holds a page with an invalid date is the last batch
    of its run, it contributes the writes of its pages with valid dates, and
    [processPages] raises; with valid dates throughout, every batch is
    written in full and [processPages] returns. *)
Theorem C7_batches (W : World) (cfg : Config)
        (slugify : jsstring -> SlugifyOptions -> jsstring)
        (ps : list ClickUpPage) (h : list Event) :
  let cands := Batched.flattenPages ps in
  let batches := chunks Batched.defaultBatchSize cands in
  let run := Batched.processPages W cfg slugify ps Batched.defaultBatchSize h in
  Batched.defaultBatchSize = 5%nat
  /\ List.concat batches = cands
  /\ fullButLast 5 batches
  /\ deliveriesOf (snd run)
     = intercalate [inr 1000] (map (map (writeOf cfg slugify)) (sentBatches batches))
  /\ (forall pre b rest,
         sentBatches batches = pre ++ b :: rest -> rest <> [] ->
         deliveriesOf (snd run)
         = intercalate [inr 1000] (map (map (writeOf cfg slugify)) (pre ++ [b]))
           ++ [inr 1000]
           ++ intercalate [inr 1000] (map (map (writeOf cfg slugify)) rest))
  /\ (forall pre b rest,
         batches = pre ++ b :: rest ->
         forallb (forallb validDates) pre = true ->
         forallb validDates b = false ->
         fst run = Throw RangeError
         /\ sentBatches batches = pre ++ [filter validDates b])
  /\ ((forall p, In p cands -> validDates p = true) ->
      fst run = Ok tt
      /\ sentBatches batches = batches
      /\ deliveriesOf (snd run)
         = intercalate [inr 1000] (map (map (writeOf cfg slugify)) batches)
      /\ (forall pre b rest,
             batches = pre ++ b :: rest -> rest <> [] ->
             deliveriesOf (snd run)
             = intercalate [inr 1000] (map (map (writeOf cfg slugify)) (pre ++ [b]))
               ++ [inr 1000]
               ++ intercalate [inr 1000] (map (map (writeOf cfg slugify)) rest))).
Proof.
  cbn zeta.
  assert (Hc : List.concat (chunks Batched.defaultBatchSize (Batched.flattenPages ps))
               = Batched.flattenPages ps)
    by (apply chunks_concat; unfold Batched.defaultBatchSize; lia).
  assert (D : deliveriesOf
                (snd (Batched.processPages W cfg slugify ps Batched.defaultBatchSize h))
              = intercalate [inr 1000]
                  (map (map (writeOf cfg slugify))
                       (sentBatches (chunks Batched.defaultBatchSize
                                       (Batched.flattenPages ps))))).
  { rewrite Batched_processPages_schedule. apply schedule_sent. }
  split; [reflexivity|]. split; [exact Hc|].
  split; [apply (chunks_sizes 5); lia|].
  split; [exact D|].
  split; [|split].
  - intros pre b rest Hs Hr. rewrite D, Hs, !map_app. cbn [map].
    apply intercalate_split. destruct rest; [congruence | discriminate].
  - intros pre b rest Hs Hpre Hbad. split.
    + destruct (Batched_processPages_result W cfg slugify ps h) as [_ Bad].
      apply Bad. rewrite <- Hc, Hs, concat_app, forallb_app. cbn [List.concat].
      rewrite forallb_app, Hbad, andb_false_r. reflexivity.
    + rewrite Hs. apply sentBatches_split; assumption.
  - intros V.
    destruct (Batched_processPages_spec W cfg slugify ps h V) as (E & _ & D' & _).
    split; [exact E|].
    split; [apply sentBatches_valid; rewrite Hc; exact V|].
    split; [exact D'|].
    intros pre b rest Hb Hr. rewrite D', Hb, !map_app. cbn [map].
    apply intercalate_split. destruct rest; [congruence | discriminate].
Qed.

(** Seven candidates: a batch of five, a pause, a batch of two.  The same
    with a page with an invalid date put in after the fifth: the second
    batch raises, and its two pages with valid dates are written after the
    pause. *)
Lemma C7_batches_witness :
  (forall p, In p (Batched.flattenPages sevenPages) -> validDates p = true)
  /\ map (List.length (A:=ClickUpPage))
         (chunks Batched.defaultBatchSize (Batched.flattenPages sevenPages))
     = [5%nat; 2%nat]
  /\ deliveriesOf (snd (Batched.processPages (worldWriteFails 2 sevenPages)
                          sampleConfig sampleSlugify sevenPages
                          Batched.defaultBatchSize []))
     = map (fun n => inl (lit ("/w/w1/vaults/v1/data_sources/ds1/documents/"
                               ++ n ++ "-title")))
           ["p1"; "p2"; "p3"; "p4"; "p5"]%string
       ++ [inr 1000]
       ++ map (fun n => inl (lit ("/w/w1/vaults/v1/data_sources/ds1/documents/"
                                  ++ n ++ "-title")))
              ["p6"; "p7"]%string
  /\ map (map (fun p => unlit (id p)))
         (chunks Batched.defaultBatchSize (Batched.flattenPages sevenAndLate))
     = [["p1"; "p2"; "p3"; "p4"; "p5"]; ["late"; "p6"; "p7"]]%string
  /\ fst (Batched.processPages (worldOk []) sampleConfig sampleSlugify sevenAndLate
            Batched.defaultBatchSize []) = Throw RangeError
  /\ deliveriesOf (snd (Batched.processPages (worldOk []) sampleConfig sampleSlugify
                          sevenAndLate Batched.defaultBatchSize []))
     = map (fun n => inl (lit ("/w/w1/vaults/v1/data_sources/ds1/documents/"
                               ++ n ++ "-title")))
           ["p1"; "p2"; "p3"; "p4"; "p5"]%string
       ++ [inr 1000]
       ++ map (fun n => inl (lit ("/w/w1/vaults/v1/data_sources/ds1/documents/"
                                  ++ n ++ "-title")))
              ["p6"; "p7"]%string.
Proof.
  assert (V : forall p, In p (Batched.flattenPages sevenPages) -> validDates p = true).
  { intros p Hp. vm_compute in Hp.
    repeat (destruct Hp as [<-|Hp]; [vm_compute; reflexivity|]). destruct Hp. }
  split; [exact V|]. split; [vm_compute; reflexivity|].
  destruct (C7_batches (worldWriteFails 2 sevenPages) sampleConfig sampleSlugify
                       sevenPages []) as (_ & _ & _ & _ & _ & _ & Valid).
  destruct (C7_batches (worldOk []) sampleConfig sampleSlugify sevenAndLate [])
    as (_ & _ & _ & D & _ & Bad & _).
  split; [rewrite (proj1 (proj2 (proj2 (Valid V)))); vm_compute; reflexivity|].
  split; [vm_compute; reflexivity|].
  split.
  - apply (Bad [firstn 5 sevenPages] ([pageLate] ++ skipn 5 sevenPages) []);
      vm_compute; reflexivity.
  - rewrite D. vm_compute. reflexivity.
Defined.

(** C8 as stated fails: a candidate whose creation time is not a valid date
    makes [upsertToDustDatasource] raise a RangeError before its request, so
    the call issues no write; the error leaves [processPages], and the
    candidate after it is not written either. *)
Lemma C8_invalid_date_no_write :
  syncable pageLate = true
  /\ (let run := Batched.upsertToDustDatasource (worldOk []) sampleConfig
                   sampleSlugify pageLate [] in
      fst run = Throw RangeError /\ List.length (postsOf (snd run)) <> 1%nat)
  /\ (let run := AllDocs.upsertToDustDatasource (worldOk []) sampleConfig
                   sampleSlugify pageLate [] in
      fst run = Throw RangeError /\ List.length (postsOf (snd run)) <> 1%nat)
  /\ (let run := AllDocs.processPages (worldOk []) sampleConfig sampleSlugify
                   [pageLate; pageD] [] in
      Batched.flattenPages [pageLate; pageD] = [pageLate; pageD]
      /\ fst run = Throw RangeError /\ postsOf (snd run) = []).
Proof.
  cbn zeta.
  split; [vm_compute; reflexivity|].
  split; [split; [vm_compute; reflexivity | vm_compute; discriminate]|].
  split; [split; [vm_compute; reflexivity | vm_compute; discriminate]|].
  split; [vm_compute; reflexivity|].
  split; vm_compute; reflexivity.
Qed.

(** C8 (amended).  For every invocation of the upsert operation on a
    candidate whose timestamps are valid dates, exactly one write request is
    issued to the destination, to the url of the candidate's document; there
    is no retry and no pause; the call returns normally, and a failed write
    is reported on [console.error], once, with the document id and the
    error.  In a run over candidates with valid dates, every candidate is
    written exactly once, in order, whichever writes fail, and the pauses of
    the run do not depend on the outcomes of the writes. *)
Theorem C8_single_write (W : World) (cfg : Config)
        (slugify : jsstring -> SlugifyOptions -> jsstring) :
  (forall page h,
      validDates page = true ->
      let run := Batched.upsertToDustDatasource W cfg slugify page h in
      fst run = Ok tt
      /\ sleepsOf (snd run) = []
      /\ exists out,
          postsOf (snd run) = [(documentUrl cfg (batchedDocId slugify page), out)]
          /\ errorsOf (snd run)
             = match writeError out with
               | Some e => [(batchedErrLine (batchedDocId slugify page), e)]
               | None => []
               end)
  /\ (forall page h,
         validDates page = true ->
         let run := AllDocs.upsertToDustDatasource W cfg slugify page h in
         fst run = Ok tt
         /\ sleepsOf (snd run) = []
         /\ exists out,
             postsOf (snd run) = [(documentUrl cfg (allDocsDocId slugify page), out)]
             /\ errorsOf (snd run)
                = match writeError out with
                  | Some e => [(allDocsErrLine (allDocsDocId slugify page), e)]
                  | None => []
                  end)
  /\ (forall ps h,
         (forall p, In p (Batched.flattenPages ps) -> validDates p = true) ->
         let run := Batched.processPages W cfg slugify ps Batched.defaultBatchSize h in
         fst run = Ok tt
         /\ map fst (postsOf (snd run))
            = map (fun p => documentUrl cfg (batchedDocId slugify p))
                  (Batched.flattenPages ps)
         /\ List.length (errorsOf (snd run)) = List.length (failedWrites (snd run))
         /\ sleepsOf (snd run)
            = pausesIn (intercalate [inr 1000]
                          (map (map (writeOf cfg slugify))
                               (chunks Batched.defaultBatchSize
                                       (Batched.flattenPages ps)))))
  /\ (forall ps h,
         (forall p, In p (Batched.flattenPages ps) -> validDates p = true) ->
         let run := AllDocs.processPages W cfg slugify ps h in
         fst run = Ok tt
         /\ map fst (postsOf (snd run))
            = map (fun p => documentUrl cfg (allDocsDocId slugify p))
                  (Batched.flattenPages ps)
         /\ List.length (errorsOf (snd run)) = List.length (failedWrites (snd run))
         /\ sleepsOf (snd run) = []).
Proof.
  split; [|split; [|split]].
  - intros page h V. cbn zeta.
    destruct (Batched_upsert_spec W cfg slugify page h V) as [E (Wr & D & _)].
    split; [exact E|]. split.
    + rewrite sleepsOf_deliveries, D. reflexivity.
    + exact (written_one _ _ _ _ _ Wr).
  - intros page h V. cbn zeta.
    destruct (AllDocs_upsert_written W cfg slugify page h V) as [E (Wr & S & _)].
    split; [exact E|]. split; [exact S|].
    exact (written_one _ _ _ _ _ Wr).
  - intros ps h V. cbn zeta.
    destruct (Batched_processPages_spec W cfg slugify ps h V) as (E & Wr & D & _).
    split; [exact E|]. split; [exact (written_urls _ _ _ _ _ Wr)|]. split.
    + destruct (written_failures _ _ _ _ _ Wr) as (fs & F1 & F2 & _).
      rewrite F1, F2, !length_map. reflexivity.
    + rewrite sleepsOf_deliveries, D. reflexivity.
  - intros ps h V. cbn zeta.
    destruct (AllDocs_processPages_spec W cfg slugify ps V h) as [E (Wr & S & _)].
    split; [exact E|]. split; [exact (written_urls _ _ _ _ _ Wr)|]. split.
    + destruct (written_failures _ _ _ _ _ Wr) as (fs & F1 & F2 & _).
      rewrite F1, F2, !length_map. reflexivity.
    + exact S.
Qed.

(** One page whose write fails, and seven pages of which the third write
    fails. *)
Lemma C8_single_write_witness :
  validDates pageD = true
  /\ (forall p, In p (Batched.flattenPages sevenPages) -> validDates p = true)
  /\ fst (Batched.upsertToDustDatasource (worldWriteFails 0 [pageD]) sampleConfig
            sampleSlugify pageD []) = Ok tt
  /\ map fst (postsOf (snd (Batched.processPages (worldWriteFails 2 sevenPages)
                              sampleConfig sampleSlugify sevenPages
                              Batched.defaultBatchSize [])))
     = map (fun p => documentUrl sampleConfig (batchedDocId sampleSlugify p))
           (Batched.flattenPages sevenPages).
Proof.
  assert (V : forall p, In p (Batched.flattenPages sevenPages) -> validDates p = true).
  { intros p Hp. vm_compute in Hp.
    repeat (destruct Hp as [<-|Hp]; [vm_compute; reflexivity|]). destruct Hp. }
  assert (V1 : validDates pageD = true) by (vm_compute; reflexivity).
  split; [exact V1|]. split; [exact V|]. split.
  - exact (proj1 (proj1 (C8_single_write (worldWriteFails 0 [pageD]) sampleConfig
                           sampleSlugify) pageD [] V1)).
  - exact (proj1 (proj2 (proj1 (proj2 (proj2
             (C8_single_write (worldWriteFails 2 sevenPages) sampleConfig
                              sampleSlugify))) sevenPages [] V))).
Defined.

(** C10.  The HTTP client of the main script accepts every status below
    500.  A response with a status from 400 to 499, 404 and 429 included,
    therefore ends the fetch at once and successfully: its body is returned
    as the list of pages, or the empty list when the body is falsy, with a
    single request, no pause and nothing on [console.error].  A request is
    followed by another one only after a connection error, a timeout or a
    status from 500 on; the branch of the handler for status 404 is never
    taken, and a response with status 429 is never retried. *)
Theorem C10_client_errors_resolve (W : World) (cfg : Config) (docId : jsstring)
        (h : list Event) :
  let run := AllDocs.getClickUpPagesWithRetry W cfg docId h in
  (forall status body rest,
      getsOf (snd run) = (AllDocs.pagesUrl cfg docId, Response status body) :: rest ->
      400 <= status <= 499 ->
      fst run = Ok (if truthy_data body then body else DataPages [])
      /\ rest = []
      /\ sleepsOf (snd run) = []
      /\ errorLinesOf (snd run) = [])
  /\ eachButLast (fun g => retryable (snd g)) (getsOf (snd run))
  /\ (forall pre u status body post,
         getsOf (snd run) = pre ++ (u, Response status body) :: post ->
         status < 500 -> post = [])
  /\ ~ In (notFoundLine docId) (logsOf (snd run))
  /\ (forall (out : Transport ResponseData) e,
         settle AllDocs.validateStatus out = Throw e ->
         retryable out
         /\ response_status_is e 404 = false
         /\ response_status_is e 429 = false).
Proof.
  cbn zeta. rewrite AllDocs_fetch_run. cbn [fst snd].
  set (h0 := h ++ [ConsoleLog (startLine docId)]).
  destruct (AllDocs_retryLoop_invariants W cfg docId 3 1 None h0) as (I1 & I2 & _).
  assert (G0 : forall t, getsOf (ConsoleLog (startLine docId) :: t) = getsOf t)
    by reflexivity.
  split; [|split; [|split; [|split]]].
  - intros status body rest Hg Hs. rewrite G0 in Hg.
    rewrite AllDocs_retryLoop_step in *. cbn zeta in *.
    set (out := roundAnswer W cfg docId 1 h0) in *.
    assert (Eo : out = Response status body).
    { destruct (roundResult out); cbn [snd] in Hg;
        [|rewrite getsOf_app in Hg]; rewrite roundEvents_gets in Hg;
        inversion Hg; reflexivity. }
    assert (Er : roundResult out
                 = inl (if truthy_data body then body else DataPages [])).
    { rewrite Eo. unfold roundResult, AllDocs.validateStatus. cbn [settle].
      replace (status <? 500) with true by (symmetry; apply Z.ltb_lt; lia).
      reflexivity. }
    rewrite Er in *. cbn [fst snd] in *.
    rewrite roundEvents_gets in Hg. inversion Hg.
    split; [reflexivity|]. split; [reflexivity|]. split.
    + change (sleepsOf (roundEvents cfg docId 1 out) = []).
      rewrite roundEvents_sleeps, Er. reflexivity.
    + change (errorLinesOf (roundEvents cfg docId 1 out) = []).
      apply (roundEvents_errorLines _ _ _ _ _ Er).
  - rewrite G0. exact I1.
  - intros pre u status body post Hg Hs. rewrite G0 in Hg. rewrite Hg in I1.
    destruct post as [|g post]; [reflexivity|]. exfalso.
    assert (R := eachButLast_successor _ pre _ (g :: post) I1 ltac:(discriminate)).
    cbn in R. lia.
  - cbn. intros [H|H]; [|exact (I2 H)].
    revert H. unfold startLine, notFoundLine.
    intros H; apply (f_equal (firstn 28)) in H; vm_compute in H; discriminate H.
  - intros out e. apply AllDocs_settle_throw.
Qed.

(** A source that answers 429 to every request. *)
Lemma C10_client_errors_resolve_witness :
  getsOf (snd (AllDocs.getClickUpPagesWithRetry worldRateLimited sampleConfig
                 (lit "doc1") []))
  = [(AllDocs.pagesUrl sampleConfig (lit "doc1"),
      Response 429 (DataObject (lit "{err: Rate limit}")))]
  /\ 400 <= 429 <= 499
  /\ fst (AllDocs.getClickUpPagesWithRetry worldRateLimited sampleConfig
            (lit "doc1") [])
     = Ok (DataObject (lit "{err: Rate limit}")).
Proof.
  assert (G : getsOf (snd (AllDocs.getClickUpPagesWithRetry worldRateLimited
                             sampleConfig (lit "doc1") []))
              = [(AllDocs.pagesUrl sampleConfig (lit "doc1"),
                  Response 429 (DataObject (lit "{err: Rate limit}")))]).
  { vm_compute. reflexivity. }
  assert (S : 400 <= 429 <= 499) by lia.
  split; [exact G|]. split; [exact S|].
  exact (proj1 (proj1 (C10_client_errors_resolve worldRateLimited sampleConfig
                         (lit "doc1") []) 429 _ [] G S)).
Defined.

(* ================================================================== *)
(** * White space, and the text of a document *)

Lemma trimStart_blank (s : jsstring) :
  trimStart s = [] <-> forallb isWhiteSpace s = true.
Proof.
  induction s as [|c s IH]; cbn [trimStart forallb]; [tauto|].
  destruct (isWhiteSpace c); cbn [andb]; [exact IH|].
  split; intros H; discriminate H.
Qed.

Lemma forallb_rev {A} (f : A -> bool) (l : list A) :
  forallb f (rev l) = forallb f l.
Proof.
  induction l as [|x l IH]; [reflexivity|].
  cbn [rev forallb]. rewrite forallb_app, IH. cbn [forallb].
  rewrite andb_true_r. apply andb_comm.
Qed.

Lemma forallb_trimStart (s : jsstring) :
  forallb isWhiteSpace (trimStart s) = forallb isWhiteSpace s.
Proof.
  induction s as [|c s IH]; [reflexivity|]. cbn [trimStart forallb].
  destruct (isWhiteSpace c) eqn:E; cbn [andb forallb]; [exact IH|].
  rewrite E. reflexivity.
Qed.

Lemma rev_nil_iff {A} (l : list A) : rev l = [] <-> l = [].
Proof.
  split; intros H; [|subst; reflexivity].
  rewrite <- (rev_involutive l), H. reflexivity.
Qed.

Lemma trimEnd_blank (s : jsstring) :
  trimEnd s = [] <-> forallb isWhiteSpace s = true.
Proof.
  unfold trimEnd. rewrite <- (forallb_rev isWhiteSpace s), <- trimStart_blank.
  apply rev_nil_iff.
Qed.

Lemma trim_blank (s : jsstring) :
  trim s = [] <-> forallb isWhiteSpace s = true.
Proof.
  unfold trim. rewrite <- (forallb_trimStart s). apply trimEnd_blank.
Qed.

Lemma trimStart_skip (w s : jsstring) :
  forallb isWhiteSpace w = true -> trimStart (w ++ s) = trimStart s.
Proof.
  induction w as [|c w IH]; cbn [forallb app trimStart]; [reflexivity|].
  intros H. apply andb_true_iff in H as [Hc Hw]. rewrite Hc. apply IH. exact Hw.
Qed.

Lemma trimStart_keep (s t : jsstring) :
  trimStart s <> [] -> trimStart (s ++ t) = trimStart s ++ t.
Proof.
  induction s as [|c s IH]; cbn [app trimStart]; [congruence|].
  destruct (isWhiteSpace c); [exact IH | reflexivity].
Qed.

Lemma trimEnd_skip (s w : jsstring) :
  forallb isWhiteSpace w = true -> trimEnd (s ++ w) = trimEnd s.
Proof.
  intros H. unfold trimEnd. rewrite rev_app_distr, trimStart_skip; [reflexivity|].
  rewrite forallb_rev. exact H.
Qed.

Lemma trimEnd_keep (s t : jsstring) :
  trimEnd t <> [] -> trimEnd (s ++ t) = s ++ trimEnd t.
Proof.
  intros H. unfold trimEnd in *. rewrite rev_app_distr, trimStart_keep.
  - rewrite rev_app_distr, rev_involutive. reflexivity.
  - intros E. apply H. rewrite E. reflexivity.
Qed.

Lemma forallb_false_exists {A} (f : A -> bool) (l : list A) :
  forallb f l = false <-> exists x, In x l /\ f x = false.
Proof.
  induction l as [|x l IH]; cbn [forallb In].
  - split; [discriminate | intros (x & [] & _)].
  - rewrite andb_false_iff, IH. split.
    + intros [H|(y & Hy & Fy)]; [exists x; tauto | exists y; tauto].
    + intros (y & [<-|Hy] & Fy); [left; exact Fy | right; exists y; tauto].
Qed.

Lemma hasContent_visible (page : ClickUpPage) :
  hasContent page = true <-> forallb isWhiteSpace (content page) = false.
Proof.
  rewrite hasContent_trim, nonempty_true_iff, trim_blank.
  destruct (forallb isWhiteSpace (content page)); split; congruence.
Qed.

Lemma trim_contentTemplate (page : ClickUpPage) (createdDate updatedDate : jsstring) :
  hasContent page = true ->
  trim (contentTemplate page createdDate updatedDate)
  = lit "Title: " ++ name page ++ [10%N]
    ++ lit "Created At: " ++ createdDate ++ [10%N]
    ++ lit "Updated At: " ++ updatedDate ++ [10%N]
    ++ lit "Content:" ++ [10%N]
    ++ trimEnd (content page).
Proof.
  intros H. apply hasContent_visible in H.
  assert (Hc : trimEnd (content page) <> []).
  { intros E. apply trimEnd_blank in E. congruence. }
  unfold trim, contentTemplate.
  change ([10%N] ++ lit "Title: " ++ ?r) with (10%N :: 84%N :: lit "itle: " ++ r).
  cbn [trimStart]. change (isWhiteSpace 10) with true. change (isWhiteSpace 84) with false.
  cbn iota.
  change (84%N :: lit "itle: " ++ ?r) with (lit "Title: " ++ r).
  repeat rewrite (app_assoc _ _ (content page ++ _)).
  rewrite (app_assoc _ (content page)).
  rewrite trimEnd_skip by reflexivity.
  rewrite trimEnd_keep by exact Hc.
  rewrite <- !app_assoc. reflexivity.
Qed.

(* ================================================================== *)
(** * Writing in order, up to the first invalid date *)

Lemma writesOf_app (a b : list Event) : writesOf (a ++ b) = writesOf a ++ writesOf b.
Proof. apply observe_app. Qed.

Lemma requestsOf_app (a b : list Event) :
  requestsOf (a ++ b) = requestsOf a ++ requestsOf b.
Proof. apply observe_app. Qed.

Lemma postsOf_app (a b : list Event) : postsOf (a ++ b) = postsOf a ++ postsOf b.
Proof. apply observe_app. Qed.

Lemma errorsOf_app (a b : list Event) : errorsOf (a ++ b) = errorsOf a ++ errorsOf b.
Proof. apply observe_app. Qed.

Lemma listingsOf_app (a b : list Event) :
  listingsOf (a ++ b) = listingsOf a ++ listingsOf b.
Proof. apply observe_app. Qed.

Lemma postsOf_writes (t : list Event) : map fst (postsOf t) = map (fun w => fst (fst w)) (writesOf t).
Proof.
  induction t as [|e t IH]; [reflexivity|].
  change (e :: t) with ([e] ++ t). rewrite postsOf_app, writesOf_app, !map_app, IH.
  destruct e; reflexivity.
Qed.

Lemma getsOf_requests (t : list Event) :
  getsOf t = map (fun r => (fst (fst r), snd r)) (requestsOf t).
Proof.
  induction t as [|e t IH]; [reflexivity|].
  change (e :: t) with ([e] ++ t). rewrite getsOf_app, requestsOf_app, map_app, IH.
  destruct e; reflexivity.
Qed.

Lemma takeWhile_all {A} (f : A -> bool) (l : list A) :
  forallb f l = true -> takeWhile f l = l.
Proof.
  induction l as [|x l IH]; cbn [forallb takeWhile]; [reflexivity|].
  intros H. apply andb_true_iff in H as [Hx Hl]. rewrite Hx, IH by exact Hl.
  reflexivity.
Qed.

Lemma takeWhile_app_all {A} (f : A -> bool) (a b : list A) :
  forallb f a = true -> takeWhile f (a ++ b) = a ++ takeWhile f b.
Proof.
  induction a as [|x a IH]; cbn [forallb takeWhile app]; [reflexivity|].
  intros H. apply andb_true_iff in H as [Hx Ha]. rewrite Hx, IH by exact Ha.
  reflexivity.
Qed.

Lemma takeWhile_app_stop {A} (f : A -> bool) (a b : list A) :
  forallb f a = false -> takeWhile f (a ++ b) = takeWhile f a.
Proof.
  induction a as [|x a IH]; cbn [forallb takeWhile app]; [discriminate|].
  destruct (f x); cbn [andb]; [|reflexivity].
  intros H. rewrite IH by exact H. reflexivity.
Qed.

Lemma takeWhile_incl {A} (f : A -> bool) (l : list A) (x : A) :
  In x (takeWhile f l) -> In x l.
Proof.
  induction l as [|y l IH]; cbn [takeWhile]; [tauto|].
  destruct (f y); [|contradiction]. intros [<-|H]; [left; reflexivity|].
  right. apply IH. exact H.
Qed.

Lemma writesInOrder_ret {A} payload (a : A) : writesInOrder payload [] a (ret a).
Proof. intros h. repeat split. Qed.

Lemma writesInOrder_log payload (m : jsstring) :
  writesInOrder payload [] tt (console_log m).
Proof. intros h. repeat split. Qed.

Lemma writesInOrder_bind {A B} payload (c1 c2 : list ClickUpPage) (a : A) (b : B)
      (m : M A) (k : A -> M B) :
  writesInOrder payload c1 a m ->
  writesInOrder payload c2 b (k a) ->
  writesInOrder payload (c1 ++ c2) b (bind m k).
Proof.
  intros H1 H2 h. destruct (H1 h) as (E1 & W1 & R1 & L1 & S1).
  destruct (m h) as [r1 t1] eqn:Em. cbn [fst snd] in *. subst r1.
  rewrite forallb_app.
  destruct (forallb validDates c1) eqn:V.
  - rewrite (bind_ok _ _ _ _ _ Em). cbn [fst snd andb].
    destruct (H2 (h ++ t1)) as (E2 & W2 & R2 & L2 & S2).
    rewrite writesOf_app, requestsOf_app, listingsOf_app, sleepsOf_app,
      W1, W2, R1, R2, L1, L2, S1, S2.
    rewrite (takeWhile_all _ _ V), (takeWhile_app_all _ _ _ V), map_app.
    repeat split. exact E2.
  - rewrite (bind_throw _ _ _ _ _ Em). cbn [fst snd andb].
    rewrite (takeWhile_app_stop _ _ _ V). repeat split; assumption.
Qed.

Lemma writesInOrder_then {A} payload (c : list ClickUpPage) (a : A) (b : A)
      (m : M A) :
  a = b -> writesInOrder payload c a m -> writesInOrder payload c b m.
Proof. intros ->. tauto. Qed.

Lemma writesInOrder_forEach {X} payload (body : X -> M unit)
      (g : X -> list ClickUpPage) (l : list X) :
  (forall x, In x l -> writesInOrder payload (g x) tt (body x)) ->
  writesInOrder payload (flat_map g l) tt (forEach body l).
Proof.
  induction l as [|x r IH]; intros Hb; cbn [forEach flat_map].
  - apply writesInOrder_ret.
  - apply (writesInOrder_bind _ _ _ tt); [apply Hb; left; reflexivity|].
    apply IH. intros y Hy. apply Hb. right. exact Hy.
Qed.

Lemma writesInOrder_forCount {X} payload (body : X -> nat -> M nat)
      (g : X -> list ClickUpPage) (l : list X) :
  (forall x, In x l -> forall c,
        writesInOrder payload (g x) (c + List.length (g x))%nat (body x c)) ->
  forall c, writesInOrder payload (flat_map g l)
                          (c + List.length (flat_map g l))%nat
                          (Counting.forCount body l c).
Proof.
  induction l as [|x r IH]; intros Hb c; cbn [Counting.forCount flat_map].
  - apply (writesInOrder_then _ _ c); [cbn; lia | apply writesInOrder_ret].
  - apply (writesInOrder_bind _ _ _ (c + List.length (g x))%nat);
      [apply Hb; left; reflexivity|].
    apply (writesInOrder_then _ _ (c + List.length (g x) + List.length (flat_map g r))%nat);
      [rewrite length_app; lia|].
    apply IH. intros y Hy. apply Hb. right. exact Hy.
Qed.

Lemma validDates_single (page : ClickUpPage) :
  forallb validDates [page] = validDates page.
Proof. cbn. apply andb_true_r. Qed.

Lemma writesInOrder_single {A} payload (page : ClickUpPage) (a : A) (m : M A) :
  (validDates page = true ->
   forall h, fst (m h) = Ok a /\ writesOf (snd (m h)) = [payload page]
             /\ requestsOf (snd (m h)) = [] /\ listingsOf (snd (m h)) = []
             /\ sleepsOf (snd (m h)) = []) ->
  (validDates page = false ->
   forall h, fst (m h) = Throw RangeError /\ writesOf (snd (m h)) = []
             /\ requestsOf (snd (m h)) = [] /\ listingsOf (snd (m h)) = []
             /\ sleepsOf (snd (m h)) = []) ->
  writesInOrder payload [page] a m.
Proof.
  intros Hv Hi h. rewrite validDates_single. cbn [takeWhile].
  destruct (validDates page); [apply Hv | apply Hi]; reflexivity.
Qed.

Lemma validDates_false (page : ClickUpPage) :
  validDates page = false ->
  validTime (date_created page) = false
  \/ (validTime (date_created page) = true /\ validTime (date_updated page) = false).
Proof.
  unfold validDates. destruct (validTime (date_created page)); cbn [andb]; tauto.
Qed.

Section WalkFacts.
Variable W : World.
Variable cfg : Config.
Variable slugify : jsstring -> SlugifyOptions -> jsstring.
Local Abbreviation allDocsDocId := (allDocsDocId slugify) (only parsing).
Local Abbreviation rawByPage :=
  (fun page : ClickUpPage =>
     (documentUrl cfg (allDocsDocId page), rawText page, linkByPage cfg page))
  (only parsing).
Local Abbreviation rawCounting :=
  (fun page : ClickUpPage =>
     (documentUrl cfg (Counting.documentIdOf slugify page), rawText page,
      linkByPage cfg page))
  (only parsing).

Lemma AllDocs_upsert_run (page : ClickUpPage) (h : list Event) :
  validDates page = true ->
  exists out t2,
    AllDocs.upsertToDustDatasource W cfg slugify page h =
    (Ok tt,
     [ConsoleLog (lit "[upsertToDustDatasource] Upserting page: " ++ name page);
      ConsoleLog (lit "[generateSlug] Generating slug for: " ++ name page);
      ConsoleLog (lit "[generateSlug] Generated slug: "
                  ++ slugify (name page) {| lower := true; strict := true;
                                            trim_option := true |});
      ConsoleLog (lit "[upsertToDustDatasource] Making Dust API request for documentId: "
                  ++ allDocsDocId page);
      Post (documentUrl cfg (allDocsDocId page)) (rawText page)
           (linkByPage cfg page) out;
      t2])
    /\ match writeError out with
       | None => exists m, t2 = ConsoleLog m
       | Some e => t2 = ConsoleError (allDocsErrLine (allDocsDocId page))
                                     (ErrorObject e)
       end.
Proof.
  intros V. unfold validDates in V. apply andb_true_iff in V as [V1 V2].
  unfold AllDocs.upsertToDustDatasource.
  rewrite (toISOString_valid _ V1), (toISOString_valid _ V2).
  rewrite bind_log. cbn [fst snd].
  rewrite (bind_ok _ _ _ _ _ (AllDocs_generateSlug_run _ _ _)). cbn [fst snd].
  rewrite (bind_ok (liftR _) _ _ _ [] eq_refl). cbn [fst snd app].
  rewrite (bind_ok (liftR _) _ _ _ [] eq_refl). cbn [fst snd app].
  fold (allDocsDocId page). fold (documentUrl cfg (allDocsDocId page)).
  fold (rawText page). fold (linkByPage cfg page).
  unfold tryCatch, bind, limitedDustApiPost, writeError, console_log, emit.
  match goal with |- context [dustDocuments W ?a ?b ?c ?d] =>
    set (out := dustDocuments W a b c d) end.
  exists out.
  destruct (settle defaultValidateStatus out) as [r|e]; cbn.
  - eexists. split; [reflexivity|]. eexists. reflexivity.
  - eexists. split; reflexivity.
Qed.

Lemma AllDocs_upsert_invalid (page : ClickUpPage) (h : list Event) :
  validDates page = false ->
  AllDocs.upsertToDustDatasource W cfg slugify page h =
  (Throw RangeError,
   [ConsoleLog (lit "[upsertToDustDatasource] Upserting page: " ++ name page);
    ConsoleLog (lit "[generateSlug] Generating slug for: " ++ name page);
    ConsoleLog (lit "[generateSlug] Generated slug: "
                ++ slugify (name page) {| lower := true; strict := true;
                                          trim_option := true |})]).
Proof.
  intros V. unfold AllDocs.upsertToDustDatasource.
  rewrite bind_log. cbn [fst snd].
  rewrite (bind_ok _ _ _ _ _ (AllDocs_generateSlug_run _ _ _)). cbn [fst snd].
  destruct (validDates_false page V) as [V1|[V1 V2]].
  - rewrite (toISOString_invalid _ V1).
    rewrite (bind_throw (liftR (Throw RangeError)) _ _ RangeError [] eq_refl).
    reflexivity.
  - rewrite (toISOString_valid _ V1), (toISOString_invalid _ V2).
    rewrite (bind_ok (liftR _) _ _ _ [] eq_refl). cbn [fst snd app].
    rewrite (bind_throw (liftR (Throw RangeError)) _ _ RangeError [] eq_refl).
    reflexivity.
Qed.

Lemma AllDocs_upsert_inOrder (page : ClickUpPage) :
  writesInOrder rawByPage [page] tt (AllDocs.upsertToDustDatasource W cfg slugify page).
Proof.
  apply writesInOrder_single; intros V h.
  - destruct (AllDocs_upsert_run page h V) as (out & t2 & E & H2). rewrite E.
    cbn [fst snd].
    destruct (writeError out); [subst t2 | destruct H2 as [m ->]]; repeat split.
  - rewrite (AllDocs_upsert_invalid page h V). repeat split.
Qed.

Lemma AllDocs_processPage_inOrder (page : ClickUpPage) :
  writesInOrder rawByPage (Batched.flattenPage page)
                tt (AllDocs.processPage W cfg slugify page).
Proof.
  induction page as [w d i a n co pid ps dc du IH] using page_forest_ind.
  set (page := mkPage w d i a n co pid ps dc du) in *.
  assert (Kids : writesInOrder rawByPage (Batched.flattenPages ps) tt
                               (AllDocs.processPages W cfg slugify ps)).
  { unfold AllDocs.processPages.
    apply (writesInOrder_bind _ [] _ tt tt); [apply writesInOrder_log|].
    rewrite <- flat_map_flattenPage. apply writesInOrder_forEach.
    intros x Hx. rewrite Forall_forall in IH. apply IH. exact Hx. }
  rewrite AllDocs_processPage_unfold, flattenPage_unfold.
  rewrite <- hasContent_trim_syncable.
  apply (writesInOrder_bind _ [] _ tt tt); [apply writesInOrder_log|].
  apply (writesInOrder_bind _ _ _ tt tt).
  - destruct (hasContent page); cbn [andb];
      [destruct (archived page); cbn [negb]|].
    + apply writesInOrder_log.
    + apply AllDocs_upsert_inOrder.
    + apply writesInOrder_ret.
  - unfold hasChildren. cbn [pages page].
    destruct ps as [|p0 r0] eqn:Eps; [apply writesInOrder_ret|].
    rewrite <- Eps in *.
    apply (writesInOrder_bind _ [] _ tt tt); [apply writesInOrder_log|].
    exact Kids.
Qed.

Lemma AllDocs_processPages_inOrder (ps : list ClickUpPage) :
  writesInOrder rawByPage (Batched.flattenPages ps)
                tt (AllDocs.processPages W cfg slugify ps).
Proof.
  unfold AllDocs.processPages.
  apply (writesInOrder_bind _ [] _ tt tt); [apply writesInOrder_log|].
  rewrite <- flat_map_flattenPage. apply writesInOrder_forEach.
  intros x _. apply AllDocs_processPage_inOrder.
Qed.

Lemma Counting_upsert_full (page : ClickUpPage) (h : list Event) :
  validDates page = true ->
  exists out t2,
    Counting.upsertToDustDatasource W cfg slugify page h =
    (Ok tt, [Post (documentUrl cfg (Counting.documentIdOf slugify page))
                  (rawText page) (linkByPage cfg page) out; t2])
    /\ match writeError out with
       | None => exists m, t2 = ConsoleLog m
       | Some e => t2 = ConsoleError
                          (countingErrLine (Counting.documentIdOf slugify page))
                          (ErrorObject e)
       end.
Proof.
  intros V. unfold validDates in V. apply andb_true_iff in V as [V1 V2].
  unfold Counting.upsertToDustDatasource.
  rewrite (toISOString_valid _ V1), (toISOString_valid _ V2).
  cbn [liftR bind app].
  fold (rawText page).
  unfold tryCatch, bind, limitedDustApiPost, writeError.
  fold (documentUrl cfg (Counting.documentIdOf slugify page)).
  change (Counting.sourceUrl cfg page) with (linkByPage cfg page).
  match goal with |- context [dustDocuments W ?a ?b ?c ?d] =>
    set (out := dustDocuments W a b c d) end.
  exists out.
  destruct (settle defaultValidateStatus out) as [r|e]; cbn.
  - eexists. split; [reflexivity|]. eexists. reflexivity.
  - eexists. split; reflexivity.
Qed.

Lemma Counting_upsert_invalid (page : ClickUpPage) (h : list Event) :
  validDates page = false ->
  Counting.upsertToDustDatasource W cfg slugify page h = (Throw RangeError, []).
Proof.
  intros V. unfold Counting.upsertToDustDatasource.
  destruct (validDates_false page V) as [V1|[V1 V2]].
  - rewrite (toISOString_invalid _ V1). reflexivity.
  - rewrite (toISOString_valid _ V1), (toISOString_invalid _ V2). reflexivity.
Qed.

Lemma Counting_upsert_inOrder (page : ClickUpPage) :
  writesInOrder rawCounting [page] tt
                (Counting.upsertToDustDatasource W cfg slugify page).
Proof.
  apply writesInOrder_single; intros V h.
  - destruct (Counting_upsert_full page h V) as (out & t2 & E & H2). rewrite E.
    cbn [fst snd].
    destruct (writeError out); [subst t2 | destruct H2 as [m ->]]; repeat split.
  - rewrite (Counting_upsert_invalid page h V). repeat split.
Qed.

Lemma Counting_processPage_inOrder (page : ClickUpPage) :
  forall depth c,
    writesInOrder rawCounting (Batched.flattenPage page)
                  (c + List.length (Batched.flattenPage page))%nat
                  (Counting.processPage W cfg slugify depth page c).
Proof.
  induction page as [w d i a n co pid ps dc du IH] using page_forest_ind.
  set (page := mkPage w d i a n co pid ps dc du) in *.
  intros depth c.
  assert (Kids : forall depth',
             writesInOrder rawCounting (Batched.flattenPages ps)
                           (0 + List.length (Batched.flattenPages ps))%nat
                           (Counting.processPages W cfg slugify ps depth')).
  { intros depth'. unfold Counting.processPages.
    rewrite <- flat_map_flattenPage. apply writesInOrder_forCount.
    intros x Hx c'. rewrite Forall_forall in IH. apply IH. exact Hx. }
  rewrite Counting_processPage_unfold, flattenPage_unfold.
  rewrite <- hasContent_trim_syncable.
  set (sel := if hasContent page && negb (archived page) then [page] else []).
  apply (writesInOrder_bind _ _ _ (c + List.length sel)%nat).
  - subst sel. destruct (hasContent page); cbn [andb];
      [destruct (archived page); cbn [negb]|].
    + apply (writesInOrder_bind _ [] [] tt); [apply writesInOrder_log|].
      apply (writesInOrder_then _ _ c); [cbn; lia | apply writesInOrder_ret].
    + apply (writesInOrder_bind _ [] _ tt); [apply writesInOrder_log|].
      rewrite <- (app_nil_r [page]).
      apply (writesInOrder_bind _ _ [] tt); [apply Counting_upsert_inOrder|].
      apply (writesInOrder_then _ _ (S c)); [cbn; lia | apply writesInOrder_ret].
    + apply (writesInOrder_then _ _ c); [cbn; lia | apply writesInOrder_ret].
  - unfold hasChildren. cbn [pages page].
    destruct ps as [|p0 r0] eqn:Eps.
    + apply (writesInOrder_then _ _ (c + List.length sel)%nat);
        [rewrite length_app; cbn; lia | apply writesInOrder_ret].
    + rewrite <- Eps in *. rewrite <- (app_nil_r (Batched.flattenPages ps)).
      apply (writesInOrder_bind _ _ [] (0 + List.length (Batched.flattenPages ps))%nat);
        [apply Kids|].
      apply (writesInOrder_then _ _ (c + List.length sel
                                     + (0 + List.length (Batched.flattenPages ps)))%nat);
        [rewrite !length_app; cbn; lia | apply writesInOrder_ret].
Qed.

Lemma Counting_processPages_inOrder (ps : list ClickUpPage) (depth : nat) :
  writesInOrder rawCounting (Batched.flattenPages ps)
                (List.length (Batched.flattenPages ps))
                (Counting.processPages W cfg slugify ps depth).
Proof.
  unfold Counting.processPages. rewrite <- flat_map_flattenPage.
  apply (writesInOrder_forCount _ _ Batched.flattenPage ps).
  intros x _ c. apply Counting_processPage_inOrder.
Qed.

End WalkFacts.

Lemma rawText_documentText (page : ClickUpPage) :
  hasContent page = true -> rawText page = documentText page.
Proof. intros H. unfold rawText. apply trim_contentTemplate. exact H. Qed.

Lemma candidate_hasContent (ps : list ClickUpPage) (p : ClickUpPage) :
  In p (Batched.flattenPages ps) -> hasContent p = true.
Proof.
  rewrite flattenPages_filter, filter_In. intros [_ H].
  unfold syncable in H. apply andb_true_iff in H as [H _].
  rewrite hasContent_trim. exact H.
Qed.

Lemma candidates_text {X} (ps : list ClickUpPage) (f g : ClickUpPage -> X) :
  (forall p, hasContent p = true -> f p = g p) ->
  map f (takeWhile validDates (Batched.flattenPages ps))
  = map g (takeWhile validDates (Batched.flattenPages ps)).
Proof.
  intros H. apply map_ext_in. intros p Hp. apply H.
  apply (candidate_hasContent ps). apply (takeWhile_incl _ _ _ Hp).
Qed.

(* ================================================================== *)
(** * The script for one doc, through the main script *)

Lemma forEach_map {X Y} (f : X -> Y) (body : Y -> M unit) (body' : X -> M unit)
      (l : list X) :
  Forall (fun x => body' x = body (f x)) l ->
  forEach body' l = forEach body (map f l).
Proof.
  induction 1 as [|x r Hx _ IH]; cbn [forEach map]; [reflexivity|].
  rewrite Hx, IH. reflexivity.
Qed.

Lemma withDocId_unfold (d : jsstring) (page : ClickUpPage) :
  withDocId d page
  = mkPage (workspace_id page) d (id page) (archived page) (name page)
           (content page) (parent_id page) (map (withDocId d) (pages page))
           (date_created page) (date_updated page).
Proof. destruct page; reflexivity. Qed.

Section SingleDocWalk.
Variable W : World.
Variable cfg : Config.
Variable slugify : jsstring -> SlugifyOptions -> jsstring.
Local Abbreviation relabel := (withDocId (CLICKUP_DOC_ID cfg)) (only parsing).

Lemma SingleDoc_upsert_relabel (page : ClickUpPage) :
  SingleDoc.upsertToDustDatasource W cfg slugify page
  = AllDocs.upsertToDustDatasource W cfg slugify (relabel page).
Proof. destruct page; reflexivity. Qed.

Lemma SingleDoc_processPage_unfold page :
  SingleDoc.processPage W cfg slugify page =
  (console_log (lit "[processPages] Processing page: " ++ name page) ;;
   (if hasContent page then
      if negb (archived page) then SingleDoc.upsertToDustDatasource W cfg slugify page
      else console_log (lit "[processPages] Skipping archived page: " ++ name page)
    else ret tt) ;;
   (if hasChildren page then
      console_log (lit "[processPages] Page " ++ name page ++ lit " has child pages.") ;;
      SingleDoc.processPages W cfg slugify (pages page)
    else ret tt))%js.
Proof. destruct page; reflexivity. Qed.

Lemma SingleDoc_processPages_from (ps : list ClickUpPage) :
  Forall (fun page => SingleDoc.processPage W cfg slugify page
                      = AllDocs.processPage W cfg slugify (relabel page)) ps ->
  SingleDoc.processPages W cfg slugify ps
  = AllDocs.processPages W cfg slugify (map relabel ps).
Proof.
  intros IH. unfold SingleDoc.processPages, AllDocs.processPages.
  rewrite length_map.
  rewrite (forEach_map relabel (AllDocs.processPage W cfg slugify)
                       (SingleDoc.processPage W cfg slugify) ps IH).
  reflexivity.
Qed.

Lemma SingleDoc_processPage_relabel (page : ClickUpPage) :
  SingleDoc.processPage W cfg slugify page
  = AllDocs.processPage W cfg slugify (relabel page).
Proof.
  induction page as [w d i a n co pid ps dc du IH] using page_forest_ind.
  rewrite SingleDoc_processPage_unfold, AllDocs_processPage_unfold.
  rewrite SingleDoc_upsert_relabel. cbn [pages].
  rewrite (SingleDoc_processPages_from ps IH).
  destruct ps; reflexivity.
Qed.

Lemma SingleDoc_processPages_relabel (ps : list ClickUpPage) :
  SingleDoc.processPages W cfg slugify ps
  = AllDocs.processPages W cfg slugify (map relabel ps).
Proof.
  apply SingleDoc_processPages_from. apply Forall_forall.
  intros page _. apply SingleDoc_processPage_relabel.
Qed.

Lemma SingleDoc_processPagesData_relabel (d : ResponseData) :
  SingleDoc.processPagesData W cfg slugify d
  = AllDocs.processPagesData W cfg slugify
      (match d with DataPages ps => DataPages (map relabel ps) | _ => d end).
Proof.
  destruct d; try reflexivity. apply SingleDoc_processPages_relabel.
Qed.

End SingleDocWalk.

Lemma flattenPage_withDocId (d : jsstring) (page : ClickUpPage) :
  Batched.flattenPage (withDocId d page) = map (withDocId d) (Batched.flattenPage page).
Proof.
  induction page as [w d0 i a n co pid ps dc du IH] using page_forest_ind.
  rewrite !flattenPage_unfold. cbn [withDocId pages].
  change (syncable (mkPage w d i a n co pid (map (withDocId d) ps) dc du))
    with (syncable (mkPage w d0 i a n co pid ps dc du)).
  rewrite map_app. f_equal.
  - destruct (syncable _); reflexivity.
  - induction IH as [|p r Hp _ IHr]; [reflexivity|].
    cbn [map Batched.flattenPages]. rewrite Hp, IHr, map_app. reflexivity.
Qed.

Lemma flattenPages_withDocId (d : jsstring) (ps : list ClickUpPage) :
  Batched.flattenPages (map (withDocId d) ps)
  = map (withDocId d) (Batched.flattenPages ps).
Proof.
  induction ps as [|p r IH]; [reflexivity|].
  cbn [map Batched.flattenPages]. rewrite flattenPage_withDocId, IH, map_app.
  reflexivity.
Qed.

Lemma validDates_withDocId (d : jsstring) (page : ClickUpPage) :
  validDates (withDocId d page) = validDates page.
Proof. destruct page; reflexivity. Qed.

Lemma takeWhile_map {X Y} (f : X -> Y) (g : Y -> bool) (l : list X) :
  takeWhile g (map f l) = map f (takeWhile (fun x => g (f x)) l).
Proof.
  induction l as [|x l IH]; [reflexivity|]. cbn [map takeWhile].
  destruct (g (f x)); [rewrite IH|]; reflexivity.
Qed.

Lemma forallb_map {X Y} (f : X -> Y) (g : Y -> bool) (l : list X) :
  forallb g (map f l) = forallb (fun x => g (f x)) l.
Proof.
  induction l as [|x l IH]; [reflexivity|]. cbn [map forallb]. rewrite IH.
  reflexivity.
Qed.

Lemma takeWhile_ext {X} (f g : X -> bool) (l : list X) :
  (forall x, f x = g x) -> takeWhile f l = takeWhile g l.
Proof.
  intros H. induction l as [|x l IH]; [reflexivity|]. cbn [takeWhile].
  rewrite H, IH. reflexivity.
Qed.

Lemma forallb_ext' {X} (f g : X -> bool) (l : list X) :
  (forall x, f x = g x) -> forallb f l = forallb g l.
Proof.
  intros H. induction l as [|x l IH]; [reflexivity|]. cbn [forallb].
  rewrite H, IH. reflexivity.
Qed.

Lemma writeByPage_withDocId cfg slugify (page : ClickUpPage) :
  writeByPage cfg slugify (withDocId (CLICKUP_DOC_ID cfg) page)
  = writeByEnv cfg slugify page.
Proof. destruct page; reflexivity. Qed.

(* ================================================================== *)
(** * What a walk over a tree writes *)

(** X1.  A page passes the test for content exactly when its
    content holds a code unit that [trim] does not strip: a page whose
    content is empty or made of white space only (spaces, tabs, line ends,
    non-breaking spaces, ...) is never a candidate, whatever its flags. *)
Theorem content_test_is_visible_text (page : ClickUpPage) :
  (hasContent page = true
   <-> exists c, In c (content page) /\ isWhiteSpace c = false)
  /\ (syncable page = true
      <-> archived page = false
          /\ exists c, In c (content page) /\ isWhiteSpace c = false)
  /\ (forall ps, In page (Batched.flattenPages ps) ->
                 exists c, In c (content page) /\ isWhiteSpace c = false).
Proof.
  assert (H : hasContent page = true
              <-> exists c, In c (content page) /\ isWhiteSpace c = false).
  { rewrite hasContent_visible. apply forallb_false_exists. }
  split; [exact H|]. split.
  - rewrite <- hasContent_trim_syncable, andb_true_iff, negb_true_iff, H. tauto.
  - intros ps Hin. apply H. apply (candidate_hasContent ps). exact Hin.
Qed.

(** X2.  The text that is sent for a page with content is: the line
    [Title: <name>], the lines [Created At:] and [Updated At:] with the two
    dates in ISO format, the line [Content:], and then the content of the
    page with the white space at its end removed.  White space at the start
    of the content, and inside the title, is kept. *)
Theorem text_of_a_document (page : ClickUpPage) :
  hasContent page = true ->
  trim (contentTemplate page (isoFormat (date_created page))
                        (isoFormat (date_updated page)))
  = lit "Title: " ++ name page ++ [10%N]
    ++ lit "Created At: " ++ isoFormat (date_created page) ++ [10%N]
    ++ lit "Updated At: " ++ isoFormat (date_updated page) ++ [10%N]
    ++ lit "Content:" ++ [10%N]
    ++ trimEnd (content page)
  /\ trimEnd (content page) <> []
  /\ (forall w, forallb isWhiteSpace w = true ->
                trimEnd (content page ++ w) = trimEnd (content page)).
Proof.
  intros H. split; [apply trim_contentTemplate; exact H|]. split.
  - intros E. apply trimEnd_blank in E. apply hasContent_visible in H. congruence.
  - intros w Hw. apply trimEnd_skip. exact Hw.
Qed.

(** The padded page: its text keeps the two leading spaces of the content
    and drops the space and the two line ends after it. *)
Lemma text_of_a_document_witness :
  hasContent pagePadded = true
  /\ trim (contentTemplate pagePadded (isoFormat (date_created pagePadded))
                           (isoFormat (date_updated pagePadded)))
     = lit "Title: Padded" ++ [10%N]
       ++ lit "Created At: 1970-01-01T00:00:00.000Z" ++ [10%N]
       ++ lit "Updated At: 2023-11-14T22:13:20.123Z" ++ [10%N]
       ++ lit "Content:" ++ [10%N]
       ++ lit "  body".
Proof.
  assert (H : hasContent pagePadded = true) by (vm_compute; reflexivity).
  split; [exact H|].
  rewrite (proj1 (text_of_a_document pagePadded H)). vm_compute. reflexivity.
Defined.

Lemma length_posts_writes (t : list Event) :
  List.length (postsOf t) = List.length (writesOf t).
Proof.
  rewrite <- (length_map fst (postsOf t)), postsOf_writes, length_map. reflexivity.
Qed.

(** X3.  The walk of the main script over a tree, whatever the
    destination answers: it sends one write per candidate, in the order of
    the tree (parents first), each to the url of the document of the page,
    with the text of the page and the link to the page in its own doc.  It
    stops at the first candidate whose creation or update time is not a
    valid date: that page and the candidates after it are not written, and
    the walk raises a RangeError; no other exception leaves the walk.  The
    walk reads nothing from the source and never pauses. *)
Theorem AllDocs_walk_writes (W : World) (cfg : Config)
        (slugify : jsstring -> SlugifyOptions -> jsstring)
        (ps : list ClickUpPage) (h : list Event) :
  let cands := Batched.flattenPages ps in
  let run := AllDocs.processPages W cfg slugify ps h in
  fst run = (if forallb validDates cands then Ok tt else Throw RangeError)
  /\ writesOf (snd run) = map (writeByPage cfg slugify) (takeWhile validDates cands)
  /\ requestsOf (snd run) = []
  /\ listingsOf (snd run) = []
  /\ sleepsOf (snd run) = [].
Proof.
  cbn zeta.
  destruct (AllDocs_processPages_inOrder W cfg slugify ps h) as (E & Wr & R).
  split; [exact E|]. split; [|exact R].
  rewrite Wr. apply candidates_text. intros p Hp.
  unfold writeByPage. rewrite (rawText_documentText p Hp). reflexivity.
Qed.

Lemma SingleDoc_processPages_summary W cfg slugify (ps : list ClickUpPage)
      (h : list Event) :
  let cands := Batched.flattenPages ps in
  let run := SingleDoc.processPages W cfg slugify ps h in
  run = AllDocs.processPages W cfg slugify
          (map (withDocId (CLICKUP_DOC_ID cfg)) ps) h
  /\ fst run = (if forallb validDates cands then Ok tt else Throw RangeError)
  /\ writesOf (snd run) = map (writeByEnv cfg slugify) (takeWhile validDates cands)
  /\ requestsOf (snd run) = []
  /\ listingsOf (snd run) = []
  /\ sleepsOf (snd run) = [].
Proof.
  cbn zeta. rewrite SingleDoc_processPages_relabel.
  split; [reflexivity|].
  destruct (AllDocs_processPages_inOrder W cfg slugify
              (map (withDocId (CLICKUP_DOC_ID cfg)) ps) h) as (E & Wr & R).
  rewrite flattenPages_withDocId, forallb_map, takeWhile_map, map_map in *.
  rewrite (forallb_ext' _ validDates) in E
    by (intros x; apply validDates_withDocId).
  rewrite (takeWhile_ext _ validDates) in Wr
    by (intros x; apply validDates_withDocId).
  split; [exact E|]. split; [|exact R].
  rewrite Wr. apply candidates_text. intros p Hp.
  rewrite <- writeByPage_withDocId. unfold writeByPage.
  rewrite <- (rawText_documentText (withDocId (CLICKUP_DOC_ID cfg) p)).
  - reflexivity.
  - destruct p; exact Hp.
Qed.

(** X4.  The walk of the script for one doc is the walk of the
    main script over the same tree with every page placed in the doc of the
    environment: the two produce the same events and the same result.  So
    it writes the candidates in order up to the first invalid date, and the
    link of every write goes through [CLICKUP_DOC_ID], whatever doc the page
    itself names. *)
Theorem SingleDoc_walk_writes (W : World) (cfg : Config)
        (slugify : jsstring -> SlugifyOptions -> jsstring)
        (ps : list ClickUpPage) (h : list Event) :
  let cands := Batched.flattenPages ps in
  let run := SingleDoc.processPages W cfg slugify ps h in
  run = AllDocs.processPages W cfg slugify
          (map (withDocId (CLICKUP_DOC_ID cfg)) ps) h
  /\ fst run = (if forallb validDates cands then Ok tt else Throw RangeError)
  /\ writesOf (snd run) = map (writeByEnv cfg slugify) (takeWhile validDates cands)
  /\ map (fun w => snd w) (writesOf (snd run))
     = map (linkByEnv cfg) (takeWhile validDates cands)
  /\ requestsOf (snd run) = []
  /\ listingsOf (snd run) = []
  /\ sleepsOf (snd run) = [].
Proof.
  cbn zeta.
  destruct (SingleDoc_processPages_summary W cfg slugify ps h)
    as (Eq & E & Wr & R). cbn zeta in *.
  split; [exact Eq|]. split; [exact E|]. split; [exact Wr|]. split; [|exact R].
  rewrite Wr, map_map. reflexivity.
Qed.

(** X5.  The walk of the script that counts, whatever the
    destination answers: it writes the candidates in order up to the first
    invalid date, like the main script, and the number it returns is the
    number of candidates of the tree, which is the number of write requests
    it has sent, failed ones included.  When a date is invalid it returns
    no number at all: it raises the RangeError. *)
Theorem Counting_walk_counts_writes (W : World) (cfg : Config)
        (slugify : jsstring -> SlugifyOptions -> jsstring)
        (ps : list ClickUpPage) (depth : nat) (h : list Event) :
  let cands := Batched.flattenPages ps in
  let run := Counting.processPages W cfg slugify ps depth h in
  fst run = (if forallb validDates cands
             then Ok (List.length cands) else Throw RangeError)
  /\ writesOf (snd run) = map (writeByPage cfg slugify) (takeWhile validDates cands)
  /\ (forall n, fst run = Ok n -> n = List.length (postsOf (snd run)))
  /\ (forall e, fst run = Throw e ->
                e = RangeError
                /\ (List.length (postsOf (snd run)) < List.length cands)%nat)
  /\ requestsOf (snd run) = []
  /\ listingsOf (snd run) = []
  /\ sleepsOf (snd run) = [].
Proof.
  cbn zeta.
  destruct (Counting_processPages_inOrder W cfg slugify ps depth h)
    as (E & Wr & R).
  assert (Wr' : writesOf (snd (Counting.processPages W cfg slugify ps depth h))
                = map (writeByPage cfg slugify)
                      (takeWhile validDates (Batched.flattenPages ps))).
  { rewrite Wr. apply candidates_text. intros p Hp.
    unfold writeByPage. rewrite (rawText_documentText p Hp). reflexivity. }
  split; [exact E|]. split; [exact Wr'|]. split; [|split; [|exact R]].
  - intros n Hn. rewrite length_posts_writes, Wr', length_map.
    rewrite E in Hn.
    destruct (forallb validDates (Batched.flattenPages ps)) eqn:V;
      [|discriminate Hn].
    rewrite (takeWhile_all _ _ V). congruence.
  - intros e He. rewrite length_posts_writes, Wr', length_map.
    rewrite E in He.
    destruct (forallb validDates (Batched.flattenPages ps)) eqn:V;
      [discriminate He|].
    split; [congruence|].
    clear -V. induction (Batched.flattenPages ps) as [|x l IH];
      [discriminate V|].
    cbn [forallb takeWhile List.length] in *.
    destruct (validDates x); cbn [andb List.length] in *; [|lia].
    apply IH in V. lia.
Qed.

(* ================================================================== *)
(** * What the batches write *)

Lemma forallb_concat {X} (f : X -> bool) (ls : list (list X)) :
  forallb (forallb f) ls = forallb f (List.concat ls).
Proof.
  induction ls as [|l ls IH]; [reflexivity|].
  cbn [forallb List.concat]. rewrite forallb_app, IH. reflexivity.
Qed.

Lemma writesOf_log (m : jsstring) (t : list Event) :
  writesOf (ConsoleLog m :: t) = writesOf t.
Proof. reflexivity. Qed.

Lemma writesOf_sleep (ms : Z) (t : list Event) :
  writesOf (SetTimeout ms :: t) = writesOf t.
Proof. reflexivity. Qed.

Lemma requestsOf_log (m : jsstring) (t : list Event) :
  requestsOf (ConsoleLog m :: t) = requestsOf t.
Proof. reflexivity. Qed.

Lemma requestsOf_sleep (ms : Z) (t : list Event) :
  requestsOf (SetTimeout ms :: t) = requestsOf t.
Proof. reflexivity. Qed.

Lemma listingsOf_log (m : jsstring) (t : list Event) :
  listingsOf (ConsoleLog m :: t) = listingsOf t.
Proof. reflexivity. Qed.

Lemma listingsOf_sleep (ms : Z) (t : list Event) :
  listingsOf (SetTimeout ms :: t) = listingsOf t.
Proof. reflexivity. Qed.

Lemma writesOf_nil : writesOf [] = [].
Proof. reflexivity. Qed.

Lemma requestsOf_nil : requestsOf [] = [].
Proof. reflexivity. Qed.

Lemma listingsOf_nil : listingsOf [] = [].
Proof. reflexivity. Qed.

#[local] Hint Rewrite writesOf_app writesOf_log writesOf_sleep writesOf_nil
  requestsOf_app requestsOf_log requestsOf_sleep requestsOf_nil
  listingsOf_app listingsOf_log listingsOf_sleep listingsOf_nil : obs.

Section BatchedWrites.
Variable W : World.
Variable cfg : Config.
Variable slugify : jsstring -> SlugifyOptions -> jsstring.
Local Abbreviation rawByEnv :=
  (fun page : ClickUpPage =>
     (documentUrl cfg (batchedDocId slugify page), rawText page, linkByEnv cfg page))
  (only parsing).
Local Abbreviation envelopeOf :=
  (fun page : ClickUpPage =>
     {| documentId := batchedDocId slugify page;
        url := documentUrl cfg (batchedDocId slugify page);
        text := rawText page;
        source_url := linkByEnv cfg page |})
  (only parsing).

Lemma Batched_prepare_full (page : ClickUpPage) :
  validDates page = true ->
  Batched.prepare cfg slugify page = Ok (envelopeOf page).
Proof.
  intros V. unfold validDates in V. apply andb_true_iff in V as [V1 V2].
  unfold Batched.prepare.
  rewrite (toISOString_valid _ V1), (toISOString_valid _ V2). reflexivity.
Qed.

Lemma Batched_prepareAll_full (batch : list ClickUpPage) :
  forallb validDates batch = true ->
  Batched.prepareAll cfg slugify batch = Ok (map envelopeOf batch).
Proof.
  induction batch as [|p r IH]; cbn [forallb]; intros V; [reflexivity|].
  apply andb_true_iff in V as [Vp Vr].
  cbn [Batched.prepareAll map]. rewrite (Batched_prepare_full p Vp), (IH Vr).
  reflexivity.
Qed.

Lemma Batched_queued_full (batch : list ClickUpPage) :
  Batched.queued cfg slugify batch = map envelopeOf (filter validDates batch).
Proof.
  induction batch as [|p r IH]; [reflexivity|].
  cbn [Batched.queued filter]. destruct (validDates p) eqn:Vp.
  - rewrite (Batched_prepare_full p Vp), IH. reflexivity.
  - rewrite (Batched_prepare_invalid cfg slugify p Vp). exact IH.
Qed.

Lemma Batched_deliver_writes (env : Envelope) (h : list Event) :
  fst (Batched.deliver W env h) = Ok tt
  /\ writesOf (snd (Batched.deliver W env h)) = [(url env, text env, source_url env)]
  /\ requestsOf (snd (Batched.deliver W env h)) = []
  /\ listingsOf (snd (Batched.deliver W env h)) = []
  /\ sleepsOf (snd (Batched.deliver W env h)) = [].
Proof.
  unfold Batched.deliver.
  unfold tryCatch, bind, limitedDustApiPost, console_log, console_error, emit.
  destruct (settle defaultValidateStatus _) as [r|e]; cbn; repeat split.
Qed.

Lemma Batched_forEach_deliver_writes (envs : list Envelope) (h : list Event) :
  let run := forEach (Batched.deliver W) envs h in
  fst run = Ok tt
  /\ writesOf (snd run) = map (fun env => (url env, text env, source_url env)) envs
  /\ requestsOf (snd run) = []
  /\ listingsOf (snd run) = []
  /\ sleepsOf (snd run) = [].
Proof.
  revert h. induction envs as [|env envs IH]; intros h; cbn zeta; cbn [forEach].
  - repeat split.
  - destruct (Batched_deliver_writes env h) as (E1 & W1 & R1 & L1 & S1).
    destruct (Batched.deliver W env h) as [r1 t1] eqn:Ed.
    cbn [fst snd] in *. subst r1.
    rewrite (bind_ok _ _ _ _ _ Ed). cbn [fst snd].
    destruct (IH (h ++ t1)) as (E2 & W2 & R2 & L2 & S2). cbn zeta in *.
    rewrite writesOf_app, requestsOf_app, listingsOf_app, sleepsOf_app,
      W1, W2, R1, R2, L1, L2, S1, S2.
    repeat split. exact E2.
Qed.

Lemma Batched_upsertBatch_writes (batch : list ClickUpPage) (h : list Event) :
  let run := Batched.upsertBatch W cfg slugify batch h in
  (forallb validDates batch = true ->
   fst run = Ok tt /\ writesOf (snd run) = map rawByEnv batch
   /\ requestsOf (snd run) = [] /\ listingsOf (snd run) = []
   /\ sleepsOf (snd run) = [])
  /\ (forallb validDates batch = false ->
      fst run = Throw RangeError
      /\ writesOf (snd run) = map rawByEnv (filter validDates batch)
      /\ requestsOf (snd run) = [] /\ listingsOf (snd run) = []
      /\ sleepsOf (snd run) = []).
Proof.
  cbn zeta. unfold Batched.upsertBatch. split; intros V.
  - rewrite (Batched_prepareAll_full batch V).
    destruct (Batched_forEach_deliver_writes (map envelopeOf batch) h)
      as (E & Wr & R). cbn zeta in *.
    split; [exact E|]. split; [|exact R].
    rewrite Wr, map_map. reflexivity.
  - rewrite (Batched_prepareAll_invalid cfg slugify batch V).
    rewrite Batched_queued_full.
    destruct (Batched_forEach_deliver_writes
                (map envelopeOf (filter validDates batch)) h)
      as (E & Wr & R). cbn zeta in *.
    destruct (forEach (Batched.deliver W)
                (map envelopeOf (filter validDates batch)) h) as [r t] eqn:Ef.
    cbn [fst snd] in E, Wr, R. subst r.
    rewrite (bind_ok _ _ _ _ _ Ef). cbn [fst snd throw]. rewrite app_nil_r.
    split; [reflexivity|]. split; [|exact R].
    rewrite Wr, map_map. reflexivity.
Qed.

Lemma Batched_batchLoop_writes (allPages : list ClickUpPage) (batchSize : nat) :
  (1 <= batchSize)%nat ->
  forall fuel i h,
    (List.length allPages - i <= fuel)%nat ->
    let run := Batched.batchLoop W cfg slugify fuel allPages batchSize i h in
    let batches := chunks batchSize (skipn i allPages) in
    fst run = (if forallb (forallb validDates) batches then Ok tt
               else Throw RangeError)
    /\ writesOf (snd run) = map rawByEnv (List.concat (sentBatches batches))
    /\ requestsOf (snd run) = []
    /\ listingsOf (snd run) = [].
Proof.
  intros Hb fuel.
  assert (Done : forall i, (List.length allPages <= i)%nat ->
                           skipn i allPages = []).
  { intros i Hi. apply skipn_all2. exact Hi. }
  induction fuel as [|fuel IH]; intros i h Hf; cbn zeta.
  - rewrite Done by lia. repeat split.
  - cbn [Batched.batchLoop].
    destruct (i <? List.length allPages)%nat eqn:Ei.
    2:{ apply Nat.ltb_ge in Ei. rewrite Done by lia. repeat split. }
    apply Nat.ltb_lt in Ei.
    set (rest := skipn i allPages).
    assert (Hrest : rest <> []) by (apply skipn_nonempty_length; exact Ei).
    rewrite bind_log. cbn [fst snd].
    set (h1 := h ++ [ConsoleLog _]).
    rewrite (chunks_cons batchSize rest Hb Hrest).
    cbn [forallb sentBatches].
    assert (Erest : skipn (i + batchSize) allPages = skipn batchSize rest).
    { subst rest. rewrite skipn_skipn. f_equal. lia. }
    destruct (Batched_upsertBatch_writes (firstn batchSize rest) h1) as [Hv Hi].
    cbn zeta in Hv, Hi.
    destruct (forallb validDates (firstn batchSize rest)) eqn:Vb; cbn [andb].
    + destruct (Hv eq_refl) as (E1 & W1 & R1 & L1 & _).
      destruct (Batched.upsertBatch W cfg slugify (firstn batchSize rest) h1)
        as [r1 t1] eqn:Eb.
      cbn [fst snd] in E1, W1, R1, L1. subst r1.
      rewrite (bind_ok _ _ _ _ _ Eb). cbn [fst snd List.concat].
      rewrite map_app.
      destruct (i + batchSize <? List.length allPages)%nat eqn:En.
      * rewrite (bind_ok (sleep 1000) _ _ tt [SetTimeout 1000] eq_refl).
        cbn [fst snd].
        match goal with |- context [Batched.batchLoop _ _ _ _ _ _ _ ?h2] =>
          destruct (IH (i + batchSize)%nat h2 ltac:(lia)) as (E2 & W2 & R2 & L2) end.
        cbn zeta in *. rewrite Erest in *.
        autorewrite with obs. rewrite W1, W2, R1, R2, L1, L2.
        repeat split. exact E2.
      * rewrite (bind_ok (ret tt) _ _ tt [] eq_refl). cbn [fst snd app].
        match goal with |- context [Batched.batchLoop _ _ _ _ _ _ _ ?h2] =>
          destruct (IH (i + batchSize)%nat h2 ltac:(lia)) as (E2 & W2 & R2 & L2) end.
        cbn zeta in *. rewrite Erest in *.
        autorewrite with obs. rewrite W1, W2, R1, R2, L1, L2.
        repeat split. exact E2.
    + destruct (Hi eq_refl) as (E1 & W1 & R1 & L1 & _).
      destruct (Batched.upsertBatch W cfg slugify (firstn batchSize rest) h1)
        as [r1 t1] eqn:Eb.
      cbn [fst snd] in E1, W1, R1, L1. subst r1.
      rewrite (bind_throw _ _ _ _ _ Eb). cbn [fst snd List.concat].
      rewrite app_nil_r. autorewrite with obs. rewrite W1, R1, L1.
      repeat split.
Qed.

End BatchedWrites.

Lemma bind_ext {A B} (m : M A) (k k' : A -> M B) (h : list Event) :
  (forall a h', k a h' = k' a h') -> bind m k h = bind m k' h.
Proof.
  intros H. unfold bind. destruct (m h) as [[a|e] t]; [|reflexivity].
  rewrite H. reflexivity.
Qed.

Lemma Batched_batchLoop_fuel W cfg slugify (allPages : list ClickUpPage)
      (batchSize : nat) :
  (1 <= batchSize)%nat ->
  forall fuel fuel' i h,
    (List.length allPages - i <= fuel)%nat ->
    (List.length allPages - i <= fuel')%nat ->
    Batched.batchLoop W cfg slugify fuel allPages batchSize i h
    = Batched.batchLoop W cfg slugify fuel' allPages batchSize i h.
Proof.
  intros Hb fuel. induction fuel as [|fuel IH]; intros fuel' i h H1 H2.
  - destruct fuel' as [|fuel']; [reflexivity|]. cbn [Batched.batchLoop].
    replace (i <? List.length allPages)%nat with false
      by (symmetry; apply Nat.ltb_ge; lia).
    reflexivity.
  - destruct fuel' as [|fuel']; cbn [Batched.batchLoop].
    + replace (i <? List.length allPages)%nat with false
        by (symmetry; apply Nat.ltb_ge; lia).
      reflexivity.
    + destruct (i <? List.length allPages)%nat eqn:Ei; [|reflexivity].
      apply Nat.ltb_lt in Ei.
      apply bind_ext. intros _ h1. apply bind_ext. intros _ h2.
      apply bind_ext. intros _ h3. apply IH; lia.
Qed.

Lemma ceilDiv_zero (d : nat) : (1 <= d)%nat -> Batched.ceilDiv 0 d = 0%nat.
Proof. intros H. unfold Batched.ceilDiv. apply Nat.div_small. lia. Qed.

Lemma ceilDiv_step (n d : nat) :
  (1 <= d)%nat -> (1 <= n)%nat ->
  Batched.ceilDiv n d = S (Batched.ceilDiv (n - d) d).
Proof.
  intros Hd Hn. unfold Batched.ceilDiv.
  destruct (Nat.le_gt_cases d n) as [H|H].
  - replace (n + d - 1)%nat with ((n - d + d - 1) + 1 * d)%nat by lia.
    rewrite Nat.div_add by lia. lia.
  - replace (n - d)%nat with 0%nat by lia.
    rewrite (Nat.div_small (0 + d - 1) d) by lia.
    symmetry. apply (Nat.div_unique _ _ 1 (n - 1)); lia.
Qed.

Lemma chunks_length {X} (n : nat) (l : list X) :
  (1 <= n)%nat -> List.length (chunks n l) = Batched.ceilDiv (List.length l) n.
Proof.
  intros Hn.
  remember (List.length l) as k eqn:Ek. revert l Ek.
  induction k as [k IH] using lt_wf_ind. intros l Ek.
  destruct l as [|x l].
  - subst k. rewrite chunks_nil, ceilDiv_zero by exact Hn. reflexivity.
  - rewrite chunks_cons by (try exact Hn; congruence).
    cbn [List.length] in *.
    rewrite (IH (List.length (skipn n (x :: l)))) with (l := skipn n (x :: l));
      try reflexivity.
    + rewrite length_skipn. cbn [List.length]. subst k.
      symmetry. apply ceilDiv_step; lia.
    + rewrite length_skipn. cbn [List.length]. lia.
Qed.

Lemma pausesIn_app (a b : list (jsstring + Z)) :
  pausesIn (a ++ b) = pausesIn a ++ pausesIn b.
Proof. apply flat_map_app. Qed.

Lemma pausesIn_writes {X} (f : X -> jsstring) (l : list X) :
  pausesIn (map (fun x => inl (f x)) l) = [].
Proof. induction l as [|x l IH]; [reflexivity | exact IH]. Qed.

Lemma intercalate_cons2 {X} (sep a b : list X) (r : list (list X)) :
  intercalate sep (a :: b :: r) = a ++ sep ++ intercalate sep (b :: r).
Proof. reflexivity. Qed.

Lemma pausesIn_intercalate {X} (f : X -> jsstring) (ms : Z) (ls : list (list X)) :
  pausesIn (intercalate [inr ms] (map (map (fun x => inl (f x))) ls))
  = repeat ms (List.length ls - 1).
Proof.
  induction ls as [|l ls IH]; [reflexivity|].
  destruct ls as [|l' ls'].
  - cbn [map intercalate List.length]. apply pausesIn_writes.
  - cbn [map] in *. rewrite intercalate_cons2, !pausesIn_app, pausesIn_writes, IH.
    cbn [List.length Nat.sub]. rewrite !Nat.sub_0_r. reflexivity.
Qed.

Lemma sentBatches_incl (batches : list (list ClickUpPage)) (p : ClickUpPage) :
  In p (List.concat (sentBatches batches)) -> In p (List.concat batches).
Proof.
  induction batches as [|b r IH]; cbn [sentBatches]; [tauto|].
  destruct (forallb validDates b); cbn [List.concat]; intros H;
    apply in_app_or in H as [H|H]; apply in_or_app.
  - left. exact H.
  - right. apply IH. exact H.
  - left. apply filter_In in H. apply H.
  - destruct H.
Qed.

(** X6.  The script that writes in batches, for any batch size
    from one on and whatever the destination answers: the candidates are
    cut into consecutive batches; the batches are sent in order, every page
    of a batch with the text of the page and a link through the doc of the
    environment.  The first batch that holds a page with an invalid date
    makes [processPages] raise a RangeError, and it is the last batch that
    reaches the destination: its pages with valid dates are written all the
    same (their requests are in the queue of the limiter when the error is
    raised), its pages with invalid dates are not, and no batch after it is
    sent.  [processPages] returns normally exactly when every candidate has
    valid dates, and then every candidate is written.  The loop ends within
    as many rounds as there are candidates. *)
Theorem Batched_batches_written (W : World) (cfg : Config)
        (slugify : jsstring -> SlugifyOptions -> jsstring)
        (ps : list ClickUpPage) (batchSize : nat) (h : list Event) :
  (1 <= batchSize)%nat ->
  let cands := Batched.flattenPages ps in
  let batches := chunks batchSize cands in
  let run := Batched.processPages W cfg slugify ps batchSize h in
  fst run = (if forallb validDates cands then Ok tt else Throw RangeError)
  /\ writesOf (snd run)
     = map (writeByEnv cfg slugify) (List.concat (sentBatches batches))
  /\ (forall pre b rest,
         batches = pre ++ b :: rest ->
         forallb (forallb validDates) pre = true ->
         forallb validDates b = false ->
         writesOf (snd run)
         = map (writeByEnv cfg slugify) (List.concat pre ++ filter validDates b))
  /\ (forallb validDates cands = true ->
      writesOf (snd run) = map (writeByEnv cfg slugify) cands)
  /\ (forall fuel h',
         (List.length cands <= fuel)%nat ->
         Batched.batchLoop W cfg slugify fuel cands batchSize 0 h'
         = Batched.batchLoop W cfg slugify (List.length cands) cands batchSize 0 h')
  /\ requestsOf (snd run) = []
  /\ listingsOf (snd run) = [].
Proof.
  intros Hb. cbn zeta. unfold Batched.processPages. rewrite bind_log.
  cbn [fst snd]. autorewrite with obs.
  match goal with |- context [Batched.batchLoop _ _ _ ?f ?a _ 0 ?h1] =>
    destruct (Batched_batchLoop_writes W cfg slugify a batchSize Hb f 0 h1
                ltac:(lia)) as (E & Wr & R & L) end.
  cbn zeta in *. cbn [skipn] in *.
  rewrite forallb_concat, chunks_concat in E by exact Hb.
  assert (Wr' : writesOf (snd (Batched.batchLoop W cfg slugify
                                 (List.length (Batched.flattenPages ps))
                                 (Batched.flattenPages ps) batchSize 0
                                 (h ++ [ConsoleLog (lit "Total pages to process: "
                                    ++ showNat (List.length (Batched.flattenPages ps)))])))
                = map (writeByEnv cfg slugify)
                      (List.concat (sentBatches (chunks batchSize
                                                   (Batched.flattenPages ps))))).
  { rewrite Wr. apply map_ext_in. intros p Hp.
    apply sentBatches_incl in Hp. rewrite chunks_concat in Hp by exact Hb.
    unfold writeByEnv. rewrite (rawText_documentText p); [reflexivity|].
    apply (candidate_hasContent ps). exact Hp. }
  split; [exact E|]. split; [exact Wr'|].
  split; [|split; [|split; [|split; assumption]]].
  - intros pre b rest Hs Hpre Hbad.
    rewrite Wr', Hs, (sentBatches_split pre b rest Hpre Hbad).
    rewrite concat_app. cbn [List.concat]. rewrite app_nil_r. reflexivity.
  - intros V. rewrite Wr', sentBatches_all.
    + rewrite chunks_concat by exact Hb. reflexivity.
    + rewrite chunks_concat by exact Hb. exact V.
  - intros fuel h' Hf. apply Batched_batchLoop_fuel; [exact Hb | lia | lia].
Qed.

(** Eight candidates in batches of three, the sixth with an invalid date:
    the first batch is written; of the second, which raises, the two pages
    with valid dates are written; the third is not. *)
Lemma Batched_batches_written_witness :
  (1 <= 3)%nat
  /\ map (map (fun p => unlit (id p)))
         (chunks 3 (Batched.flattenPages sevenAndLate))
     = [["p1"; "p2"; "p3"]; ["p4"; "p5"; "late"]; ["p6"; "p7"]]%string
  /\ fst (Batched.processPages (worldOk []) sampleConfig sampleSlugify
            sevenAndLate 3 []) = Throw RangeError
  /\ map (fun w => fst (fst w))
         (writesOf (snd (Batched.processPages (worldOk []) sampleConfig sampleSlugify
                           sevenAndLate 3 [])))
     = map (fun n => lit ("/w/w1/vaults/v1/data_sources/ds1/documents/"
                          ++ n ++ "-title"))
           ["p1"; "p2"; "p3"; "p4"; "p5"]%string.
Proof.
  assert (H : (1 <= 3)%nat) by lia.
  destruct (Batched_batches_written (worldOk []) sampleConfig sampleSlugify
              sevenAndLate 3 [] H) as (E & Wr & _).
  split; [exact H|]. split; [vm_compute; reflexivity|]. split.
  - rewrite E. vm_compute. reflexivity.
  - rewrite Wr. vm_compute. reflexivity.
Defined.

(** X7.  With valid dates and a batch size from one on, the
    number of batches is the number of candidates divided by the batch
    size, rounded up, which is the total that the log lines
    [Processing batch i/n] announce; the run pauses for 1000 ms between two
    consecutive batches and not after the last one, so it makes one pause
    less than there are batches, and none when there is at most one
    batch. *)
Theorem Batched_pauses_between_batches (W : World) (cfg : Config)
        (slugify : jsstring -> SlugifyOptions -> jsstring)
        (ps : list ClickUpPage) (batchSize : nat) (h : list Event) :
  (1 <= batchSize)%nat ->
  (forall p, In p (Batched.flattenPages ps) -> validDates p = true) ->
  let cands := Batched.flattenPages ps in
  let batches := chunks batchSize cands in
  let run := Batched.processPages W cfg slugify ps batchSize h in
  List.length batches = Batched.ceilDiv (List.length cands) batchSize
  /\ deliveriesOf (snd run)
     = intercalate [inr 1000] (map (map (writeOf cfg slugify)) batches)
  /\ sleepsOf (snd run)
     = repeat 1000 (Batched.ceilDiv (List.length cands) batchSize - 1)
  /\ List.length (postsOf (snd run)) = List.length cands
  /\ ((List.length cands <= batchSize)%nat -> sleepsOf (snd run) = []).
Proof.
  intros Hb V. cbn zeta.
  assert (L := chunks_length batchSize (Batched.flattenPages ps) Hb).
  unfold Batched.processPages. rewrite bind_log. cbn [fst snd].
  match goal with |- context [Batched.batchLoop _ _ _ ?f ?a _ 0 ?h1] =>
    destruct (Batched_batchLoop_spec W cfg slugify a batchSize Hb V f 0 h1
                ltac:(lia)) as (E & Wr & D & G) end.
  cbn zeta in *. cbn [skipn] in *.
  assert (S : sleepsOf (snd (Batched.batchLoop W cfg slugify
                               (List.length (Batched.flattenPages ps))
                               (Batched.flattenPages ps) batchSize 0
                               (h ++ [ConsoleLog (lit "Total pages to process: "
                                  ++ showNat (List.length (Batched.flattenPages ps)))])))
              = repeat 1000 (Batched.ceilDiv (List.length (Batched.flattenPages ps))
                                             batchSize - 1)).
  { rewrite sleepsOf_deliveries, D. unfold writeOf.
    rewrite (pausesIn_intercalate
               (fun page => documentUrl cfg (batchedDocId slugify page))), L.
    reflexivity. }
  split; [exact L|]. split; [autorewrite with obs; exact D|].
  change (ConsoleLog ?m :: ?t) with ([ConsoleLog m] ++ t).
  rewrite sleepsOf_app, postsOf_app. cbn [app].
  change (sleepsOf [ConsoleLog ?m]) with (@nil Z). cbn [app].
  change (postsOf [ConsoleLog ?m]) with (@nil (jsstring * Transport unit)).
  cbn [app]. split; [exact S|]. split.
  - rewrite <- (length_map fst), (written_urls _ _ _ _ _ Wr), length_map.
    reflexivity.
  - intros Hle. rewrite S.
    destruct (Batched.flattenPages ps) as [|x l] eqn:El.
    + rewrite ceilDiv_zero by exact Hb. reflexivity.
    + rewrite ceilDiv_step by (cbn [List.length]; lia).
      replace (List.length (x :: l) - batchSize)%nat with 0%nat by lia.
      rewrite ceilDiv_zero by exact Hb. reflexivity.
Qed.

(** Seven candidates in batches of three: three batches, two pauses. *)
Lemma Batched_pauses_between_batches_witness :
  (1 <= 3)%nat
  /\ (forall p, In p (Batched.flattenPages sevenPages) -> validDates p = true)
  /\ Batched.ceilDiv 7 3 = 3%nat
  /\ sleepsOf (snd (Batched.processPages (worldOk []) sampleConfig sampleSlugify
                      sevenPages 3 [])) = [1000; 1000].
Proof.
  assert (H : (1 <= 3)%nat) by lia.
  assert (V : forall p, In p (Batched.flattenPages sevenPages) -> validDates p = true).
  { intros p Hp. vm_compute in Hp.
    repeat (destruct Hp as [<-|Hp]; [vm_compute; reflexivity|]). destruct Hp. }
  split; [exact H|]. split; [exact V|]. split; [vm_compute; reflexivity|].
  rewrite (proj1 (proj2 (proj2 (Batched_pauses_between_batches (worldOk [])
             sampleConfig sampleSlugify sevenPages 3 [] H V)))).
  vm_compute. reflexivity.
Defined.

(* ================================================================== *)
(** * What a fetch returns *)

Lemma roundEvents_requests cfg docId attempt out :
  requestsOf (roundEvents cfg docId attempt out)
  = [(AllDocs.pagesUrl cfg docId, 1, out)]
  /\ writesOf (roundEvents cfg docId attempt out) = []
  /\ listingsOf (roundEvents cfg docId attempt out) = [].
Proof.
  unfold roundEvents.
  destruct (settle AllDocs.validateStatus out) as [[s body]|e].
  - destruct (truthy_data body); repeat split.
  - destruct (attempt <? AllDocs.maxRetries); repeat split.
Qed.

Lemma AllDocs_retryLoop_outcome W cfg docId h :
  let run := AllDocs.retryLoop W cfg 3 docId 1 None h in
  exists outs : list (Transport ResponseData),
    requestsOf (snd run) = map (fun out => (AllDocs.pagesUrl cfg docId, 1, out)) outs
    /\ (1 <= List.length outs <= 3)%nat
    /\ fst run = match roundResult (last outs NoResponse) with
                 | inl data => Ok data
                 | inr e => Throw e
                 end
    /\ (forall e, fst run = Throw e -> List.length outs = 3%nat)
    /\ sleepsOf (snd run) = firstn (List.length outs - 1) [2000; 4000]
    /\ writesOf (snd run) = []
    /\ listingsOf (snd run) = [].
Proof.
  cbn zeta. rewrite AllDocs_retryLoop_step. cbn zeta.
  set (o1 := roundAnswer W cfg docId 1 h).
  destruct (roundEvents_requests cfg docId 1 o1) as (Q1 & W1 & L1).
  assert (S1 := roundEvents_sleeps cfg docId 1 o1).
  destruct (roundResult o1) as [d1|e1] eqn:R1.
  { exists [o1]. cbn [fst snd map List.length last]. rewrite R1, S1.
    repeat split; try assumption; try lia. discriminate. }
  rewrite AllDocs_retryLoop_step. cbn zeta.
  set (h1 := h ++ roundEvents cfg docId 1 o1).
  set (o2 := roundAnswer W cfg docId (1 + 1) h1).
  destruct (roundEvents_requests cfg docId (1 + 1) o2) as (Q2 & W2 & L2).
  assert (S2 := roundEvents_sleeps cfg docId (1 + 1) o2).
  destruct (roundResult o2) as [d2|e2] eqn:R2.
  { exists [o1; o2]. cbn [fst snd map List.length last].
    rewrite requestsOf_app, sleepsOf_app, writesOf_app, listingsOf_app,
      Q1, Q2, W1, W2, L1, L2, S1, S2, R2.
    repeat split; try lia. discriminate. }
  rewrite AllDocs_retryLoop_step. cbn zeta.
  set (h2 := h1 ++ roundEvents cfg docId (1 + 1) o2).
  set (o3 := roundAnswer W cfg docId (1 + 1 + 1) h2).
  destruct (roundEvents_requests cfg docId (1 + 1 + 1) o3) as (Q3 & W3 & L3).
  assert (S3 := roundEvents_sleeps cfg docId (1 + 1 + 1) o3).
  exists [o1; o2; o3]. cbn [map List.length last].
  destruct (roundResult o3) as [d3|e3] eqn:R3; cbn [fst snd].
  - rewrite !requestsOf_app, !sleepsOf_app, !writesOf_app, !listingsOf_app,
      Q1, Q2, Q3, W1, W2, W3, L1, L2, L3, S1, S2, S3.
    repeat split; lia.
  - rewrite AllDocs_retryLoop_done. cbn [fst snd].
    rewrite !requestsOf_app, !sleepsOf_app, !writesOf_app, !listingsOf_app,
      Q1, Q2, Q3, W1, W2, W3, L1, L2, L3, S1, S2, S3.
    repeat split; lia.
Qed.

Lemma AllDocs_fetch_summary W cfg docId h :
  let run := AllDocs.getClickUpPagesWithRetry W cfg docId h in
  exists outs : list (Transport ResponseData),
    requestsOf (snd run) = map (fun out => (AllDocs.pagesUrl cfg docId, 1, out)) outs
    /\ (1 <= List.length outs <= 3)%nat
    /\ fst run = match roundResult (last outs NoResponse) with
                 | inl data => Ok data
                 | inr e => Throw e
                 end
    /\ (forall e, fst run = Throw e -> List.length outs = 3%nat)
    /\ sleepsOf (snd run) = firstn (List.length outs - 1) [2000; 4000]
    /\ writesOf (snd run) = []
    /\ listingsOf (snd run) = [].
Proof.
  cbn zeta. rewrite AllDocs_fetch_run. cbn [fst snd].
  destruct (AllDocs_retryLoop_outcome W cfg docId (h ++ [ConsoleLog (startLine docId)]))
    as (outs & H). cbn zeta in H.
  exists outs. autorewrite with obs.
  change (sleepsOf (ConsoleLog (startLine docId) :: ?t)) with (sleepsOf t).
  exact H.
Qed.

(** X8.  The fetch of the main script, whatever the source
    answers: it sends between one and three requests, all for the pages of
    the doc and all with [max_page_depth = 1]; what it returns is decided
    by the answer to the last request alone (the body of an answer with a
    status below 500, or the empty list for a falsy body; otherwise the
    error is raised); it raises only after the third request; it pauses for
    2000 ms after a first failed request and for 4000 ms after a second one,
    and not after the third; it writes nothing to the destination. *)
Theorem AllDocs_fetch_outcome (W : World) (cfg : Config) (docId : jsstring)
        (h : list Event) :
  let run := AllDocs.getClickUpPagesWithRetry W cfg docId h in
  exists outs : list (Transport ResponseData),
    requestsOf (snd run) = map (fun out => (AllDocs.pagesUrl cfg docId, 1, out)) outs
    /\ (1 <= List.length outs <= 3)%nat
    /\ fst run = match roundResult (last outs NoResponse) with
                 | inl data => Ok data
                 | inr e => Throw e
                 end
    /\ (forall e, fst run = Throw e -> List.length outs = 3%nat)
    /\ sleepsOf (snd run) = firstn (List.length outs - 1) [2000; 4000]
    /\ writesOf (snd run) = []
    /\ listingsOf (snd run) = [].
Proof. apply AllDocs_fetch_summary. Qed.

Lemma SingleDoc_get_pages_run W cfg docId depth h :
  SingleDoc.clickupApi_get_pages W cfg docId depth h =
  let out := clickupPages W h (SingleDoc.pagesUrl cfg docId) depth in
  match settle defaultValidateStatus out with
  | Ok (s, body) =>
    (Ok (s, body),
     [GetPages (SingleDoc.pagesUrl cfg docId) depth out;
      ConsoleLog (lit "[ClickUp API Interceptor]: Endpoint: "
                  ++ SingleDoc.pagesUrl cfg docId ++ lit ", Status: " ++ showZ s)])
  | Throw e =>
    (Throw e,
     GetPages (SingleDoc.pagesUrl cfg docId) depth out
     :: ConsoleError (lit "[ClickUp API Interceptor]: Error:") (ErrorObject e)
     :: (if response_status_is e 429
         then [ConsoleError (lit "[ClickUp API Interceptor]: Endpoint: "
                 ++ SingleDoc.pagesUrl cfg docId
                 ++ lit ", Rate limit exceeded. Please wait before making more requests.")
                 NoDetail]
         else []))
  end.
Proof.
  unfold SingleDoc.clickupApi_get_pages. unfold bind at 1. cbn beta zeta iota.
  set (out := clickupPages W h (SingleDoc.pagesUrl cfg docId) depth).
  destruct (settle defaultValidateStatus out) as [[s body]|e].
  - reflexivity.
  - cbn [SingleDoc.intercept]. unfold bind, console_error, emit, throw, ret.
    cbn [fst snd app].
    destruct (response_status_is e 429); reflexivity.
Qed.

Lemma SingleDoc_attemptOnce_run W cfg docId attempt h :
  let out := singleRoundAnswer W cfg docId attempt h in
  exists evs,
    SingleDoc.attemptOnce W cfg docId attempt h = (Ok (strictRound out), evs)
    /\ requestsOf evs = [(SingleDoc.pagesUrl cfg docId, 1, out)]
    /\ sleepsOf evs = match strictRound out with
                      | inl _ => []
                      | inr _ => if attempt <? SingleDoc.maxRetries
                                 then [SingleDoc.backoff attempt] else []
                      end
    /\ writesOf evs = []
    /\ listingsOf evs = [].
Proof.
  cbn zeta. unfold SingleDoc.attemptOnce. rewrite bind_log. cbn [fst snd].
  set (h1 := h ++ [ConsoleLog (SingleDoc.attemptTag attempt)]).
  set (out := singleRoundAnswer W cfg docId attempt h) in *.
  assert (Eh : out = clickupPages W (h1 ++ [ConsoleLog
                   (lit "[getClickUpPagesWithRetry] Making API request to ClickUp")])
                   (SingleDoc.pagesUrl cfg docId) 1).
  { unfold out, singleRoundAnswer, h1. rewrite <- app_assoc. reflexivity. }
  match goal with |- context [tryCatch ?m ?hd h1] =>
    assert (Em : exists evs,
               m h1 = (match strictRound out with
                       | inl data => Ok (inl data)
                       | inr e => Throw e
                       end, evs)
               /\ requestsOf evs = [(SingleDoc.pagesUrl cfg docId, 1, out)]
               /\ sleepsOf evs = [] /\ writesOf evs = [] /\ listingsOf evs = []) end.
  { rewrite bind_log. cbn [fst snd].
    pose proof (SingleDoc_get_pages_run W cfg docId 1
                  (h1 ++ [ConsoleLog
                    (lit "[getClickUpPagesWithRetry] Making API request to ClickUp")]))
      as Eg.
    cbn zeta in Eg. rewrite <- Eh in Eg. unfold strictRound.
    destruct (settle defaultValidateStatus out) as [[s body]|e].
    - rewrite (bind_ok _ _ _ _ _ Eg). cbn [fst snd].
      destruct (data_length body) as [len|e'].
      + rewrite (bind_ok (liftR _) _ _ len [] eq_refl). rewrite bind_log.
        cbn [fst snd ret app]. eexists. split; [reflexivity | repeat split].
      + rewrite (bind_throw (liftR _) _ _ e' [] eq_refl).
        cbn [app]. eexists. split; [reflexivity | repeat split].
    - rewrite (bind_throw _ _ _ _ _ Eg).
      eexists. split; [reflexivity|].
      destruct (response_status_is e 429); repeat split. }
  destruct Em as (evs & Em & Q & S & Wr & L).
  destruct (strictRound out) as [data|e].
  - rewrite (tryCatch_ok _ _ _ _ _ Em). cbn [fst snd].
    eexists. split; [reflexivity|]. autorewrite with obs.
    change (sleepsOf (ConsoleLog ?m :: ?t)) with (sleepsOf t).
    repeat split; assumption.
  - rewrite (tryCatch_throw _ _ _ _ _ Em). cbn [fst snd].
    unfold bind, console_error, console_log, emit, ret, sleep.
    destruct (attempt <? SingleDoc.maxRetries); cbn [fst snd app];
      eexists; (split; [reflexivity|]); autorewrite with obs;
      change (sleepsOf (ConsoleLog ?m :: ?t)) with (sleepsOf t);
      rewrite sleepsOf_app, Q, S, Wr, L; repeat split.
Qed.

Ltac split9 :=
  split; [|split; [|split; [|split; [|split; [|split; [|split; [|split]]]]]]].

Ltac round_done :=
  first [ reflexivity
        | lia
        | (intros; discriminate)
        | (cbn [removelast];
           repeat (constructor;
                   try (eexists; first [reflexivity | eassumption]))) ].

Lemma SingleDoc_fetch_summary W cfg docId h :
  let run := SingleDoc.getClickUpPagesWithRetry W cfg docId h in
  exists outs : list (Transport ResponseData),
    requestsOf (snd run)
    = map (fun out => (SingleDoc.pagesUrl cfg docId, 1, out)) outs
    /\ (1 <= List.length outs <= 3)%nat
    /\ fst run = match strictRound (last outs NoResponse) with
                 | inl data => Ok data
                 | inr e => Throw e
                 end
    /\ (forall e, fst run = Throw e -> List.length outs = 3%nat)
    /\ sleepsOf (snd run) = firstn (List.length outs - 1) [2000; 4000]
    /\ writesOf (snd run) = []
    /\ listingsOf (snd run) = []
    /\ Forall (fun o => exists h',
                   o = clickupPages W h' (SingleDoc.pagesUrl cfg docId) 1) outs
    /\ Forall (fun o => exists e, strictRound o = inr e) (removelast outs).
Proof.
  cbn zeta.
  unfold SingleDoc.getClickUpPagesWithRetry. rewrite bind_log. cbn [fst snd].
  set (h0 := h ++ [ConsoleLog _]).
  change (Z.to_nat SingleDoc.maxRetries) with 3%nat.
  autorewrite with obs.
  change (sleepsOf (ConsoleLog ?m :: ?t)) with (sleepsOf t).
  cbn [SingleDoc.retryLoop].
  destruct (SingleDoc_attemptOnce_run W cfg docId 1 h0)
    as (ev1 & A1 & Q1 & S1 & W1 & L1). cbn zeta in *.
  assert (O1 : exists h', singleRoundAnswer W cfg docId 1 h0
                          = clickupPages W h' (SingleDoc.pagesUrl cfg docId) 1)
    by (eexists; reflexivity).
  set (o1 := singleRoundAnswer W cfg docId 1 h0) in *.
  rewrite (bind_ok _ _ _ _ _ A1). cbn [fst snd].
  destruct (strictRound o1) as [d1|e1] eqn:R1.
  { exists [o1]. cbn [fst snd ret map List.length last]. rewrite app_nil_r, R1, Q1, S1, W1, L1.
    split9; round_done. }
  destruct (SingleDoc_attemptOnce_run W cfg docId (1 + 1) (h0 ++ ev1))
    as (ev2 & A2 & Q2 & S2 & W2 & L2). cbn zeta in *.
  assert (O2 : exists h', singleRoundAnswer W cfg docId (1 + 1) (h0 ++ ev1)
                          = clickupPages W h' (SingleDoc.pagesUrl cfg docId) 1)
    by (eexists; reflexivity).
  set (o2 := singleRoundAnswer W cfg docId (1 + 1) (h0 ++ ev1)) in *.
  rewrite (bind_ok _ _ _ _ _ A2). cbn [fst snd].
  destruct (strictRound o2) as [d2|e2] eqn:R2.
  { exists [o1; o2]. cbn [fst snd ret map List.length last].
    rewrite app_nil_r, R2.
    rewrite requestsOf_app, sleepsOf_app, writesOf_app, listingsOf_app,
      Q1, Q2, W1, W2, L1, L2, S1, S2.
    split9; round_done. }
  destruct (SingleDoc_attemptOnce_run W cfg docId (1 + 1 + 1) ((h0 ++ ev1) ++ ev2))
    as (ev3 & A3 & Q3 & S3 & W3 & L3). cbn zeta in *.
  assert (O3 : exists h', singleRoundAnswer W cfg docId (1 + 1 + 1) ((h0 ++ ev1) ++ ev2)
                          = clickupPages W h' (SingleDoc.pagesUrl cfg docId) 1)
    by (eexists; reflexivity).
  set (o3 := singleRoundAnswer W cfg docId (1 + 1 + 1) ((h0 ++ ev1) ++ ev2)) in *.
  rewrite (bind_ok _ _ _ _ _ A3). cbn [fst snd].
  exists [o1; o2; o3]. cbn [map List.length last].
  destruct (strictRound o3) as [d3|e3] eqn:R3; cbn [fst snd ret app].
  - rewrite app_nil_r.
    rewrite !requestsOf_app, !sleepsOf_app, !writesOf_app, !listingsOf_app,
      Q1, Q2, Q3, W1, W2, W3, L1, L2, L3, S1, S2, S3.
    split9; round_done.
  - unfold bind, console_error, emit, AllDocs.throwLast, throw. cbn [fst snd app].
    rewrite !requestsOf_app, !sleepsOf_app, !writesOf_app, !listingsOf_app,
      Q1, Q2, Q3, W1, W2, W3, L1, L2, L3, S1, S2, S3.
    split9; round_done.
Qed.

(** X9.  The fetch of the script for one doc, whatever the
    source answers: between one and three requests with
    [max_page_depth = 1]; a round ends the fetch when the answer has a
    status from 200 to 299 and a body whose [length] can be read, and that
    body is returned; every other answer, a 404 or a 429 included, and a
    2xx answer with the body [null] too, is a failed round, and only a
    failed round is followed by another request.  The result is decided by
    the last round; an error is raised only after the third round; the
    pauses are of 2000 ms and then 4000 ms. *)
Theorem SingleDoc_fetch_outcome (W : World) (cfg : Config) (docId : jsstring)
        (h : list Event) :
  let run := SingleDoc.getClickUpPagesWithRetry W cfg docId h in
  (exists outs : list (Transport ResponseData),
      requestsOf (snd run)
      = map (fun out => (SingleDoc.pagesUrl cfg docId, 1, out)) outs
      /\ (1 <= List.length outs <= 3)%nat
      /\ fst run = match strictRound (last outs NoResponse) with
                   | inl data => Ok data
                   | inr e => Throw e
                   end
      /\ (forall e, fst run = Throw e -> List.length outs = 3%nat)
      /\ sleepsOf (snd run) = firstn (List.length outs - 1) [2000; 4000]
      /\ writesOf (snd run) = []
      /\ listingsOf (snd run) = []
      /\ Forall (fun o => exists e, strictRound o = inr e) (removelast outs))
  /\ (forall status body,
         strictRound (Response status body)
         = if (200 <=? status) && (status <? 300)
           then match body with
                | DataNull => inr (TypeError
                    "Cannot read properties of null (reading 'length')")
                | _ => inl body
                end
           else inr (BadStatus status)).
Proof.
  cbn zeta. split.
  - destruct (SingleDoc_fetch_summary W cfg docId h)
      as (outs & Q & B & R & T & S & Wr & L & _ & F). cbn zeta in *.
    exists outs. tauto.
  - intros status body. unfold strictRound, defaultValidateStatus.
    cbn [settle]. destruct ((200 <=? status) && (status <? 300));
      [destruct body|]; reflexivity.
Qed.

Lemma Counting_getClickUpPages_run W cfg docId h :
  let out := clickupPages W h (Counting.pagesUrl cfg docId) (-1) in
  exists evs,
    Counting.getClickUpPages W cfg docId h
    = (match strictRound out with inl data => Ok data | inr e => Throw e end, evs)
    /\ requestsOf evs = [(Counting.pagesUrl cfg docId, -1, out)]
    /\ errorsOf evs = match strictRound out with
                      | inl _ => []
                      | inr e => [(lit "Error fetching ClickUp pages:", e)]
                      end
    /\ sleepsOf evs = [] /\ writesOf evs = [] /\ listingsOf evs = [].
Proof.
  cbn zeta. unfold Counting.getClickUpPages.
  pose proof (Counting_limitedClickupGet_run W cfg docId (-1) h) as Eg.
  cbn zeta in Eg.
  set (out := clickupPages W h (Counting.pagesUrl cfg docId) (-1)) in *.
  unfold strictRound.
  destruct (settle defaultValidateStatus out) as [[s body]|e].
  - destruct (data_length body) as [len|e'] eqn:El.
    + match goal with |- context [tryCatch ?m _ h] =>
        assert (Em : m h = (Ok body,
          [GetPages (Counting.pagesUrl cfg docId) (-1) out;
           ConsoleLog (lit "Endpoint: " ++ Counting.pagesUrl cfg docId
                       ++ lit ", Status: " ++ showZ s);
           ConsoleLog (lit "Retrieved " ++ showLength len
                       ++ lit " pages from ClickUp")])) end.
      { rewrite (bind_ok _ _ _ _ _ Eg). cbn [fst snd]. rewrite El.
        rewrite (bind_ok (liftR _) _ _ len [] eq_refl). rewrite bind_log.
        reflexivity. }
      rewrite (tryCatch_ok _ _ _ _ _ Em). eexists. split; [reflexivity|].
      repeat split.
    + match goal with |- context [tryCatch ?m _ h] =>
        assert (Em : m h = (Throw e',
          [GetPages (Counting.pagesUrl cfg docId) (-1) out;
           ConsoleLog (lit "Endpoint: " ++ Counting.pagesUrl cfg docId
                       ++ lit ", Status: " ++ showZ s)])) end.
      { rewrite (bind_ok _ _ _ _ _ Eg). cbn [fst snd]. rewrite El.
        rewrite (bind_throw (liftR _) _ _ e' [] eq_refl). reflexivity. }
      rewrite (tryCatch_throw _ _ _ _ _ Em). eexists. split; [reflexivity|].
      repeat split.
  - match goal with |- context [tryCatch ?m _ h] =>
      assert (Em : m h = (Throw e,
        GetPages (Counting.pagesUrl cfg docId) (-1) out
        :: (if response_status_is e 429
            then [ConsoleError (lit "Endpoint: " ++ Counting.pagesUrl cfg docId
                    ++ lit ", Rate limit exceeded. Please wait before making more requests.")
                    NoDetail]
            else []))) end.
    { rewrite (bind_throw _ _ _ _ _ Eg). reflexivity. }
    rewrite (tryCatch_throw _ _ _ _ _ Em). eexists. split; [reflexivity|].
    destruct (response_status_is e 429); repeat split.
Qed.

(** X10.  The fetch of the script that counts, whatever the source
    answers: exactly one request per call, for the pages of the doc at
    every depth ([max_page_depth = -1]), and no retry and no pause.  The
    body of an answer with a status from 200 to 299 is returned; any other
    answer, and a body [null], makes the call log the error once under
    [Error fetching ClickUp pages:] and raise it again. *)
Theorem Counting_fetch_is_one_request (W : World) (cfg : Config)
        (docId : jsstring) (h : list Event) :
  let out := clickupPages W h (Counting.pagesUrl cfg docId) (-1) in
  let run := Counting.getClickUpPages W cfg docId h in
  requestsOf (snd run) = [(Counting.pagesUrl cfg docId, -1, out)]
  /\ fst run = match strictRound out with
               | inl data => Ok data
               | inr e => Throw e
               end
  /\ errorsOf (snd run) = match strictRound out with
                          | inl _ => []
                          | inr e => [(lit "Error fetching ClickUp pages:", e)]
                          end
  /\ sleepsOf (snd run) = []
  /\ writesOf (snd run) = []
  /\ listingsOf (snd run) = [].
Proof.
  cbn zeta.
  destruct (Counting_getClickUpPages_run W cfg docId h) as (evs & E & H).
  cbn zeta in *. rewrite E. cbn [fst snd]. tauto.
Qed.

(* ================================================================== *)
(** * The script that counts, from the listing to the total *)

Lemma forCount_cons {X} (body : X -> nat -> M nat) (x : X) (r : list X)
      (c : nat) (h : list Event) :
  Counting.forCount body (x :: r) c h =
  match body x c h with
  | (Ok c', t) => (fst (Counting.forCount body r c' (h ++ t)),
                   t ++ snd (Counting.forCount body r c' (h ++ t)))
  | (Throw e, t) => (Throw e, t)
  end.
Proof.
  cbn [Counting.forCount]. unfold bind.
  destruct (body x c h) as [[c'|e] t]; [|reflexivity].
  destruct (Counting.forCount body r c' (h ++ t)). reflexivity.
Qed.

Lemma forCount_one {X} (body : X -> nat -> M nat) (x : X) (c : nat)
      (h : list Event) :
  Counting.forCount body [x] c h = body x c h.
Proof.
  rewrite forCount_cons. destruct (body x c h) as [[c'|e] t]; [|reflexivity].
  cbn. rewrite app_nil_r. reflexivity.
Qed.

Lemma Counting_docLoop_cons W cfg slugify (d : jsstring) (r : list jsstring)
      (total : nat) (h : list Event) :
  Counting.docLoop W cfg slugify (d :: r) total h =
  let one := Counting.docLoop W cfg slugify [d] total h in
  match fst one with
  | Ok c => let rest := Counting.docLoop W cfg slugify r c (h ++ snd one) in
            (fst rest, snd one ++ snd rest)
  | Throw e => (Throw e, snd one)
  end.
Proof.
  unfold Counting.docLoop. rewrite forCount_cons, forCount_one. cbn zeta.
  match goal with |- context [tryCatch ?m ?hd h] =>
    destruct (tryCatch m hd h) as [[c|e] t] end; reflexivity.
Qed.

Lemma Counting_processPagesData_pages W cfg slugify (ps : list ClickUpPage)
      (h : list Event) :
  Counting.processPagesData W cfg slugify (DataPages ps) h
  = Counting.processPages W cfg slugify ps 0 h.
Proof.
  unfold Counting.processPagesData. cbn [iterate].
  rewrite (bind_ok (liftR _) _ _ ps [] eq_refl). rewrite app_nil_r.
  destruct (Counting.processPages W cfg slugify ps 0 h). reflexivity.
Qed.

Lemma Counting_processPagesData_bound W cfg slugify (d : ResponseData)
      (h : list Event) :
  let run := Counting.processPagesData W cfg slugify d h in
  (forall n, fst run = Ok n -> n = List.length (postsOf (snd run)))
  /\ requestsOf (snd run) = []
  /\ listingsOf (snd run) = [].
Proof.
  cbn zeta. destruct d as [| |ps|raw].
  - repeat split. discriminate.
  - repeat split. cbn. intros n [= <-]. reflexivity.
  - rewrite Counting_processPagesData_pages.
    destruct (Counting_processPages_inOrder W cfg slugify ps 0 h)
      as (E & Wr & R & L & _).
    split; [|split; assumption].
    intros n Hn. rewrite length_posts_writes, Wr, length_map. rewrite E in Hn.
    destruct (forallb validDates (Batched.flattenPages ps)) eqn:V;
      [|discriminate Hn].
    rewrite (takeWhile_all _ _ V). congruence.
  - repeat split. discriminate.
Qed.

Lemma Counting_doc_run W cfg slugify (docId : jsstring) (total : nat)
      (h : list Event) :
  let one := Counting.docLoop W cfg slugify [docId] total h in
  let out := clickupPages W
               (h ++ [ConsoleLog (lit "Processing document " ++ docId ++ lit "...")])
               (Counting.pagesUrl cfg docId) (-1) in
  (exists n, fst one = Ok n
             /\ (total <= n <= total + List.length (postsOf (snd one)))%nat)
  /\ requestsOf (snd one) = [(Counting.pagesUrl cfg docId, -1, out)]
  /\ listingsOf (snd one) = []
  /\ (forall tree,
         strictRound out = inl (DataPages tree) ->
         forallb validDates (Batched.flattenPages tree) = true ->
         fst one = Ok (total + List.length (Batched.flattenPages tree))%nat
         /\ writesOf (snd one)
            = map (writeByPage cfg slugify) (Batched.flattenPages tree)).
Proof.
  cbn zeta. unfold Counting.docLoop. rewrite forCount_one.
  set (h1 := h ++ [ConsoleLog (lit "Processing document " ++ docId ++ lit "...")]).
  destruct (Counting_getClickUpPages_run W cfg docId h1)
    as (evs & Eg & Q & _ & _ & Wg & Lg). cbn zeta in Eg.
  set (out := clickupPages W h1 (Counting.pagesUrl cfg docId) (-1)) in *.
  destruct (strictRound out) as [data|e] eqn:R.
  - destruct (Counting_processPagesData_bound W cfg slugify data (h1 ++ evs))
      as (Bn & Rd & Ld). cbn zeta in *.
    destruct (Counting.processPagesData W cfg slugify data (h1 ++ evs))
      as [[n|e] t2] eqn:Ed; cbn [fst snd] in *.
    + match goal with |- context [tryCatch ?m _ h] =>
        assert (Em : m h = (Ok (total + n)%nat,
          ConsoleLog (lit "Processing document " ++ docId ++ lit "...")
          :: evs ++ t2
             ++ [ConsoleLog (lit "Document " ++ docId
                             ++ lit " processed successfully.")])) end.
      { rewrite bind_log. cbn [fst snd]. fold h1.
        rewrite (bind_ok _ _ _ _ _ Eg). cbn [fst snd].
        rewrite (bind_ok _ _ _ _ _ Ed). cbn [fst snd].
        rewrite bind_log. reflexivity. }
      rewrite (tryCatch_ok _ _ _ _ _ Em). cbn [fst snd].
      autorewrite with obs. rewrite Q, Rd, Lg, Ld.
      change (postsOf (ConsoleLog ?m :: ?t)) with (postsOf t).
      rewrite !postsOf_app, !length_app, (length_posts_writes evs), Wg.
      split; [|split; [reflexivity | split; [reflexivity|]]].
      * exists (total + n)%nat. split; [reflexivity|].
        rewrite <- (Bn n eq_refl). cbn. lia.
      * intros tree [= ->] V. rewrite Counting_processPagesData_pages in Ed.
        destruct (Counting_processPages_inOrder W cfg slugify tree 0 (h1 ++ evs))
          as (E & Wr & _). rewrite Ed, V in *. cbn [fst snd] in *.
        injection E as ->. split; [reflexivity|].
        rewrite Wr, (takeWhile_all _ _ V). cbn [app].
        change (writesOf []) with (@nil (jsstring * jsstring * jsstring)).
        rewrite app_nil_r. apply map_ext_in. intros p Hp.
        unfold writeByPage. rewrite (rawText_documentText p); [reflexivity|].
        apply (candidate_hasContent tree). exact Hp.
    + match goal with |- context [tryCatch ?m _ h] =>
        assert (Em : m h = (Throw e,
          ConsoleLog (lit "Processing document " ++ docId ++ lit "...")
          :: evs ++ t2)) end.
      { rewrite bind_log. cbn [fst snd]. fold h1.
        rewrite (bind_ok _ _ _ _ _ Eg). cbn [fst snd].
        rewrite (bind_throw _ _ _ _ _ Ed). reflexivity. }
      rewrite (tryCatch_throw _ _ _ _ _ Em). cbn [fst snd].
      autorewrite with obs. rewrite Q, Rd, Lg, Ld.
      split; [|split; [reflexivity | split; [reflexivity|]]].
      * exists total. split; [reflexivity | lia].
      * intros tree [= ->] V. rewrite Counting_processPagesData_pages in Ed.
        destruct (Counting_processPages_inOrder W cfg slugify tree 0 (h1 ++ evs))
          as (E & _). rewrite Ed, V in E. discriminate E.
  - match goal with |- context [tryCatch ?m _ h] =>
      assert (Em : m h = (Throw e,
        ConsoleLog (lit "Processing document " ++ docId ++ lit "...") :: evs)) end.
    { rewrite bind_log. cbn [fst snd]. fold h1.
      rewrite (bind_throw _ _ _ _ _ Eg). reflexivity. }
    rewrite (tryCatch_throw _ _ _ _ _ Em). cbn [fst snd].
    autorewrite with obs. rewrite Q, Lg.
    split; [|split; [reflexivity | split; [reflexivity|]]].
    + exists total. split; [reflexivity | lia].
    + intros tree Ht. discriminate Ht.
Qed.

Lemma Counting_docLoop_total W cfg slugify (docIds : list jsstring) :
  forall total h,
    let run := Counting.docLoop W cfg slugify docIds total h in
    (exists n, fst run = Ok n
               /\ (total <= n <= total + List.length (postsOf (snd run)))%nat)
    /\ map (fun r => (fst (fst r), snd (fst r))) (requestsOf (snd run))
       = map (fun d => (Counting.pagesUrl cfg d, -1)) docIds
    /\ listingsOf (snd run) = [].
Proof.
  induction docIds as [|d r IH]; intros total h; cbn zeta.
  - split; [exists total; split; [reflexivity | cbn; lia]|]. split; reflexivity.
  - rewrite Counting_docLoop_cons. cbn zeta.
    destruct (Counting_doc_run W cfg slugify d total h)
      as ((n1 & E1 & B1) & Q1 & L1 & _). cbn zeta in *.
    rewrite E1.
    destruct (IH n1 (h ++ snd (Counting.docLoop W cfg slugify [d] total h)))
      as ((n2 & E2 & B2) & Q2 & L2). cbn zeta in *.
    cbn [fst snd]. rewrite requestsOf_app, listingsOf_app, postsOf_app, length_app,
      map_app, Q1, Q2, L1, L2.
    split; [exists n2; split; [exact E2 | lia]|]. split; reflexivity.
Qed.

Lemma Counting_docLoop_happy W cfg slugify (tree : jsstring -> list ClickUpPage)
      (docIds : list jsstring) :
  (forall d h', In d docIds ->
      strictRound (clickupPages W h' (Counting.pagesUrl cfg d) (-1))
      = inl (DataPages (tree d))) ->
  (forall d, In d docIds ->
      forallb validDates (Batched.flattenPages (tree d)) = true) ->
  forall total h,
    let run := Counting.docLoop W cfg slugify docIds total h in
    let cands := flat_map (fun d => Batched.flattenPages (tree d)) docIds in
    fst run = Ok (total + List.length cands)%nat
    /\ writesOf (snd run) = map (writeByPage cfg slugify) cands.
Proof.
  induction docIds as [|d r IH]; intros Hs Hv total h; cbn zeta.
  - split; [cbn; f_equal; lia | reflexivity].
  - rewrite Counting_docLoop_cons. cbn zeta.
    destruct (Counting_doc_run W cfg slugify d total h) as (_ & _ & _ & Happy).
    cbn zeta in Happy.
    destruct (Happy (tree d) (Hs d _ (or_introl eq_refl)) (Hv d (or_introl eq_refl)))
      as (E1 & W1).
    rewrite E1.
    destruct (IH (fun d' h' Hd => Hs d' h' (or_intror Hd))
                 (fun d' Hd => Hv d' (or_intror Hd))
                 (total + List.length (Batched.flattenPages (tree d)))%nat
                 (h ++ snd (Counting.docLoop W cfg slugify [d] total h)))
      as (E2 & W2). cbn zeta in *.
    cbn [fst snd flat_map]. rewrite writesOf_app, W1, W2, map_app, length_app.
    split; [rewrite E2; f_equal; lia | reflexivity].
Qed.

Lemma Counting_getAllDocs_run W cfg (h : list Event) :
  let out := clickupDocs W h (Counting.docsUrl cfg) in
  let listing := listingOf defaultValidateStatus
                   "Cannot read properties of undefined (reading 'map')" out in
  exists evs,
    Counting.getAllDocs W cfg h
    = (match listing with Ok docs => Ok (map doc_ident docs) | Throw e => Throw e end,
       evs)
    /\ listingsOf evs = [(Counting.docsUrl cfg, out)]
    /\ errorsOf evs = match listing with
                      | Ok _ => []
                      | Throw e => [(lit "Error fetching docs:", e)]
                      end
    /\ requestsOf evs = [] /\ writesOf evs = [] /\ sleepsOf evs = []
    /\ postsOf evs = [].
Proof.
  cbn zeta. unfold Counting.getAllDocs, Counting.clickupApi_get_docs, listingOf.
  unfold tryCatch, bind. cbn beta zeta iota.
  set (out := clickupDocs W h (Counting.docsUrl cfg)).
  destruct (settle defaultValidateStatus out) as [[s [docs|]]|e];
    cbn [Counting.intercept].
  - cbn. eexists. split; [reflexivity | repeat split].
  - cbn. eexists. split; [reflexivity | repeat split].
  - unfold bind, console_error, emit, throw, ret. cbn [fst snd app].
    destruct (response_status_is e 429); cbn;
      eexists; (split; [reflexivity | repeat split]).
Qed.

(** X11.  The script that counts, from its first request to its
    last line, whatever the services answer.  [main] never raises.  It asks
    for the list of the docs once.  When the list cannot be read, it asks
    for no pages and writes nothing, and the error is logged twice (by
    [getAllDocs], then by [main]).  Otherwise it asks for the pages of
    every doc of the list, once each, in order and at every depth, and its
    last line is [All documents processed successfully. Total pages
    upserted: n], where [n] is at most the number of write requests of the
    run: the writes of a doc count (failed ones included) when the work on
    the doc ends normally, and not at all when it ends in an exception.
    When every doc can be fetched and every candidate has valid dates, [n]
    is the number of candidates of all docs, and each of them is written
    once, in order. *)
Theorem Counting_main_reports_total (W : World) (cfg : Config)
        (slugify : jsstring -> SlugifyOptions -> jsstring) (h : list Event) :
  let out := clickupDocs W h (Counting.docsUrl cfg) in
  let listing := listingOf defaultValidateStatus
                   "Cannot read properties of undefined (reading 'map')" out in
  let run := Counting.main W cfg slugify h in
  fst run = Ok tt
  /\ listingsOf (snd run) = [(Counting.docsUrl cfg, out)]
  /\ match listing with
     | Ok docs =>
       map (fun r => (fst (fst r), snd (fst r))) (requestsOf (snd run))
       = map (fun d => (Counting.pagesUrl cfg (doc_ident d), -1)) docs
       /\ (exists n,
              last (snd run) (ConsoleLog []) = ConsoleLog (Counting.totalLine n)
              /\ (n <= List.length (postsOf (snd run)))%nat)
       /\ (forall tree : jsstring -> list ClickUpPage,
              (forall d h', In d docs ->
                  strictRound (clickupPages W h'
                                 (Counting.pagesUrl cfg (doc_ident d)) (-1))
                  = inl (DataPages (tree (doc_ident d)))) ->
              (forall d, In d docs ->
                  forallb validDates (Batched.flattenPages (tree (doc_ident d)))
                  = true) ->
              let cands := flat_map (fun d => Batched.flattenPages (tree (doc_ident d)))
                                    docs in
              last (snd run) (ConsoleLog [])
              = ConsoleLog (Counting.totalLine (List.length cands))
              /\ writesOf (snd run) = map (writeByPage cfg slugify) cands)
     | Throw e =>
       requestsOf (snd run) = []
       /\ writesOf (snd run) = []
       /\ errorsOf (snd run)
          = [(lit "Error fetching docs:", e); (lit "An error occurred:", e)]
     end.
Proof.
  cbn zeta. split; [apply Counting_main_never_throws|].
  unfold Counting.main.
  destruct (Counting_getAllDocs_run W cfg h)
    as (evs & Eg & Lg & Errs & Rg & Wg & _ & Pg). cbn zeta in *.
  set (out := clickupDocs W h (Counting.docsUrl cfg)) in *.
  destruct (listingOf defaultValidateStatus _ out) as [docs|e].
  - set (h1 := (h ++ evs) ++ [ConsoleLog (lit "Found "
                 ++ showNat (List.length (map doc_ident docs))
                 ++ lit " documents in workspace")]).
    destruct (Counting_docLoop_total W cfg slugify (map doc_ident docs) 0%nat h1)
      as ((n & El & Bl) & Ql & Ll). cbn zeta in *.
    destruct (Counting.docLoop W cfg slugify (map doc_ident docs) 0 h1)
      as [r t] eqn:Ed. cbn [fst snd] in *. subst r.
    match goal with |- context [tryCatch ?m _ h] =>
      assert (Em : m h = (Ok tt,
        evs ++ ConsoleLog (lit "Found "
                 ++ showNat (List.length (map doc_ident docs))
                 ++ lit " documents in workspace")
        :: t ++ [ConsoleLog (Counting.totalLine n)])) end.
    { rewrite (bind_ok _ _ _ _ _ Eg). cbn [fst snd]. rewrite bind_log.
      cbn [fst snd]. fold h1. rewrite (bind_ok _ _ _ _ _ Ed). reflexivity. }
    rewrite (tryCatch_ok _ _ _ _ _ Em). cbn [fst snd].
    assert (Last : forall x,
               last (evs ++ ConsoleLog x :: t ++ [ConsoleLog (Counting.totalLine n)])
                    (ConsoleLog [])
               = ConsoleLog (Counting.totalLine n)).
    { intros x.
      change (ConsoleLog x :: t ++ [ConsoleLog (Counting.totalLine n)])
        with ((ConsoleLog x :: t) ++ [ConsoleLog (Counting.totalLine n)]).
      rewrite app_assoc. apply last_last. }
    autorewrite with obs. rewrite Lg, Ll, Rg, Wg. cbn [app].
    rewrite app_nil_r.
    split; [reflexivity|]. split; [rewrite Ql, map_map; reflexivity|]. split.
    + exists n. split; [apply Last|].
      rewrite postsOf_app, Pg. cbn [app].
      change (postsOf (ConsoleLog ?m :: ?x)) with (postsOf x).
      rewrite postsOf_app, length_app. lia.
    + intros tree Hs Hv. cbn zeta.
      destruct (Counting_docLoop_happy W cfg slugify tree (map doc_ident docs))
        with (total := 0%nat) (h := h1) as (E2 & W2).
      { intros d h' Hd. apply in_map_iff in Hd as (d0 & <- & Hd0).
        apply Hs. exact Hd0. }
      { intros d Hd. apply in_map_iff in Hd as (d0 & <- & Hd0).
        apply Hv. exact Hd0. }
      cbn zeta in *. rewrite Ed in E2, W2. cbn [fst snd] in E2, W2.
      rewrite flat_map_concat_map, map_map, <- flat_map_concat_map in E2, W2.
      injection E2 as ->. split; [apply Last|].
      rewrite W2. apply app_nil_r.
  - match goal with |- context [tryCatch ?m _ h] =>
      assert (Em : m h = (Throw e, evs)) end.
    { rewrite (bind_throw _ _ _ _ _ Eg). reflexivity. }
    rewrite (tryCatch_throw _ _ _ _ _ Em). cbn [fst snd].
    autorewrite with obs. rewrite errorsOf_app, Lg, Rg, Wg, Errs.
    repeat split.
Qed.

(** Two docs with the sample tree each: six candidates, six writes. *)
Lemma Counting_main_reports_total_witness :
  (forall d h', In d sampleDocs ->
      strictRound (clickupPages (worldOk sampleTree) h'
                     (Counting.pagesUrl sampleConfig (doc_ident d)) (-1))
      = inl (DataPages sampleTree))
  /\ (forall d : Doc, In d sampleDocs ->
         forallb validDates (Batched.flattenPages sampleTree) = true)
  /\ last (snd (Counting.main (worldOk sampleTree) sampleConfig sampleSlugify []))
          (ConsoleLog [])
     = ConsoleLog (Counting.totalLine 6)
  /\ List.length (writesOf (snd (Counting.main (worldOk sampleTree) sampleConfig
                                   sampleSlugify []))) = 6%nat.
Proof.
  assert (H1 : forall d h', In d sampleDocs ->
             strictRound (clickupPages (worldOk sampleTree) h'
                            (Counting.pagesUrl sampleConfig (doc_ident d)) (-1))
             = inl (DataPages sampleTree)) by (intros; reflexivity).
  assert (H2 : forall d : Doc, In d sampleDocs ->
             forallb validDates (Batched.flattenPages sampleTree) = true)
    by (intros; vm_compute; reflexivity).
  split; [exact H1|]. split; [exact H2|].
  pose proof (Counting_main_reports_total (worldOk sampleTree) sampleConfig
                sampleSlugify []) as M.
  cbn zeta in M. destruct M as (_ & _ & M).
  change (listingOf defaultValidateStatus
            "Cannot read properties of undefined (reading 'map')"
            (clickupDocs (worldOk sampleTree) [] (Counting.docsUrl sampleConfig)))
    with (Ok sampleDocs) in M.
  destruct M as (_ & _ & Happy).
  destruct (Happy (fun _ => sampleTree) H1 H2) as (L & Wr).
  split; [rewrite L; vm_compute; reflexivity|].
  rewrite Wr. vm_compute. reflexivity.
Defined.

(* ================================================================== *)
(** * The main script, from the listing to its last line *)



Lemma roundResult_has_length (out : Transport ResponseData) (d : ResponseData) :
  roundResult out = inl d -> exists len, data_length d = Ok len.
Proof.
  unfold roundResult.
  destruct (settle AllDocs.validateStatus out) as [[s body]|e]; [|discriminate].
  intros [= <-]. destruct body; cbn; eexists; reflexivity.
Qed.

Lemma AllDocs_fetch_has_length W cfg docId h (d : ResponseData) :
  fst (AllDocs.getClickUpPagesWithRetry W cfg docId h) = Ok d ->
  exists len, data_length d = Ok len.
Proof.
  intros E. rewrite AllDocs_fetch_run in E. cbn [fst] in E.
  destruct (AllDocs_retryLoop_outcome W cfg docId (h ++ [ConsoleLog (startLine docId)]))
    as (outs & _ & _ & R & _). cbn zeta in R. rewrite E in R.
  destruct (roundResult (last outs NoResponse)) as [d'|e] eqn:Rr; [|discriminate R].
  injection R as ->. apply (roundResult_has_length _ _ Rr).
Qed.

Lemma AllDocs_getClickUpPages_run W cfg docId h :
  let fetch := AllDocs.getClickUpPagesWithRetry W cfg docId
                 (h ++ [ConsoleLog (lit "[getClickUpPages] Fetching pages for docId: "
                                    ++ docId)]) in
  exists last_event,
    AllDocs.getClickUpPages W cfg docId h
    = (fst fetch,
       ConsoleLog (lit "[getClickUpPages] Fetching pages for docId: " ++ docId)
       :: snd fetch ++ [last_event])
    /\ match fst fetch with
       | Ok _ => exists m, last_event = ConsoleLog m
       | Throw e => last_event
                    = ConsoleError (lit "[getClickUpPages] Error fetching ClickUp pages:")
                                   (ErrorObject e)
       end.
Proof.
  cbn zeta. unfold AllDocs.getClickUpPages. rewrite bind_log. cbn [fst snd].
  set (h1 := h ++ [ConsoleLog _]).
  destruct (AllDocs.getClickUpPagesWithRetry W cfg docId h1) as [[d|e] t] eqn:Ef;
    cbn [fst snd].
  - destruct (AllDocs_fetch_has_length W cfg docId h1 d) as [len El].
    { rewrite Ef. reflexivity. }
    match goal with |- context [tryCatch ?m _ h1] =>
      assert (Em : m h1 = (Ok d, t ++ [ConsoleLog (lit "[getClickUpPages] Retrieved "
                                      ++ showLength len ++ lit " pages")])) end.
    { rewrite (bind_ok _ _ _ _ _ Ef). cbn [fst snd]. rewrite El.
      rewrite (bind_ok (liftR _) _ _ len [] eq_refl). rewrite bind_log.
      reflexivity. }
    rewrite (tryCatch_ok _ _ _ _ _ Em). cbn [fst snd].
    eexists. split; [reflexivity|]. eexists. reflexivity.
  - match goal with |- context [tryCatch ?m _ h1] =>
      assert (Em : m h1 = (Throw e, t)) end.
    { rewrite (bind_throw _ _ _ _ _ Ef). reflexivity. }
    rewrite (tryCatch_throw _ _ _ _ _ Em). cbn [fst snd].
    eexists. split; reflexivity.
Qed.

(** X12.  [getClickUpPages] of the main script adds nothing to the
    fetch but two log lines: it returns what the fetch returns and raises
    what the fetch raises, after logging the error once; it sends no request
    of its own.  What it returns is never [null] nor an empty body, so
    reading its [length] cannot fail. *)
Theorem AllDocs_getClickUpPages_wraps_fetch (W : World) (cfg : Config)
        (docId : jsstring) (h : list Event) :
  let fetch := AllDocs.getClickUpPagesWithRetry W cfg docId
                 (h ++ [ConsoleLog (lit "[getClickUpPages] Fetching pages for docId: "
                                    ++ docId)]) in
  let run := AllDocs.getClickUpPages W cfg docId h in
  fst run = fst fetch
  /\ requestsOf (snd run) = requestsOf (snd fetch)
  /\ sleepsOf (snd run) = sleepsOf (snd fetch)
  /\ writesOf (snd run) = []
  /\ (forall d, fst run = Ok d -> truthy_data d = true)
  /\ (forall e, fst run = Throw e ->
                last (snd run) (ConsoleLog [])
                = ConsoleError (lit "[getClickUpPages] Error fetching ClickUp pages:")
                               (ErrorObject e)).
Proof.
  cbn zeta.
  destruct (AllDocs_getClickUpPages_run W cfg docId h) as (ev & E & Hev).
  cbn zeta in *. rewrite E. cbn [fst snd].
  set (h1 := h ++ [ConsoleLog _]) in *.
  destruct (AllDocs_fetch_summary W cfg docId h1) as (outs & _ & _ & R & _ & _ & Wf & _).
  cbn zeta in R, Wf.
  assert (Hobs : requestsOf [ev] = [] /\ sleepsOf [ev] = [] /\ writesOf [ev] = []).
  { destruct (fst (AllDocs.getClickUpPagesWithRetry W cfg docId h1));
      [destruct Hev as [m ->] | subst ev]; repeat split. }
  destruct Hobs as (O1 & O2 & O3).
  split; [reflexivity|]. autorewrite with obs.
  change (sleepsOf (ConsoleLog ?m :: ?t)) with (sleepsOf t).
  rewrite sleepsOf_app, O1, O2, O3, Wf, !app_nil_r.
  split; [reflexivity|]. split; [reflexivity|]. split; [reflexivity|]. split.
  - intros d Hd. rewrite Hd in R.
    unfold roundResult in R.
    destruct (settle AllDocs.validateStatus (last outs NoResponse)) as [[s body]|e];
      [|discriminate R].
    injection R as ->. destruct (truthy_data body) eqn:T; [exact T | reflexivity].
  - intros e He. rewrite He in Hev. subst ev.
    change (ConsoleLog ?m :: ?t ++ [?x]) with ((ConsoleLog m :: t) ++ [x]).
    apply last_last.
Qed.

Lemma AllDocs_getAllDocs_run W cfg (h : list Event) :
  let h1 := h ++ [ConsoleLog (lit "[getAllDocs] Fetching all docs from workspace")] in
  let out := clickupDocs W h1 (AllDocs.docsUrl cfg) in
  let listing := listingOf AllDocs.validateStatus
                   "Cannot read properties of undefined (reading 'length')" out in
  exists evs,
    AllDocs.getAllDocs W cfg h = (listing, evs)
    /\ listingsOf evs = [(AllDocs.docsUrl cfg, out)]
    /\ match listing with
       | Ok _ => errorsOf evs = []
       | Throw e => exists pre,
                    errorsOf evs
                    = pre ++ [(lit "[getAllDocs] Error fetching docs:", e)]
       end
    /\ requestsOf evs = [] /\ writesOf evs = [] /\ sleepsOf evs = [].
Proof.
  cbn zeta. unfold AllDocs.getAllDocs. rewrite bind_log. cbn [fst snd].
  set (h1 := h ++ [ConsoleLog _]).
  unfold AllDocs.clickupApi_get_docs, listingOf.
  unfold tryCatch, bind. cbn beta zeta iota.
  set (out := clickupDocs W h1 (AllDocs.docsUrl cfg)).
  destruct (settle AllDocs.validateStatus out) as [[s [docs|]]|e] eqn:Es;
    cbn [AllDocs.intercept].
  - cbn. eexists. split; [reflexivity | repeat split].
  - cbn. eexists. split; [reflexivity|]. repeat split. exists []. reflexivity.
  - destruct (AllDocs_settle_throw out e Es) as (_ & _ & E429).
    unfold bind, console_error, emit, throw, ret. cbn [fst snd app].
    rewrite E429. cbn.
    eexists. split; [reflexivity|]. repeat split.
    exists [(lit "[ClickUp API Interceptor]: Error:", e)]. reflexivity.
Qed.

Lemma sleepsOf_log (m : jsstring) (t : list Event) :
  sleepsOf (ConsoleLog m :: t) = sleepsOf t.
Proof. reflexivity. Qed.

Lemma sleepsOf_nil : sleepsOf [] = [].
Proof. reflexivity. Qed.

Lemma sleepsOf_error (m : jsstring) (d : Detail) (t : list Event) :
  sleepsOf (ConsoleError m d :: t) = sleepsOf t.
Proof. reflexivity. Qed.

Lemma writesOf_error (m : jsstring) (d : Detail) (t : list Event) :
  writesOf (ConsoleError m d :: t) = writesOf t.
Proof. reflexivity. Qed.

Lemma requestsOf_error (m : jsstring) (d : Detail) (t : list Event) :
  requestsOf (ConsoleError m d :: t) = requestsOf t.
Proof. reflexivity. Qed.

Lemma listingsOf_error (m : jsstring) (d : Detail) (t : list Event) :
  listingsOf (ConsoleError m d :: t) = listingsOf t.
Proof. reflexivity. Qed.

#[local] Hint Rewrite sleepsOf_app sleepsOf_log sleepsOf_nil sleepsOf_error
  writesOf_error requestsOf_error listingsOf_error : obs.

Section AllDocsMain.
Variable W : World.
Variable cfg : Config.
Variable slugify : jsstring -> SlugifyOptions -> jsstring.
Local Abbreviation docBody :=
  (fun doc : Doc =>
     console_log (lit "[main] Processing doc: " ++ doc_name doc
                  ++ lit " (" ++ doc_ident doc ++ lit ")") ;;
     pages <- AllDocs.getClickUpPages W cfg (doc_ident doc) ;;
     AllDocs.processPagesData W cfg slugify pages)%js
  (only parsing).
Local Abbreviation pair12 :=
  (fun r : jsstring * Z * Transport ResponseData => (fst (fst r), snd (fst r)))
  (only parsing).





End AllDocsMain.


Section AllDocsRuns.
Variable W : World.
Variable cfg : Config.
Variable slugify : jsstring -> SlugifyOptions -> jsstring.
Local Abbreviation pair12 :=
  (fun r : jsstring * Z * Transport ResponseData => (fst (fst r), snd (fst r)))
  (only parsing).
Local Abbreviation listingAt :=
  (fun h : list Event =>
     clickupDocs W
       ((h ++ [ConsoleLog (lit "[main] Starting main function")])
        ++ [ConsoleLog (lit "[getAllDocs] Fetching all docs from workspace")])
       (AllDocs.docsUrl cfg))
  (only parsing).
Local Abbreviation listingWhat :=
  ("Cannot read properties of undefined (reading 'length')"%string)
  (only parsing).


End AllDocsRuns.





(** X15.  The main script when the listing of the docs cannot be
    read (the request fails, or the answer holds no list): the listing is
    requested once and not again; no pages are requested, nothing is
    written and there is no pause; the error is logged by [getAllDocs] and
    then by [main], which returns normally. *)
Theorem AllDocs_main_without_listing (W : World) (cfg : Config)
        (slugify : jsstring -> SlugifyOptions -> jsstring) (h : list Event)
        (e : JsError) :
  let listing :=
    clickupDocs W
      ((h ++ [ConsoleLog (lit "[main] Starting main function")])
       ++ [ConsoleLog (lit "[getAllDocs] Fetching all docs from workspace")])
      (AllDocs.docsUrl cfg) in
  listingOf AllDocs.validateStatus
            "Cannot read properties of undefined (reading 'length')" listing
  = Throw e ->
  let run := AllDocs.main W cfg slugify h in
  fst run = Ok tt
  /\ listingsOf (snd run) = [(AllDocs.docsUrl cfg, listing)]
  /\ requestsOf (snd run) = []
  /\ writesOf (snd run) = []
  /\ sleepsOf (snd run) = []
  /\ (exists pre,
         errorsOf (snd run)
         = pre ++ [(lit "[getAllDocs] Error fetching docs:", e);
                   (lit "[main] An error occurred:", e)])
  /\ last (snd run) (ConsoleLog [])
     = ConsoleError (lit "[main] An error occurred:") (ErrorObject e).
Proof.
  cbn zeta. intros Hl.
  unfold AllDocs.main. rewrite bind_log. cbn [fst snd].
  set (h0 := h ++ [ConsoleLog (lit "[main] Starting main function")]) in *.
  destruct (AllDocs_getAllDocs_run W cfg h0) as (evs & Eg & Lg & Er & Rg & Wg & Sg).
  cbn zeta in *. rewrite Hl in Eg, Er. destruct Er as [pre Er].
  match goal with |- context [tryCatch ?m _ h0] =>
    assert (Em : m h0 = (Throw e, evs)) end.
  { rewrite (bind_throw _ _ _ _ _ Eg). reflexivity. }
  rewrite (tryCatch_throw _ _ _ _ _ Em). cbn [fst snd console_error emit].
  autorewrite with obs. rewrite Lg, Rg, Wg, Sg.
  change (errorsOf (ConsoleLog ?a :: ?t)) with (errorsOf t).
  rewrite errorsOf_app, Er.
  repeat split.
  - exists pre. rewrite <- app_assoc. reflexivity.
  - change (ConsoleLog ?a :: evs ++ [?x]) with ((ConsoleLog a :: evs) ++ [x]).
    apply last_last.
Qed.

(** The listing is answered with status 503. *)
Lemma AllDocs_main_without_listing_witness :
  let run := AllDocs.main worldListingDown sampleConfig sampleSlugify [] in
  requestsOf (snd run) = []
  /\ writesOf (snd run) = []
  /\ last (snd run) (ConsoleLog [])
     = ConsoleError (lit "[main] An error occurred:") (ErrorObject (BadStatus 503)).
Proof.
  cbn zeta.
  destruct (AllDocs_main_without_listing worldListingDown sampleConfig sampleSlugify
              [] (BadStatus 503) eq_refl)
    as (_ & _ & R & Wr & _ & _ & L).
  split; [exact R|]. split; [exact Wr | exact L].
Defined.

(* ================================================================== *)
(** * The script for one doc, from the fetch to its last line *)



Section SingleDocMain.
Variable W : World.
Variable cfg : Config.
Variable slugify : jsstring -> SlugifyOptions -> jsstring.
Local Abbreviation pair12 :=
  (fun r : jsstring * Z * Transport ResponseData => (fst (fst r), snd (fst r)))
  (only parsing).




End SingleDocMain.

Lemma SingleDoc_main_never_throws W cfg slugify h :
  fst (SingleDoc.main W cfg slugify h) = Ok tt.
Proof.
  unfold SingleDoc.main. rewrite bind_log. cbn [fst]. unfold tryCatch.
  match goal with |- context [match ?m ?h1 with _ => _ end] =>
    destruct (m h1) as [[[]|e] t] end; reflexivity.
Qed.



(* ================================================================== *)
(** * The check of the environment *)

Lemma missingOf_table (env : Env) (names : list string) :
  missingOf (map (fun n => (n, env n)) names)
  = filter (fun n => falsy (env n)) names.
Proof.
  unfold missingOf. induction names as [|n names IH]; [reflexivity|].
  cbn [map filter fst snd]. destruct (falsy (env n)); cbn [map fst]; rewrite IH;
    reflexivity.
Qed.

Lemma falsy_false_iff (value : option jsstring) :
  falsy value = false <-> exists v, value = Some v /\ v <> [].
Proof.
  destruct value as [[|c s]|]; cbn; split.
  - discriminate.
  - intros (v & [= <-] & H). congruence.
  - intros _. exists (c :: s). split; [reflexivity | discriminate].
  - reflexivity.
  - discriminate.
  - intros (v & H & _). discriminate H.
Qed.

Lemma filter_nil_iff {X} (f : X -> bool) (l : list X) :
  filter f l = [] <-> forall x, In x l -> f x = false.
Proof.
  induction l as [|x l IH]; cbn [filter In]; [tauto|].
  destruct (f x) eqn:E.
  - split; [discriminate|]. intros H. rewrite (H x (or_introl eq_refl)) in E.
    discriminate E.
  - rewrite IH. split.
    + intros H y [<-|Hy]; [exact E | apply H; exact Hy].
    + intros H y Hy. apply H. right. exact Hy.
Qed.

Lemma environment_complete (env : Env) (names : list string) :
  filter (fun n => falsy (env n)) names = []
  <-> forall n, In n names -> exists v, env n = Some v /\ v <> [].
Proof.
  rewrite filter_nil_iff. split; intros H n Hn; apply falsy_false_iff, H, Hn.
Qed.

(** X17.  Before it does anything else, every script lists the
    variables of the environment that it needs and that are not set or are
    set to the empty string, in the order in which the script names them,
    and throws an [Error] whose message ends with these names joined by
    [", "] unless the list is empty.  The check passes exactly when every
    needed variable holds a non-empty string.  The main script and the
    script that counts need six variables; the two scripts for one doc need
    [CLICKUP_DOC_ID] as well.  The main script and the script with the
    retrying fetch also log the names on [console.error]; the other two
    throw without logging. *)
Theorem startup_checks_environment (env : Env) :
  let six := ["CLICKUP_API_KEY"; "CLICKUP_WORKSPACE_ID"; "DUST_API_KEY";
              "DUST_WORKSPACE_ID"; "DUST_DATASOURCE_ID"; "DUST_VAULT_ID"]%string in
  let seven := ["CLICKUP_API_KEY"; "CLICKUP_WORKSPACE_ID"; "CLICKUP_DOC_ID";
                "DUST_API_KEY"; "DUST_WORKSPACE_ID"; "DUST_DATASOURCE_ID";
                "DUST_VAULT_ID"]%string in
  let unset := fun n => falsy (env n) in
  let complete := fun names : list string =>
                    forall n, In n names -> exists v, env n = Some v /\ v <> [] in
  let loaded := ConsoleLog (lit "[Environment Variables]: Loaded") in
  let reported := fun missing : list string =>
                    ConsoleError (lit "[Error]: Missing environment variables: "
                                  ++ join (lit ", ") (map lit missing)) NoDetail in
  (AllDocs.missingEnvVars env = filter unset six
   /\ (snd (AllDocs.startup env) = None <-> complete six)
   /\ AllDocs.startup env
      = match filter unset six with
        | [] => ([loaded], None)
        | missing => ([loaded; reported missing], Some (missingMessage missing))
        end)
  /\ (SingleDoc.missingEnvVars env = filter unset seven
      /\ (snd (SingleDoc.startup env) = None <-> complete seven)
      /\ SingleDoc.startup env
         = match filter unset seven with
           | [] => ([loaded], None)
           | missing => ([loaded; reported missing], Some (missingMessage missing))
           end)
  /\ (Batched.missingEnvVars env = filter unset seven
      /\ (snd (Batched.startup env) = None <-> complete seven)
      /\ Batched.startup env
         = match filter unset seven with
           | [] => ([], None)
           | missing => ([], Some (missingMessage missing))
           end)
  /\ (Counting.missingEnvVars env = filter unset six
      /\ (snd (Counting.startup env) = None <-> complete six)
      /\ Counting.startup env
         = match filter unset six with
           | [] => ([], None)
           | missing => ([], Some (missingMessage missing))
           end).
Proof.
  cbn zeta.
  set (six := ["CLICKUP_API_KEY"; "CLICKUP_WORKSPACE_ID"; "DUST_API_KEY";
               "DUST_WORKSPACE_ID"; "DUST_DATASOURCE_ID"; "DUST_VAULT_ID"]%string).
  set (seven := ["CLICKUP_API_KEY"; "CLICKUP_WORKSPACE_ID"; "CLICKUP_DOC_ID";
                 "DUST_API_KEY"; "DUST_WORKSPACE_ID"; "DUST_DATASOURCE_ID";
                 "DUST_VAULT_ID"]%string).
  assert (E6 : AllDocs.missingEnvVars env = filter (fun n => falsy (env n)) six)
    by apply (missingOf_table env six).
  assert (E7 : SingleDoc.missingEnvVars env = filter (fun n => falsy (env n)) seven)
    by apply (missingOf_table env seven).
  assert (B7 : Batched.missingEnvVars env = filter (fun n => falsy (env n)) seven)
    by apply (missingOf_table env seven).
  assert (C6 : Counting.missingEnvVars env = filter (fun n => falsy (env n)) six)
    by apply (missingOf_table env six).
  rewrite <- (environment_complete env six), <- (environment_complete env seven).
  unfold AllDocs.startup, SingleDoc.startup, Batched.startup, Counting.startup.
  rewrite E6, E7, B7, C6.
  destruct (filter (fun n => falsy (env n)) six) as [|a l];
    destruct (filter (fun n => falsy (env n)) seven) as [|b r];
    cbn [List.length Nat.ltb Nat.leb fst snd];
    repeat split; intros; congruence.
Qed.

Lemma launch_completes (t0 : list Event) (main : M unit) :
  fst (main t0) = Ok tt -> launch t0 main = (Completed, t0 ++ snd (main t0)).
Proof.
  intros H. unfold launch. destruct (main t0) as [[[]|e] t]; [reflexivity|].
  discriminate H.
Qed.

(** X18.  A script as a whole ends in an exception that nothing
    catches exactly when a variable that it needs is missing; it has then
    sent no request of any kind, and the message of the exception names the
    missing variables.  When no variable is missing the script runs [main]
    after the check, with the settings of the environment, and ends
    normally whatever the services answer; the identifiers that its urls
    are built from are then not empty. *)
Theorem scripts_need_their_environment (env : Env) (W : World)
        (slugify : jsstring -> SlugifyOptions -> jsstring) :
  let loaded := ConsoleLog (lit "[Environment Variables]: Loaded") in
  (match AllDocs.missingEnvVars env with
   | [] => AllDocs.script env W slugify
           = (Completed,
              loaded :: snd (AllDocs.main W (configOf env) slugify [loaded]))
   | missing => fst (AllDocs.script env W slugify)
                = Uncaught (missingMessage missing)
                /\ listingsOf (snd (AllDocs.script env W slugify)) = []
                /\ requestsOf (snd (AllDocs.script env W slugify)) = []
                /\ writesOf (snd (AllDocs.script env W slugify)) = []
   end)
  /\ (match SingleDoc.missingEnvVars env with
      | [] => SingleDoc.script env W slugify
              = (Completed,
                 loaded :: snd (SingleDoc.main W (configOf env) slugify [loaded]))
      | missing => fst (SingleDoc.script env W slugify)
                   = Uncaught (missingMessage missing)
                   /\ listingsOf (snd (SingleDoc.script env W slugify)) = []
                   /\ requestsOf (snd (SingleDoc.script env W slugify)) = []
                   /\ writesOf (snd (SingleDoc.script env W slugify)) = []
      end)
  /\ (match Counting.missingEnvVars env with
      | [] => Counting.script env W slugify
              = (Completed, snd (Counting.main W (configOf env) slugify []))
      | missing => Counting.script env W slugify
                   = (Uncaught (missingMessage missing), [])
      end)
  /\ (AllDocs.missingEnvVars env = [] ->
      CLICKUP_WORKSPACE_ID (configOf env) <> []
      /\ DUST_WORKSPACE_ID (configOf env) <> []
      /\ DUST_DATASOURCE_ID (configOf env) <> []
      /\ DUST_VAULT_ID (configOf env) <> []).
Proof.
  cbn zeta. split; [|split; [|split]].
  - unfold AllDocs.script, AllDocs.startup.
    destruct (AllDocs.missingEnvVars env) as [|a l]; cbn [List.length Nat.ltb Nat.leb].
    + apply launch_completes. apply AllDocs_main_never_throws.
    + repeat split.
  - unfold SingleDoc.script, SingleDoc.startup.
    destruct (SingleDoc.missingEnvVars env) as [|a l]; cbn [List.length Nat.ltb Nat.leb].
    + apply launch_completes. apply SingleDoc_main_never_throws.
    + repeat split.
  - unfold Counting.script, Counting.startup.
    destruct (Counting.missingEnvVars env) as [|a l]; cbn [List.length Nat.ltb Nat.leb].
    + apply (launch_completes [] (Counting.main W (configOf env) slugify)).
      apply Counting_main_never_throws.
    + reflexivity.
  - intros H.
    change (AllDocs.missingEnvVars env)
      with (missingOf (map (fun n => (n, env n))
              ["CLICKUP_API_KEY"; "CLICKUP_WORKSPACE_ID"; "DUST_API_KEY";
               "DUST_WORKSPACE_ID"; "DUST_DATASOURCE_ID"; "DUST_VAULT_ID"]%string)) in H.
    rewrite missingOf_table in H.
    rewrite environment_complete in H.
    assert (Set_ : forall n, In n ["CLICKUP_WORKSPACE_ID"; "DUST_WORKSPACE_ID";
                                   "DUST_DATASOURCE_ID"; "DUST_VAULT_ID"]%string ->
                             render (env n) <> []).
    { intros n Hn. destruct (H n) as (v & -> & Hv); [|exact Hv].
      cbn in Hn |- *. tauto. }
    unfold configOf. cbn [CLICKUP_WORKSPACE_ID DUST_WORKSPACE_ID DUST_DATASOURCE_ID
                          DUST_VAULT_ID].
    repeat split; apply Set_; cbn; tauto.
Qed.

(** An environment without [DUST_API_KEY] and with an empty
    [DUST_VAULT_ID]: the main script throws and names both. *)
Lemma scripts_need_their_environment_witness :
  AllDocs.missingEnvVars envTwoMissing = ["DUST_API_KEY"; "DUST_VAULT_ID"]%string
  /\ fst (AllDocs.script envTwoMissing (worldOk sampleTree) sampleSlugify)
     = Uncaught (lit ("Please provide values for the following environment "
                      ++ "variables in the .env file: DUST_API_KEY, DUST_VAULT_ID"))
  /\ AllDocs.missingEnvVars sampleEnv = []
  /\ CLICKUP_WORKSPACE_ID (configOf sampleEnv) <> []
  /\ fst (AllDocs.script sampleEnv (worldOk sampleTree) sampleSlugify) = Completed.
Proof.
  assert (M : AllDocs.missingEnvVars envTwoMissing
              = ["DUST_API_KEY"; "DUST_VAULT_ID"]%string) by (vm_compute; reflexivity).
  assert (N : AllDocs.missingEnvVars sampleEnv = []) by (vm_compute; reflexivity).
  split; [exact M|].
  pose proof (proj1 (scripts_need_their_environment envTwoMissing (worldOk sampleTree)
                       sampleSlugify)) as H1.
  pose proof (scripts_need_their_environment sampleEnv (worldOk sampleTree)
                sampleSlugify) as (H2 & _ & _ & H3).
  split; [etransitivity; [exact (proj1 H1)|vm_compute; reflexivity]|].
  split; [exact N|]. split; [exact (proj1 (H3 N))|].
  etransitivity; [exact (f_equal fst H2)|reflexivity].
Defined.

(* ================================================================== *)
(** * Two concrete fetches *)

(** A source that fails twice and then answers: the main script fetches the
    tree with its third request, after pauses of 2000 and 4000 ms. *)
Example AllDocs_fetch_from_a_flaky_source :
  let run := AllDocs.getClickUpPagesWithRetry (worldFlaky 2 sampleTree) sampleConfig
               (lit "doc1") [] in
  fst run = Ok (DataPages sampleTree)
  /\ List.length (requestsOf (snd run)) = 3%nat
  /\ sleepsOf (snd run) = [2000; 4000].
Proof. vm_compute. repeat split. Qed.

(** A source that answers 200 with the body [null]: the script for one doc
    asks three times and then raises the error of reading [length]. *)
Example SingleDoc_fetch_of_a_null_body :
  let run := SingleDoc.getClickUpPagesWithRetry worldNullBody sampleConfig
               (lit "doc1") [] in
  fst run = Throw (TypeError "Cannot read properties of null (reading 'length')")
  /\ List.length (requestsOf (snd run)) = 3%nat
  /\ sleepsOf (snd run) = [2000; 4000].
Proof. vm_compute. repeat split. Qed.
